(** * Chuti backend: the real-time messaging gateway and its content-safety
    pipeline

    A shallow embedding of the message path of the Chuti chat backend:

    - [Moderation]            : middleware/moderationMiddleware.js
                                (ContentModerationService and its wrappers,
                                sexualContentMiddleware)
    - [Message], [Chat], [User] : Models/Message.js, Models/Chat.js,
                                Models/User.js
    - [Monitoring]            : services/contentMonitoringService.js and
                                sendParentContentAlert of
                                services/emailService.js
    - [Socket]                : services/socketService.js (SocketService)
    - [Controller]            : Controllers/messageController.js, in the
                                version whose editMessage reads
                                [req.params.id]
    - [Routes]                : Routes/messageRoutes.js
    - [Gateway]               : the listeners and routes as turns of one
                                event loop

    Conventions.  Identifiers (Mongo ObjectIds, socket ids) are strings, and
    strings are written in UTF-8; dates are milliseconds since the epoch in
    [Z]; a JavaScript [Map] is a [gmap]; the socket.io adapter (room name ->
    connections) is a [gmap] of [gset]s.  A handler is run from its
    invocation to its completion as one turn on an explicit world state and
    returns the ordered list of the effects it performed; the calls that the
    [connection] and [disconnect] listeners start without awaiting them are
    also turns of their own in [Gateway].  The external classifier, the mail
    transport and the paging of a Mongo query are oracles bound as section
    variables.  Database calls are assumed not to fail for infrastructure
    reasons; schema validation on [save] is modelled, and so is the cast to
    ObjectId of the ids a client sends to the send paths and of the chat id
    the guardian notifier looks up.  Fields of the schemas that no modelled
    handler reads or writes are left out. *)

From Stdlib Require Import ZArith Ascii.
From stdpp Require Import base option list gmap strings fin_maps fin_sets.

Local Open Scope Z_scope.

(* ===================================================================== *)
(** ** JavaScript values and string helpers *)
(* ===================================================================== *)

Module JS.

(** The values a JSON payload field can hold, as far as the handlers
    distinguish them. *)
Inductive jsval :=
| JUndefined
| JNull
| JBool (b : bool)
| JNum (n : Z)
| JStr (s : string).

#[global] Instance jsval_eq_dec : EqDecision jsval.
Proof. solve_decision. Defined.

(** [!!v] *)
Definition truthy (v : jsval) : bool :=
  match v with
  | JUndefined | JNull => false
  | JBool b => b
  | JNum n => negb (n =? 0)
  | JStr s => negb (bool_decide (s = ""))
  end.

(** [v === true] *)
Definition strict_true (v : jsval) : bool :=
  match v with JBool true => true | _ => false end.

(** A string is written in UTF-8, as it travels in a JSON payload.  The
    white space and line terminators of ECMAScript are TAB, LF, VT, FF, CR
    and SP, and beyond ASCII U+00A0 (bytes C2 A0), U+1680 (E1 9A 80),
    U+2000 to U+200A, U+2028, U+2029 and U+202F (E2 80 followed by 80 to
    8A, A8, A9, AF), U+205F (E2 81 9F), U+3000 (E3 80 80) and U+FEFF
    (EF BB BF). *)
Definition space2 (a b : ascii) : bool :=
  ((N_of_ascii a =? 194) && (N_of_ascii b =? 160))%N.

Definition space3 (a b c : ascii) : bool :=
  let x := N_of_ascii a in
  let y := N_of_ascii b in
  let z := N_of_ascii c in
  (((x =? 225) && (y =? 154) && (z =? 128))
   || ((x =? 226) && (y =? 128)
       && (((128 <=? z) && (z <=? 138))
           || (z =? 168) || (z =? 169) || (z =? 175)))
   || ((x =? 226) && (y =? 129) && (z =? 159))
   || ((x =? 227) && (y =? 128) && (z =? 128))
   || ((x =? 239) && (y =? 187) && (z =? 191)))%N.

(** Drop the white space [s] starts with.  With [back], [s] is a string
    read from its end, so the bytes of a character come last byte first. *)
Fixpoint strip (back : bool) (s : string) : string :=
  match s with
  | EmptyString => EmptyString
  | String a s1 =>
      if Ascii.is_space a then strip back s1
      else
        match s1 with
        | EmptyString => s
        | String b s2 =>
            if (if back then space2 b a else space2 a b) then strip back s2
            else
              match s2 with
              | EmptyString => s
              | String c s3 =>
                  if (if back then space3 c b a else space3 a b c)
                  then strip back s3
                  else s
              end
        end
  end.

(** [String.prototype.trimStart] *)
Definition trimStart (s : string) : string := strip false s.

(** [String.prototype.trimEnd] *)
Definition trimEnd (s : string) : string :=
  String.rev (strip true (String.rev s)).

(** [String.prototype.trim] *)
Definition trim (s : string) : string := trimEnd (trimStart s).

(** The UTF-16 code units a character takes, read off the first byte of its
    UTF-8 sequence: none for a continuation byte, two for the first byte of
    a four-byte sequence (a character beyond the Basic Multilingual Plane),
    one otherwise. *)
Definition units (a : ascii) : nat :=
  let x := N_of_ascii a in
  if (x <? 128)%N then 1%nat
  else if (x <? 192)%N then 0%nat
  else if (x <? 240)%N then 1%nat
  else 2%nat.

(** [s.length], in UTF-16 code units. *)
Fixpoint utf16_length (s : string) : nat :=
  match s with
  | EmptyString => 0%nat
  | String a s' => (units a + utf16_length s')%nat
  end.

(** [s.trim().length === 0] *)
Definition blank (s : string) : bool := bool_decide (trim s = "").

(** [s.substring(0, n)] *)
Definition prefix (n : nat) (s : string) : string := String.substring 0 n s.

(** Exceptions are values; a computation either returns or throws. *)
Inductive result (A : Type) :=
| Ok (a : A)
| Throw (msg : string).
Arguments Ok {A} a.
Arguments Throw {A} msg.

Definition bind {A B} (r : result A) (k : A -> result B) : result B :=
  match r with
  | Ok a => k a
  | Throw m => Throw m
  end.

End JS.

Import JS.

(* ===================================================================== *)
(** ** Mongo ObjectIds *)
(* ===================================================================== *)

Module ObjectId.

Definition hex (a : ascii) : bool :=
  let x := N_of_ascii a in
  (((48 <=? x) && (x <=? 57)) || ((97 <=? x) && (x <=? 102))
   || ((65 <=? x) && (x <=? 70)))%N.

Fixpoint all_hex (s : string) : bool :=
  match s with
  | EmptyString => true
  | String a s' => hex a && all_hex s'
  end.

(** The test bson makes of a string given where an ObjectId is expected: 24
    hexadecimal digits.  (Before version 6 bson also took any string of 12
    characters; such strings are taken as malformed here.) *)
Definition valid (s : string) : bool :=
  bool_decide (String.length s = 24%nat) && all_hex s.

Definition lower (a : ascii) : ascii :=
  let x := N_of_ascii a in
  if ((65 <=? x) && (x <=? 70))%N then ascii_of_N (x + 32) else a.

(** [ObjectId.prototype.toString]: the digits, in lower case. *)
Fixpoint toString (s : string) : string :=
  match s with
  | EmptyString => EmptyString
  | String a s' => String (lower a) (toString s')
  end.

(** The cast mongoose applies to an id a client sent, against the
    collection [coll] the id refers to.  Documents are kept under their
    [_id], so the key of a stored document is an ObjectId as it stands; any
    other string is one when it has 24 hexadecimal digits, and is then read
    in lower case; the cast of anything else throws a [CastError]. *)
Definition cast {A} (coll : gmap string A) (id : string) : result string :=
  if bool_decide (is_Some (coll !! id)) then Ok id
  else if valid id then Ok (toString id)
  else Throw "Cast to ObjectId failed".

(** [Model.findById(id)]: the document with the key it is kept under, or
    null; the cast of [id] comes first. *)
Definition findById {A} (coll : gmap string A) (id : string)
  : result (option (string * A)) :=
  bind (cast coll id) (fun k => Ok (pair k <$> coll !! k)).

End ObjectId.

(* ===================================================================== *)
(** ** middleware/moderationMiddleware.js *)
(* ===================================================================== *)

Module Moderation.

(** What [axios.post] to the classifier does: it resolves with the body's
    [result] field, or rejects with an error carrying an optional [code]
    and a [message]. *)
Inductive http_outcome :=
| HttpResponse (result : jsval)
| HttpError (code : option string) (message : string).

(** The [error] property of a moderation result: not set, [null], or a
    string. *)
Inductive err_field :=
| ErrAbsent
| ErrNull
| ErrMsg (s : string).

(** The object [checkSexualContent] resolves with. *)
Record ModerationResult := {
  is_sexual : bool;
  message : string;
  error : err_field;
  raw_response : option jsval
}.

#[global] Instance err_field_eq_dec : EqDecision err_field.
Proof. solve_decision. Defined.
#[global] Instance ModerationResult_eq_dec : EqDecision ModerationResult.
Proof. solve_decision. Defined.

Definition empty_approved : ModerationResult :=
  {| is_sexual := false; message := "Empty text - approved";
     error := ErrNull; raw_response := None |}.

Definition service_unavailable : ModerationResult :=
  {| is_sexual := false;
     message := "Moderation service unavailable - approved";
     error := ErrMsg "service_unavailable"; raw_response := None |}.

Definition moderation_error (msg : string) : ModerationResult :=
  {| is_sexual := false; message := "Moderation error - approved";
     error := ErrMsg msg; raw_response := None |}.

Definition classified (result : jsval) : ModerationResult :=
  let flagged := strict_true result in
  {| is_sexual := flagged;
     message := if flagged then "Sexual content detected - blocked"
                else "Content approved";
     error := ErrAbsent; raw_response := Some result |}.

(** [error.code === 'ECONNREFUSED' || error.code === 'ETIMEDOUT'] *)
Definition unavailable_code (code : option string) : bool :=
  match code with
  | Some c => bool_decide (c = "ECONNREFUSED") || bool_decide (c = "ETIMEDOUT")
  | None => false
  end.

(** The guard of [checkSexualContent] and of [sexualContentMiddleware]:
    [!text || typeof text !== 'string' || text.trim().length === 0]. *)
Definition no_text (text : jsval) : bool :=
  match text with
  | JStr s => blank s
  | _ => true
  end.

(** The text posted to the classifier ([text.trim()]), when the guard lets a
    request be made. *)
Definition request_text (text : jsval) : option string :=
  match text with
  | JStr s => if blank s then None else Some (trim s)
  | _ => None
  end.

Section Service.
(** The classifier behind [POST /v1/api/check-mzg], bounded by the
    3 second timeout. *)
Variable classify : string -> http_outcome.

(** The [catch] block of [checkSexualContent]. *)
Definition on_request_error (code : option string) (msg : string)
  : ModerationResult :=
  if unavailable_code code then service_unavailable
  else moderation_error msg.

(** [ContentModerationService.checkSexualContent] *)
Definition serviceCheckSexualContent (text : jsval) : ModerationResult :=
  match request_text text with
  | None => empty_approved
  | Some t =>
      match classify t with
      | HttpResponse result => classified result
      | HttpError code msg => on_request_error code msg
      end
  end.

(** The exported [checkSexualContent] and [moderateSocketMessage]: both
    await the service method inside a [try]; the service method resolves
    on every path, so their [catch] blocks are never entered. *)
Definition checkSexualContent (text : jsval) : ModerationResult :=
  serviceCheckSexualContent text.

Definition moderateSocketMessage (content : jsval) : ModerationResult :=
  serviceCheckSexualContent content.

(** What [sexualContentMiddleware] does with a request. *)
Inductive middleware_outcome :=
| Next (moderation : option ModerationResult)
| Blocked400.

(** [sexualContentMiddleware]; its [catch], which also calls [next()], is
    not entered since the service method resolves on every path. *)
Definition sexualContentMiddleware (content : jsval) : middleware_outcome :=
  if no_text content then Next None
  else
    let moderation := serviceCheckSexualContent content in
    if is_sexual moderation then Blocked400
    else Next (Some moderation).

End Service.

End Moderation.


(* ===================================================================== *)
(** ** Models/Message.js, Models/Chat.js, Models/User.js *)
(* ===================================================================== *)

Module Message.

Record ReadEntry := { re_user : string; readAt : Z }.

Record Reaction := { r_user : string; emoji : string; r_createdAt : Z }.

Record t := {
  content : string;
  sender : string;
  chat : string;
  messageType : string;
  isEdited : bool;
  editedAt : option Z;
  isDeleted : bool;
  readBy : list ReadEntry;
  replyTo : option string;
  reactions : list Reaction;
  createdAt : Z
}.

#[global] Instance ReadEntry_eq_dec : EqDecision ReadEntry.
Proof. solve_decision. Defined.
#[global] Instance Reaction_eq_dec : EqDecision Reaction.
Proof. solve_decision. Defined.
#[global] Instance t_eq_dec : EqDecision t.
Proof. solve_decision. Defined.

(** [enum: ['text', 'image', 'file', 'system']] *)
Definition messageTypes : list string := ["text"; "image"; "file"; "system"].

(** The schema validators [save] runs: [content] is required and at most
    1000 characters ([maxlength] compares [value.length], so UTF-16 code
    units), [sender] and [chat] are required, [messageType] is one of the
    enum, every reaction has an [emoji]. *)
Definition valid (m : t) : bool :=
  negb (bool_decide (content m = ""))
  && bool_decide (utf16_length (content m) <= 1000)%nat
  && negb (bool_decide (sender m = ""))
  && negb (bool_decide (chat m = ""))
  && bool_decide (messageType m ∈ messageTypes)
  && forallb (fun r => negb (bool_decide (emoji r = ""))) (reactions m).

(** [new Message({content, messageType, sender, chat, replyTo})] with the
    schema defaults; [timestamps: true] stamps [createdAt]. *)
Definition create (content messageType sender chat : string)
    (replyTo : option string) (now : Z) : t :=
  {| content := content; sender := sender; chat := chat;
     messageType := messageType; isEdited := false; editedAt := None;
     isDeleted := false; readBy := []; replyTo := replyTo; reactions := [];
     createdAt := now |}.

Definition set_content (c : string) (now : Z) (m : t) : t :=
  {| content := c; sender := sender m; chat := chat m;
     messageType := messageType m; isEdited := true; editedAt := Some now;
     isDeleted := isDeleted m; readBy := readBy m; replyTo := replyTo m;
     reactions := reactions m; createdAt := createdAt m |}.

Definition set_readBy (l : list ReadEntry) (m : t) : t :=
  {| content := content m; sender := sender m; chat := chat m;
     messageType := messageType m; isEdited := isEdited m;
     editedAt := editedAt m; isDeleted := isDeleted m; readBy := l;
     replyTo := replyTo m; reactions := reactions m;
     createdAt := createdAt m |}.

Definition set_reactions (l : list Reaction) (m : t) : t :=
  {| content := content m; sender := sender m; chat := chat m;
     messageType := messageType m; isEdited := isEdited m;
     editedAt := editedAt m; isDeleted := isDeleted m; readBy := readBy m;
     replyTo := replyTo m; reactions := l; createdAt := createdAt m |}.

Definition set_replyTo (r : option string) (m : t) : t :=
  {| content := content m; sender := sender m; chat := chat m;
     messageType := messageType m; isEdited := isEdited m;
     editedAt := editedAt m; isDeleted := isDeleted m; readBy := readBy m;
     replyTo := r; reactions := reactions m; createdAt := createdAt m |}.

(** Is [u] in the read set ([readBy.user] equals [u] for some entry)? *)
Definition read_by (u : string) (m : t) : bool :=
  existsb (fun e => bool_decide (re_user e = u)) (readBy m).

End Message.

Module Chat.

(** A membership.  [user] is [None] when the reference is null. *)
Record participant := {
  user : option string;
  role : string;
  p_isActive : bool
}.

Record t := {
  chatType : string;
  participants : list participant;
  lastMessage : option string;
  lastActivity : Z;
  isActive : bool
}.

#[global] Instance participant_eq_dec : EqDecision participant.
Proof. solve_decision. Defined.
#[global] Instance t_eq_dec : EqDecision t.
Proof. solve_decision. Defined.

(** [chatSchema.methods.isParticipant] *)
Definition isParticipant (c : t) (userId : string) : bool :=
  existsb (fun p =>
    match user p with
    | None => false
    | Some participantUserId =>
        bool_decide (participantUserId = userId) && p_isActive p
    end) (participants c).

(** The filter [{'participants.user': u, 'participants.isActive': true,
    isActive: true}]: each array condition is met by some element. *)
Definition lists_user (u : string) (c : t) : bool :=
  existsb (fun p => bool_decide (user p = Some u)) (participants c)
  && existsb p_isActive (participants c)
  && isActive c.

Definition touch (messageId : string) (now : Z) (c : t) : t :=
  {| chatType := chatType c; participants := participants c;
     lastMessage := Some messageId; lastActivity := now;
     isActive := isActive c |}.

End Chat.

Module User.

Record t := {
  username : string;
  fullName : option string;
  email : string;
  parentEmail : option string;
  age : Z;
  isOnline : bool;
  lastSeen : Z;
  presenceStatus : string
}.

#[global] Instance t_eq_dec : EqDecision t.
Proof. solve_decision. Defined.

Definition set_online (online : bool) (now : Z) (u : t) : t :=
  {| username := username u; fullName := fullName u; email := email u;
     parentEmail := parentEmail u; age := age u; isOnline := online;
     lastSeen := now; presenceStatus := presenceStatus u |}.

Definition set_presence (status : string) (now : Z) (u : t) : t :=
  {| username := username u; fullName := fullName u; email := email u;
     parentEmail := parentEmail u; age := age u; isOnline := isOnline u;
     lastSeen := now; presenceStatus := status |}.

End User.

(** The three collections. *)
Record store := {
  messages : gmap string Message.t;
  chats : gmap string Chat.t;
  users : gmap string User.t
}.

Definition set_messages (ms : gmap string Message.t) (db : store) : store :=
  {| messages := ms; chats := chats db; users := users db |}.

Definition set_chats (cs : gmap string Chat.t) (db : store) : store :=
  {| messages := messages db; chats := cs; users := users db |}.

Definition set_users (us : gmap string User.t) (db : store) : store :=
  {| messages := messages db; chats := chats db; users := us |}.

(* ===================================================================== *)
(** ** Effects, the deferred-task queue and the world *)
(* ===================================================================== *)

(** The alert handed to [sendParentContentAlert]. *)
Record alert := {
  a_to : string;
  a_childName : string;
  a_childEmail : string;
  a_contentType : string;
  a_chatType : string;
  a_otherParticipants : string;
  a_contentPreview : string
}.

(** The callback [sendParentNotificationAsync] hands to [setImmediate]. *)
Record task := {
  t_content : jsval;
  t_senderId : string;
  t_chatId : string;
  t_contentType : string
}.

(** Where a socket.io emit is addressed. *)
Inductive dest :=
| ToSocket (socketId : string)              (* socket.emit *)
| ToRoom (room : string)                    (* io.to(room).emit *)
| ToRoomExcept (room : string) (socketId : string) (* socket.to(room).emit *)
| ToAll.                                    (* io.emit *)

Inductive payload :=
| PError (message : string)
| PBlocked (reason : option string) (message : option string)
| PMessage (messageId : string) (m : Message.t)
| PSent (messageId : string)
| PRead (chatId : string) (messageIds : list string) (readBy : string)
| PMember (userId : string) (username : string)
| PPresence (userId : string) (isOnline : bool) (lastSeen : Z)
| PStatus (userId : string) (status : string) (lastSeen : Z)
| PTyping (userId : string) (username : string) (chatId : string)
| PPong (originalData : string)
| PReactions (messageId : string) (reactions : list Message.Reaction)
| POther (data : string).

(** What a handler does to the outside, in order.  Of the console only
    [console.error] lines are kept. *)
Inductive effect :=
| ClassifierRequest (text : string)
| Emit (d : dest) (event : string) (p : payload)
| Mail (a : alert) (delivered : bool)
| Incident (contentType userId chatId content : string)
| ConsoleError (what : string).

#[global] Instance alert_eq_dec : EqDecision alert.
Proof. solve_decision. Defined.
#[global] Instance task_eq_dec : EqDecision task.
Proof. solve_decision. Defined.
#[global] Instance dest_eq_dec : EqDecision dest.
Proof. solve_decision. Defined.
#[global] Instance payload_eq_dec : EqDecision payload.
Proof. solve_decision. Defined.
#[global] Instance effect_eq_dec : EqDecision effect.
Proof. solve_decision. Defined.

(** The process: the database, the two maps of [SocketService], the
    socket.io adapter and the pending [setImmediate] callbacks. *)
Record world := {
  db : store;
  connectedUsers : gmap string string;   (* userId -> socketId *)
  userSockets : gmap string string;      (* socketId -> userId *)
  rooms : gmap string (gset string);     (* room -> socket ids *)
  immediates : list task
}.

Definition set_db (d : store) (w : world) : world :=
  {| db := d; connectedUsers := connectedUsers w;
     userSockets := userSockets w; rooms := rooms w;
     immediates := immediates w |}.

Definition set_rooms (r : gmap string (gset string)) (w : world) : world :=
  {| db := db w; connectedUsers := connectedUsers w;
     userSockets := userSockets w; rooms := r;
     immediates := immediates w |}.

Definition set_maps (cu us : gmap string string) (w : world) : world :=
  {| db := db w; connectedUsers := cu; userSockets := us; rooms := rooms w;
     immediates := immediates w |}.

Definition set_immediates (q : list task) (w : world) : world :=
  {| db := db w; connectedUsers := connectedUsers w;
     userSockets := userSockets w; rooms := rooms w; immediates := q |}.

(** The connections in a room. *)
Definition members (w : world) (room : string) : gset string :=
  default ∅ (rooms w !! room).

(** The connections an emit addressed to [d] is delivered to; [live] is the
    set of open connections. *)
Definition receivers (w : world) (live : gset string) (d : dest)
  : gset string :=
  match d with
  | ToSocket sid => {[ sid ]}
  | ToRoom room => members w room
  | ToRoomExcept room sid => members w room ∖ {[ sid ]}
  | ToAll => live
  end.

(** [event] is emitted by [e]. *)
Definition emits (event : string) (e : effect) : bool :=
  match e with
  | Emit _ ev _ => bool_decide (ev = event)
  | _ => false
  end.

Definition is_emit (e : effect) : bool :=
  match e with Emit _ _ _ => true | _ => false end.

(** An effect of the guardian notifier: a mail attempt, an incident entry or
    a console line; neither an emit nor a classifier request. *)
Definition background (e : effect) : bool :=
  match e with
  | Mail _ _ | Incident _ _ _ _ | ConsoleError _ => true
  | _ => false
  end.

(** [e] reaches no connection but [sid], and is not a [newMessage]: it is
    not an emit at all, or it is [socket.emit] of another event on [sid]. *)
Definition to_sender_only (sid : string) (e : effect) : bool :=
  match e with
  | Emit (ToSocket s) ev _ =>
      bool_decide (s = sid) && negb (bool_decide (ev = "newMessage"))
  | Emit _ _ _ => false
  | _ => true
  end.

(* ===================================================================== *)
(** ** services/contentMonitoringService.js *)
(* ===================================================================== *)

Module Monitoring.

(** The object [quickContentCheck] and [monitorTextContent] resolve with. *)
Record MonitoringResult := {
  blocked : bool;
  reason : option string;
  message : option string;
  approved : option bool;
  error : option string
}.

#[global] Instance MonitoringResult_eq_dec : EqDecision MonitoringResult.
Proof. solve_decision. Defined.

Definition blocked_result : MonitoringResult :=
  {| blocked := true; reason := Some "sexual_content";
     message := Some "Your message contains inappropriate content and has been blocked. Please keep conversations appropriate.";
     approved := None; error := None |}.

Definition approved_result : MonitoringResult :=
  {| blocked := false; reason := None; message := None;
     approved := Some true; error := None |}.

Definition error_result (msg : string) : MonitoringResult :=
  {| blocked := false; reason := None; message := None; approved := None;
     error := Some msg |}.

Section Service.
Variable classify : string -> Moderation.http_outcome.
(** [transporter.sendMail]: does the mail go out? *)
Variable sendMail : alert -> bool.

(** [quickContentCheck]; the callee resolves on every path, so the [catch]
    is not entered. *)
Definition quickContentCheck (content : jsval) (senderId : string)
  : MonitoringResult :=
  let moderationResult := Moderation.checkSexualContent classify content in
  if Moderation.is_sexual moderationResult then blocked_result
  else approved_result.

(** [sendParentNotificationAsync]: nothing but [setImmediate(callback)]. *)
Definition sendParentNotificationAsync (content : jsval)
    (senderId chatId contentType : string) (queue : list task) : list task :=
  queue ++ [ {| t_content := content; t_senderId := senderId;
                t_chatId := chatId; t_contentType := contentType |} ].

(** [monitorTextContent]: the verdict, the classifier requests made, and the
    [setImmediate] queue afterwards. *)
Definition monitorTextContent (content : jsval) (senderId chatId : string)
    (queue : list task)
  : result MonitoringResult * list effect * list task :=
  let quickCheck := quickContentCheck content senderId in
  let requests :=
    ClassifierRequest <$> option_list (Moderation.request_text content) in
  if blocked quickCheck
  then (Ok quickCheck, requests,
        sendParentNotificationAsync content senderId chatId "text" queue)
  else (Ok approved_result, requests, queue).

(** [sendParentContentAlert] (services/emailService.js): any transport
    failure is rethrown as a fresh error. *)
Definition sendParentContentAlert (a : alert) : result unit * list effect :=
  if sendMail a then (Ok tt, [Mail a true])
  else (Throw "Failed to send parent content alert email",
        [Mail a false;
         ConsoleError "Error sending parent content alert email"]).

(** [content.substring(0, n) + '...'], a [TypeError] unless [content] is a
    string. *)
Definition preview (contentType : string) (content : jsval) (n : nat)
  : result string :=
  if bool_decide (contentType = "text") then
    match content with
    | JStr s => Ok (prefix n s +:+ "...")
    | _ => Throw "content.substring is not a function"
    end
  else Ok "Image content".

(** [p.user.username] of the participants other than the sender, populated
    from the users collection; a null reference throws. *)
Fixpoint otherParticipants (us : gmap string User.t) (senderId : string)
    (ps : list Chat.participant) : result (list string) :=
  match ps with
  | [] => Ok []
  | p :: ps' =>
      match Chat.user p ≫= fun u => pair u <$> us !! u with
      | None => Throw "Cannot read properties of null"
      | Some (u, doc) =>
          bind (otherParticipants us senderId ps') (fun names =>
            Ok (if bool_decide (u = senderId) then names
                else User.username doc :: names))
      end
  end.

(** [names.join(', ')] *)
Fixpoint join (names : list string) : string :=
  match names with
  | [] => ""
  | [n] => n
  | n :: rest => n +:+ ", " +:+ join rest
  end.

(** [!sender.parentEmail] *)
Definition no_parentEmail (u : User.t) : bool :=
  match User.parentEmail u with
  | None => true
  | Some e => bool_decide (e = "")
  end.

(** The inner [try] of the callback: compose and send the alert; [chat] is
    what [Chat.findById(chatId)] resolved with. *)
Definition send_alert (d : store) (sender : User.t) (parent : string)
    (tk : task) (chat : option Chat.t) : result unit * list effect :=
  let names :=
    match chat with
    | Some c =>
        bind (otherParticipants (users d) (t_senderId tk) (Chat.participants c))
             (fun l => Ok (join l))
    | None => Ok "Unknown"
    end in
  match names with
  | Throw m => (Throw m, [])
  | Ok chatParticipants =>
      match preview (t_contentType tk) (t_content tk) 50 with
      | Throw m => (Throw m, [])
      | Ok contentPreview =>
          sendParentContentAlert
            {| a_to := parent;
               a_childName := default (User.username sender)
                 (User.fullName sender ≫= fun n =>
                    if bool_decide (n = "") then None else Some n);
               a_childEmail := User.email sender;
               a_contentType := t_contentType tk;
               a_chatType :=
                 default "unknown"
                   (chat ≫= fun c =>
                      if bool_decide (Chat.chatType c = "") then None
                      else Some (Chat.chatType c));
               a_otherParticipants := chatParticipants;
               a_contentPreview := contentPreview |}
      end
  end.

(** The body of the [setImmediate] callback, before its outer [catch].  The
    sender is looked up under [senderId] as it stands: it is
    [socket.userId], an [_id] as stored.  [chatId] is what the client sent,
    and [Chat.findById(chatId)] sits before the inner [try]: when its cast
    throws, the body ends there. *)
Definition notify_body (d : store) (tk : task) : result unit * list effect :=
  match users d !! t_senderId tk with
  | None => (Ok tt, [ConsoleError "Sender not found for parent notification"])
  | Some sender =>
      if no_parentEmail sender then (Ok tt, [])
      else
        match ObjectId.findById (chats d) (t_chatId tk) with
        | Throw m => (Throw m, [])
        | Ok chat =>
            let '(sent, fx) :=
              send_alert d sender (default "" (User.parentEmail sender)) tk
                         (snd <$> chat) in
            let fx' :=
              match sent with
              | Ok _ => fx
              | Throw _ =>
                  fx ++ [ConsoleError
                           "Failed to send parent notification (async)"]
              end in
            match preview (t_contentType tk) (t_content tk) 100 with
            | Throw m => (Throw m, fx')
            | Ok c =>
                (Ok tt, fx' ++ [Incident (t_contentType tk) (t_senderId tk)
                                         (t_chatId tk) c])
            end
        end
  end.

(** The [setImmediate] callback of [sendParentNotificationAsync]: the body
    under its outer [try]/[catch]. *)
Definition notify (d : store) (tk : task) : result unit * list effect :=
  match notify_body d tk with
  | (Ok _, fx) => (Ok tt, fx)
  | (Throw _, fx) =>
      (Ok tt, fx ++ [ConsoleError "Error in async parent notification"])
  end.

End Service.

End Monitoring.

(* ===================================================================== *)
(** ** services/socketService.js *)
(* ===================================================================== *)

Module Socket.

(** An authenticated connection: [socket.id], [socket.userId] and
    [socket.user.username], set by [authenticateSocket]. *)
Record socket := { id : string; userId : string; username : string }.

(** The payload of [sendMessage]; an absent [chatId] is the empty string,
    [messageType] and [replyTo] take their defaults when absent. *)
Record sendMessageData := {
  chatId : string;
  content : jsval;
  messageType : option string;
  replyTo : option string
}.

(** The payload of [markMessagesRead]; [messageIds] is [None] when it is not
    an array. *)
Record markReadData := {
  mr_chatId : string;
  messageIds : option (list string)
}.

Definition user_room (userId : string) : string := "user_" +:+ userId.
Definition chat_room (chatId : string) : string := "chat_" +:+ chatId.

(** [socket.join(room)] *)
Definition join (room sid : string) (w : world) : world :=
  set_rooms (<[room := {[ sid ]} ∪ members w room]> (rooms w)) w.

(** [socket.leave(room)] *)
Definition leave (room sid : string) (w : world) : world :=
  set_rooms (<[room := members w room ∖ {[ sid ]}]> (rooms w)) w.

(** What socket.io does to the adapter when a connection closes, before the
    [disconnect] listeners run. *)
Definition leave_all (sid : string) (w : world) : world :=
  set_rooms ((fun s : gset string => s ∖ {[ sid ]}) <$> rooms w) w.

(** [$addToSet]: append unless an equal element is there. *)
Definition addToSet {A} `{EqDecision A} (x : A) (l : list A) : list A :=
  if decide (x ∈ l) then l else l ++ [x].

(** The [Message.updateMany] of [markMessagesRead]: the filter
    [{_id: {$in: messageIds}, chat: chatId, 'readBy.user': {$ne: userId}}]
    and the update [{$addToSet: {readBy: {user: userId, readAt: now}}}]. *)
Definition mark_read (userId chatId : string) (ids : list string) (now : Z)
    (ms : gmap string Message.t) : gmap string Message.t :=
  map_imap (fun messageId m =>
    Some (if bool_decide (messageId ∈ ids)
             && bool_decide (Message.chat m = chatId)
             && negb (Message.read_by userId m)
          then Message.set_readBy
                 (addToSet {| Message.re_user := userId;
                              Message.readAt := now |} (Message.readBy m)) m
          else m)) ms.

(** Keep the first occurrence of each element, as insertion into a [Set]
    does. *)
Fixpoint dedup (seen l : list string) : list string :=
  match l with
  | [] => []
  | x :: l' =>
      if decide (x ∈ seen) then dedup seen l' else x :: dedup (x :: seen) l'
  end.

(** [participant.user._id.toString()] for each participant of a chat whose
    [participants.user] was populated; a null reference throws. *)
Fixpoint populated_ids (us : gmap string User.t)
    (ps : list Chat.participant) : result (list string) :=
  match ps with
  | [] => Ok []
  | p :: ps' =>
      match Chat.user p with
      | Some u =>
          if bool_decide (is_Some (us !! u))
          then bind (populated_ids us ps') (fun l => Ok (u :: l))
          else Throw "Cannot read properties of null"
      | None => Throw "Cannot read properties of null"
      end
  end.

Fixpoint all_ids (us : gmap string User.t) (cs : list Chat.t)
  : result (list string) :=
  match cs with
  | [] => Ok []
  | c :: cs' =>
      bind (populated_ids us (Chat.participants c)) (fun l =>
        bind (all_ids us cs') (fun l' => Ok (l ++ l')))
  end.

(** The chats [Chat.find] returns for a user. *)
Definition userChats (d : store) (userId : string) : list (string * Chat.t) :=
  filter (fun kc => Chat.lists_user userId kc.2 = true) (map_to_list (chats d)).

(** The [contactIds] set of [updateUserOnlineStatus]. *)
Definition contactIds (d : store) (userId : string) : result (list string) :=
  bind (all_ids (users d) (userChats d userId).*2) (fun l =>
    Ok (dedup [] (filter (fun u => u ≠ userId) l))).

(** [updateUserOnlineStatus] *)
Definition updateUserOnlineStatus (userId : string) (isOnline : bool)
    (now : Z) (w : world) : world * list effect :=
  let w' :=
    set_db (set_users (alter (User.set_online isOnline now) userId
                             (users (db w))) (db w)) w in
  match contactIds (db w') userId with
  | Ok ids =>
      (w', (fun c => Emit (ToRoom (user_room c)) "presenceUpdate"
                          (PPresence userId isOnline now)) <$> ids)
  | Throw _ => (w', [ConsoleError "Update online status error"])
  end.

(** [joinUserChats] *)
Definition joinUserChats (sock : socket) (w : world) : world :=
  foldl (fun w' kc => join (chat_room kc.1) (id sock) w') w
        (userChats (db w) (userId sock)).

(** The [connection] listener of [setupSocketHandlers] up to its return:
    the two maps are written and the connection enters its personal room.
    The listener also calls [joinUserChats] and [updateUserOnlineStatus],
    without awaiting them: each stops at its first query and does its work
    in a later turn. *)
Definition register (sock : socket) (w : world) : world :=
  join (user_room (userId sock)) (id sock)
       (set_maps (<[userId sock := id sock]> (connectedUsers w))
                 (<[id sock := userId sock]> (userSockets w)) w).

(** The [connection] listener followed at once by the work of the two calls
    it starts, as when no other turn runs before they are done.  [Gateway]
    also has the three as turns of their own. *)
Definition connection (sock : socket) (now : Z) (w : world)
  : world * list effect :=
  let w1 := set_maps (<[userId sock := id sock]> (connectedUsers w))
                     (<[id sock := userId sock]> (userSockets w)) w in
  let w2 := join (user_room (userId sock)) (id sock) w1 in
  let w3 := joinUserChats sock w2 in
  updateUserOnlineStatus (userId sock) true now w3.

(** [handleDisconnection] up to its return: the two entries are deleted;
    the call of [updateUserOnlineStatus] is not awaited. *)
Definition unregister (sock : socket) (w : world) : world :=
  set_maps (delete (userId sock) (connectedUsers w))
           (delete (id sock) (userSockets w)) w.

(** [handleDisconnection], followed at once by the work of the call it
    starts. *)
Definition handleDisconnection (sock : socket) (now : Z) (w : world)
  : world * list effect :=
  let w1 := set_maps (delete (userId sock) (connectedUsers w))
                     (delete (id sock) (userSockets w)) w in
  updateUserOnlineStatus (userId sock) false now w1.

(** A connection closes: socket.io empties its rooms, then the [disconnect]
    listener calls [handleDisconnection]. *)
Definition disconnect (sock : socket) (now : Z) (w : world)
  : world * list effect :=
  handleDisconnection sock now (leave_all (id sock) w).

(** [emitToUser] *)
Definition emitToUser (w : world) (userId event : string) (data : payload)
  : list effect :=
  match connectedUsers w !! userId with
  | Some socketId =>
      if bool_decide (socketId = "") then []
      else [Emit (ToRoom (user_room userId)) event data]
  | None => []
  end.

(** [emitToChat] *)
Definition emitToChat (chatId event : string) (data : payload) : list effect :=
  [Emit (ToRoom (chat_room chatId)) event data].

(** [emitToAll] *)
Definition emitToAll (event : string) (data : payload) : list effect :=
  [Emit ToAll event data].

(** [getConnectedUsersCount] *)
Definition getConnectedUsersCount (w : world) : nat := size (connectedUsers w).

(** [getUserStatus] *)
Definition getUserStatus (w : world) (userId : string) : bool :=
  bool_decide (is_Some (connectedUsers w !! userId)).

(** [joinChat] listener *)
Definition joinChat (sock : socket) (chatId : string) (w : world)
  : world * list effect :=
  (join (chat_room chatId) (id sock) w,
   [Emit (ToRoomExcept (chat_room chatId) (id sock)) "userJoinedChat"
         (PMember (userId sock) (username sock))]).

(** [leaveChat] listener *)
Definition leaveChat (sock : socket) (chatId : string) (w : world)
  : world * list effect :=
  (leave (chat_room chatId) (id sock) w,
   [Emit (ToRoomExcept (chat_room chatId) (id sock)) "userLeftChat"
         (PMember (userId sock) (username sock))]).

(** [startTyping] and [stopTyping] listeners *)
Definition typing (event : string) (sock : socket) (chatId : string)
  : list effect :=
  if bool_decide (chatId = "") then []
  else [Emit (ToRoomExcept (chat_room chatId) (id sock)) event
             (PTyping (userId sock) (username sock) chatId)].

Definition startTyping (sock : socket) (chatId : string) (w : world)
  : world * list effect := (w, typing "userStartTyping" sock chatId).

Definition stopTyping (sock : socket) (chatId : string) (w : world)
  : world * list effect := (w, typing "userStopTyping" sock chatId).

(** [updatePresence] listener *)
Definition updatePresence (sock : socket) (status : string) (now : Z)
    (w : world) : world * list effect :=
  let w' :=
    set_db (set_users (alter (User.set_presence status now) (userId sock)
                             (users (db w))) (db w)) w in
  match contactIds (db w') (userId sock) with
  | Ok ids =>
      (w', (fun c => Emit (ToRoomExcept (user_room c) (id sock))
                          "presenceUpdate"
                          (PStatus (userId sock) status now)) <$> ids)
  | Throw _ => (w', [ConsoleError "Update presence error"])
  end.

(** [ping] listener *)
Definition ping (sock : socket) (data : string) (w : world)
  : world * list effect :=
  (w, [Emit (ToSocket (id sock)) "pong" (PPong data)]).

(** [markMessagesRead] listener *)
Definition markMessagesRead (sock : socket) (data : markReadData) (now : Z)
    (w : world) : world * list effect :=
  match messageIds data with
  | Some ids =>
      if bool_decide (mr_chatId data = "") then (w, [])
      else
        (set_db (set_messages
                   (mark_read (userId sock) (mr_chatId data) ids now
                              (messages (db w))) (db w)) w,
         [Emit (ToRoomExcept (chat_room (mr_chatId data)) (id sock))
               "messagesRead" (PRead (mr_chatId data) ids (userId sock))])
  | None => (w, [])
  end.

Section MessageHandlers.
Variable classify : string -> Moderation.http_outcome.

Definition failed (sock : socket) : effect :=
  Emit (ToSocket (id sock)) "error" (PError "Failed to send message").

Definition invalid (sock : socket) : effect :=
  Emit (ToSocket (id sock)) "error"
       (PError "Chat ID and content are required").

Definition denied (sock : socket) : effect :=
  Emit (ToSocket (id sock)) "error"
       (PError "Chat not found or access denied").

(** The moderation block of [sendMessage] ([if (messageType === 'text')]):
    [Some p] when it emitted [messageBlocked] with [p] and returned, together
    with the requests made and the [setImmediate] queue afterwards. *)
Definition moderate (sock : socket) (chatId : string) (content : jsval)
    (messageType : string) (queue : list task)
  : option payload * list effect * list task :=
  if bool_decide (messageType = "text") then
    let '(monitoring, fx, queue') :=
      Monitoring.monitorTextContent classify content (userId sock) chatId
                                    queue in
    match monitoring with
    | Ok m =>
        if Monitoring.blocked m
        then (Some (PBlocked (Monitoring.reason m) (Monitoring.message m)),
              fx, queue')
        else (None, fx, queue')
    | Throw _ =>
        let moderation := Moderation.moderateSocketMessage classify content in
        let fx' :=
          fx ++ (ClassifierRequest
                   <$> option_list (Moderation.request_text content)) in
        if Moderation.is_sexual moderation
        then (Some (PBlocked (Some "sexual_content")
                 (Some "Your message contains inappropriate content and has been blocked. Please keep conversations appropriate.")),
              fx', queue')
        else (None, fx', queue')
    end
  else (None, [], queue).

(** [replyTo || null] as the schema casts it when the document is built;
    a reference that is no ObjectId makes [save] reject. *)
Definition castReply (ms : gmap string Message.t) (replyTo : option string)
  : result (option string) :=
  match replyTo ≫= fun r => if bool_decide (r = "") then None else Some r with
  | None => Ok None
  | Some r => bind (ObjectId.cast ms r) (fun k => Ok (Some k))
  end.

(** [populate] of [replyTo]: a reference to no stored message becomes
    null.  The referenced document is written by its id. *)
Definition populated (ms : gmap string Message.t) (m : Message.t)
  : Message.t :=
  Message.set_replyTo
    (Message.replyTo m
       ≫= fun r => if bool_decide (is_Some (ms !! r)) then Some r else None)
    m.

(** The rest of [sendMessage], from [// Check chat access] on.  The room is
    named after [chatId] as the client wrote it; the document refers to the
    chat by the key it was found under. *)
Definition persist_and_broadcast (sock : socket) (chatId text : string)
    (messageType : string) (replyTo : option string) (now : Z)
    (newId : string) (w : world) : world * list effect :=
  match ObjectId.findById (chats (db w)) chatId with
  | Throw _ => (w, [failed sock])   (* the cast of [chatId] *)
  | Ok None => (w, [denied sock])
  | Ok (Some (key, chat)) =>
      if negb (Chat.isActive chat)
         || negb (Chat.isParticipant chat (userId sock))
      then (w, [denied sock])
      else
        match castReply (messages (db w)) replyTo with
        | Throw _ => (w, [failed sock])   (* [save] rejects *)
        | Ok reply =>
            let newMessage :=
              Message.create (trim text) messageType (userId sock) key reply
                             now in
            if negb (Message.valid newMessage) then (w, [failed sock])
            else
              let w1 :=
                set_db (set_messages
                          (<[newId := newMessage]> (messages (db w)))
                          (db w)) w in
              (* [newMessage.sender.username] after [populate] *)
              if bool_decide (is_Some (users (db w) !! userId sock)) then
                (set_db (set_chats (<[key := Chat.touch newId now chat]>
                                      (chats (db w1))) (db w1)) w1,
                 [Emit (ToRoom (chat_room chatId)) "newMessage"
                       (PMessage newId
                          (populated (messages (db w1)) newMessage));
                  Emit (ToSocket (id sock)) "messageSent" (PSent newId)])
              else (w1, [failed sock])
        end
  end.

(** [sendMessage] listener.  [now] is the clock and [newId] the ObjectId the
    new document gets. *)
Definition sendMessage (sock : socket) (data : sendMessageData) (now : Z)
    (newId : string) (w : world) : world * list effect :=
  let messageType := default "text" (messageType data) in
  if bool_decide (chatId data = "") || negb (truthy (content data))
  then (w, [invalid sock])
  else
    match content data with
    | JStr text =>
        if blank text then (w, [invalid sock])
        else
          let '(verdict, fx, queue) :=
            moderate sock (chatId data) (content data) messageType
                     (immediates w) in
          let w1 := set_immediates queue w in
          match verdict with
          | Some p => (w1, fx ++ [Emit (ToSocket (id sock)) "messageBlocked" p])
          | None =>
              let '(w2, fx') :=
                persist_and_broadcast sock (chatId data) text messageType
                                      (replyTo data) now newId w1 in
              (w2, fx ++ fx')
          end
    | _ => (w, [failed sock])   (* [content.trim] is not a function *)
    end.

End MessageHandlers.

End Socket.

(* ===================================================================== *)
(** ** Controllers/messageController.js *)
(* ===================================================================== *)

Module Controller.

(** [req]: the route parameters, the fields of the JSON body the handlers
    read (an absent [emoji] is the empty string), [req.user.id], and whether
    [req.app.get('io')] is set. *)
Record request := {
  params : gmap string string;
  body_content : jsval;
  body_emoji : string;
  body_messageType : option string;
  body_replyTo : option string;
  user_id : string;
  io : bool
}.

Inductive body_data :=
| DNone
| DMessage (messageId : string) (m : Message.t)
| DMessages (page : list (string * Message.t)) (total : nat)
| DReactions (l : list Message.Reaction)
| DModeration (blocked : bool) (reason : string) (detected : bool).

(** [res.status(status).json({success, message, data})] *)
Record response := {
  status : Z;
  success : bool;
  message : string;
  data : body_data
}.

#[global] Instance body_data_eq_dec : EqDecision body_data.
Proof. solve_decision. Defined.
#[global] Instance response_eq_dec : EqDecision response.
Proof. solve_decision. Defined.

Definition reply (status : Z) (message : string) : response :=
  {| status := status; success := false; message := message; data := DNone |}.

Definition ok (status : Z) (message : string) (d : body_data) : response :=
  {| status := status; success := true; message := message; data := d |}.

(** [user_${participant.user}] *)
Definition participant_room (p : Chat.participant) : string :=
  Socket.user_room (default "null" (Chat.user p)).

(** [chat.participants.forEach(p => { if (p.isActive) io.to(...).emit(...) })]
    under [if (io)]. *)
Definition emitToParticipants (io : bool) (chat : Chat.t) (event : string)
    (p : payload) : list effect :=
  if io then
    (fun q => Emit (ToRoom (participant_room q)) event p)
      <$> filter (fun q => Chat.p_isActive q = true) (Chat.participants chat)
  else [].

(** [Message.findById(id)]; [findById(undefined)] resolves with null. *)
Definition findMessage (w : world) (id : option string) : option Message.t :=
  id ≫= fun i => messages (db w) !! i.

(** [15 * 60 * 1000] *)
Definition editTimeLimit : Z := 15 * 60 * 1000.

(** [editMessage] *)
Definition editMessage (req : request) (now : Z) (w : world)
  : world * response * list effect :=
  let id := params req !! "id" in
  let failed := reply 500 "Failed to edit message" in
  if negb (truthy (body_content req))
  then (w, reply 400 "Message content is required", [])
  else
    match body_content req with
    | JStr content =>
        if blank content
        then (w, reply 400 "Message content is required", [])
        else
          match id, findMessage w id with
          | Some messageId, Some message =>
              if Message.isDeleted message
              then (w, reply 400 "Cannot edit deleted message", [])
              else if negb (bool_decide (Message.sender message = user_id req))
              then (w, reply 403 "You can only edit your own messages", [])
              else if now - Message.createdAt message >? editTimeLimit
              then (w, reply 400 "Message edit time limit exceeded", [])
              else
                let edited := Message.set_content (trim content) now message in
                if negb (Message.valid edited) then (w, failed, [])
                else
                  let w1 :=
                    set_db (set_messages
                              (<[messageId := edited]> (messages (db w)))
                              (db w)) w in
                  match chats (db w) !! Message.chat message with
                  | Some chat =>
                      (w1,
                       ok 200 "Message updated successfully"
                          (DMessage messageId edited),
                       emitToParticipants (io req) chat "messageEdited"
                                          (PMessage messageId edited))
                  | None =>
                      (* [chat.participants] on null, under [if (io)] *)
                      if io req then (w1, failed, [])
                      else (w1,
                            ok 200 "Message updated successfully"
                               (DMessage messageId edited), [])
                  end
          | _, _ => (w, reply 404 "Message not found", [])
          end
    | _ => (w, failed, [])   (* [content.trim] is not a function *)
    end.

(** [reactions.findIndex(r => r.user.toString() === userId
                             && r.emoji === emoji)]; [None] is [-1]. *)
Fixpoint findIndex (userId emoji : string) (l : list Message.Reaction)
  : option nat :=
  match l with
  | [] => None
  | r :: l' =>
      if bool_decide (Message.r_user r = userId)
         && bool_decide (Message.emoji r = emoji)
      then Some 0%nat
      else S <$> findIndex userId emoji l'
  end.

(** The [// Add or remove reaction] block: [splice(index, 1)] or [push]. *)
Definition toggleReaction (userId emoji : string) (now : Z)
    (l : list Message.Reaction) : list Message.Reaction :=
  match findIndex userId emoji l with
  | Some existingReactionIndex => delete existingReactionIndex l
  | None =>
      l ++ [ {| Message.r_user := userId; Message.emoji := emoji;
                Message.r_createdAt := now |} ]
  end.

(** [addReaction] *)
Definition addReaction (req : request) (now : Z) (w : world)
  : world * response * list effect :=
  let failed := reply 500 "Failed to update reaction" in
  if bool_decide (body_emoji req = "")
  then (w, reply 400 "Emoji is required", [])
  else
    match params req !! "messageId", findMessage w (params req !! "messageId") with
    | Some messageId, Some message =>
        if Message.isDeleted message
        then (w, reply 404 "Message not found", [])
        else
          match chats (db w) !! Message.chat message with
          | None => (w, failed, [])   (* [chat.isParticipant] on null *)
          | Some chat =>
              if negb (Chat.isParticipant chat (user_id req))
              then (w, reply 403 "Access denied", [])
              else
                let reacted :=
                  Message.set_reactions
                    (toggleReaction (user_id req) (body_emoji req) now
                                    (Message.reactions message)) message in
                if negb (Message.valid reacted) then (w, failed, [])
                else
                  (set_db (set_messages
                             (<[messageId := reacted]> (messages (db w)))
                             (db w)) w,
                   ok 200 "Reaction updated successfully"
                      (DReactions (Message.reactions reacted)),
                   emitToParticipants (io req) chat "messageReactionUpdated"
                     (PReactions messageId (Message.reactions reacted)))
          end
    | _, _ => (w, reply 404 "Message not found", [])
    end.

(** The emits of [getChatMessages]: every active participant other than the
    reader; [participant.user.toString()] throws on a null reference, which
    ends the loop ([true] in the second component). *)
Fixpoint readReceipts (userId : string) (ps : list Chat.participant)
    (p : payload) : list effect * bool :=
  match ps with
  | [] => ([], false)
  | q :: ps' =>
      if Chat.p_isActive q then
        match Chat.user q with
        | None => ([], true)
        | Some u =>
            if bool_decide (u = userId) then readReceipts userId ps' p
            else
              let '(fx, threw) := readReceipts userId ps' p in
              (Emit (ToRoom (Socket.user_room u)) "messagesRead" p :: fx, threw)
        end
      else readReceipts userId ps' p
  end.

(** The [updateMany] of [getChatMessages]: filter [{_id: {$in: ids}}]. *)
Definition mark_fetched (userId : string) (ids : list string) (now : Z)
    (ms : gmap string Message.t) : gmap string Message.t :=
  map_imap (fun messageId m =>
    Some (if bool_decide (messageId ∈ ids)
          then Message.set_readBy
                 (Socket.addToSet {| Message.re_user := userId;
                                     Message.readAt := now |}
                                  (Message.readBy m)) m
          else m)) ms.

Section Queries.
(** What [.sort({createdAt: -1}).limit(..).skip(..)] and the [before] filter
    of [req.query] select among the undeleted messages of the chat. *)
Variable paginate : list (string * Message.t) -> list (string * Message.t).

(** [{chat: chatId, isDeleted: false}] *)
Definition in_chat (chatId : string) (ms : gmap string Message.t)
  : list (string * Message.t) :=
  filter (fun km => Message.chat km.2 = chatId ∧ Message.isDeleted km.2 = false)
         (map_to_list ms).

(** [getChatMessages] *)
Definition getChatMessages (req : request) (now : Z) (w : world)
  : world * response * list effect :=
  match params req !! "chatId" ≫= fun c => pair c <$> chats (db w) !! c with
  | Some (chatId, chat) =>
      if negb (Chat.isActive chat) then (w, reply 404 "Chat not found", [])
      else if negb (Chat.isParticipant chat (user_id req))
      then (w, reply 403
                 "Access denied. You are not a participant in this chat.", [])
      else
        let page := paginate (in_chat chatId (messages (db w))) in
        let unreadMessageIds :=
          (filter (fun km => Message.read_by (user_id req) km.2 = false)
                  page).*1 in
        let total := length (in_chat chatId (messages (db w))) in
        let done := ok 200 "Messages retrieved successfully"
                       (DMessages page total) in
        match unreadMessageIds with
        | [] => (w, done, [])
        | _ =>
            let w1 :=
              set_db (set_messages
                        (mark_fetched (user_id req) unreadMessageIds now
                                      (messages (db w))) (db w)) w in
            if io req then
              let '(fx, threw) :=
                readReceipts (user_id req) (Chat.participants chat)
                  (PRead chatId unreadMessageIds (user_id req)) in
              (w1, if threw then reply 500 "Failed to retrieve messages"
                   else done, fx)
            else (w1, done, [])
        end
  | None => (w, reply 404 "Chat not found", [])
  end.

End Queries.

(** The outcome of the [// Validate reply message if provided] block. *)
Inductive reply_check :=
| ReplyThrows                       (* [Message.findById] threw on the cast *)
| ReplyInvalid                      (* 400 "Invalid reply message" *)
| ReplyOk (reply : option string).  (* the reference the document gets *)

(** [if (replyTo) { replyToMessage = await Message.findById(replyTo); if
    (!replyToMessage || replyToMessage.chat.toString() !== chatId) ... }]:
    the chat of the message found is compared with [chatId] as the client
    wrote it. *)
Definition checkReply (ms : gmap string Message.t) (chatId : string)
    (replyTo : option string) : reply_check :=
  match replyTo ≫= fun r => if bool_decide (r = "") then None else Some r with
  | None => ReplyOk None
  | Some r =>
      match ObjectId.findById ms r with
      | Throw _ => ReplyThrows
      | Ok None => ReplyInvalid
      | Ok (Some (key, replyToMessage)) =>
          if bool_decide (Message.chat replyToMessage = chatId)
          then ReplyOk (Some key)
          else ReplyInvalid
      end
  end.

(** [sendMessage] (the REST handler); [Chat.findById(undefined)] resolves
    with null. *)
Definition sendMessage (req : request) (now : Z) (newId : string) (w : world)
  : world * response * list effect :=
  let messageType := default "text" (body_messageType req) in
  let failed := reply 500 "Failed to send message" in
  if negb (truthy (body_content req))
  then (w, reply 400 "Message content is required", [])
  else
    match body_content req with
    | JStr content =>
        if blank content
        then (w, reply 400 "Message content is required", [])
        else
          match params req !! "chatId" with
          | None => (w, reply 404 "Chat not found", [])
          | Some chatId =>
              match ObjectId.findById (chats (db w)) chatId with
              | Throw _ => (w, failed, [])   (* the cast of [chatId] *)
              | Ok None => (w, reply 404 "Chat not found", [])
              | Ok (Some (key, chat)) =>
                  if negb (Chat.isActive chat)
                  then (w, reply 404 "Chat not found", [])
                  else if negb (Chat.isParticipant chat (user_id req))
                  then (w, reply 403
                    "Access denied. You are not a participant in this chat.",
                        [])
                  else
                    match checkReply (messages (db w)) chatId
                                     (body_replyTo req) with
                    | ReplyThrows => (w, failed, [])
                    | ReplyInvalid =>
                        (w, reply 400 "Invalid reply message", [])
                    | ReplyOk replyTo =>
                        let newMessage :=
                          Message.create (trim content) messageType
                                         (user_id req) key replyTo now in
                        if negb (Message.valid newMessage)
                        then (w, failed, [])
                        else
                          let w1 :=
                            set_db (set_messages
                                      (<[newId := newMessage]>
                                         (messages (db w)))
                                      (db w)) w in
                          (set_db (set_chats
                                     (<[key := Chat.touch newId now chat]>
                                        (chats (db w1))) (db w1)) w1,
                           ok 201 "Message sent successfully"
                              (DMessage newId newMessage),
                           emitToParticipants (io req) chat "newMessage"
                                              (PMessage newId newMessage))
                    end
              end
          end
    | _ => (w, failed, [])   (* [content.trim] is not a function *)
    end.

End Controller.

(* ===================================================================== *)
(** ** Routes/messageRoutes.js *)
(* ===================================================================== *)

Module Routes.

Section Router.
Variable classify : string -> Moderation.http_outcome.

(** The 400 response of [sexualContentMiddleware]. *)
Definition blocked_response : Controller.response :=
  {| Controller.status := 400; Controller.success := false;
     Controller.message := "Your message contains inappropriate content and has been blocked. Please keep conversations appropriate.";
     Controller.data := Controller.DModeration true "sexual_content" true |}.

(** The chain [sexualContentMiddleware, handler]: the handler runs only when
    the middleware calls [next()]. *)
Definition moderated
    (handler : Controller.request -> Z -> world ->
               world * Controller.response * list effect)
    (req : Controller.request) (now : Z) (w : world)
  : world * Controller.response * list effect :=
  let requests :=
    ClassifierRequest
      <$> option_list (Moderation.request_text (Controller.body_content req)) in
  match Moderation.sexualContentMiddleware classify
          (Controller.body_content req) with
  | Moderation.Blocked400 => (w, blocked_response, requests)
  | Moderation.Next _ =>
      let '(w', res, fx) := handler req now w in (w', res, requests ++ fx)
  end.

(** [router.put('/:messageId', sexualContentMiddleware, editMessage)] *)
Definition put_message : Controller.request -> Z -> world ->
    world * Controller.response * list effect :=
  moderated Controller.editMessage.

(** [router.post('/', sexualContentMiddleware, sendMessage)]; [newId] is the
    ObjectId the new document gets. *)
Definition post_message (newId : string) : Controller.request -> Z -> world ->
    world * Controller.response * list effect :=
  moderated (fun req now w => Controller.sendMessage req now newId w).

(** [router.get('/chat/:chatId', getChatMessages)] *)
Definition get_messages
    (paginate : list (string * Message.t) -> list (string * Message.t))
  : Controller.request -> Z -> world ->
    world * Controller.response * list effect :=
  Controller.getChatMessages paginate.

(** [router.post('/:messageId/reaction', addReaction)] *)
Definition post_reaction : Controller.request -> Z -> world ->
    world * Controller.response * list effect :=
  Controller.addReaction.

End Router.

End Routes.

(* ===================================================================== *)
(** ** The process as a transition system *)
(* ===================================================================== *)

Module Gateway.

(** What the event loop can run next: a socket.io listener, an HTTP route,
    or the oldest pending [setImmediate] callback.  [Connection] and
    [Disconnect] run the listener together with the work of the calls it
    starts; [Opened] and [Closed] run the listener alone, and
    [JoinUserChats] and [UpdateUserOnlineStatus] the work of a call that
    was started earlier, when its query has been answered. *)
Inductive event :=
| Connection (sock : Socket.socket)
| Disconnect (sock : Socket.socket)
| SendMessage (sock : Socket.socket) (data : Socket.sendMessageData)
              (newId : string)
| MarkMessagesRead (sock : Socket.socket) (data : Socket.markReadData)
| JoinChat (sock : Socket.socket) (chatId : string)
| LeaveChat (sock : Socket.socket) (chatId : string)
| StartTyping (sock : Socket.socket) (chatId : string)
| StopTyping (sock : Socket.socket) (chatId : string)
| UpdatePresence (sock : Socket.socket) (status : string)
| Ping (sock : Socket.socket) (data : string)
| PostMessage (req : Controller.request) (newId : string)
| GetMessages (req : Controller.request)
| PutMessage (req : Controller.request)
| PostReaction (req : Controller.request)
| RunImmediate
(* the listeners that start calls without awaiting them, and those calls,
   as turns of their own *)
| Opened (sock : Socket.socket)
| Closed (sock : Socket.socket)
| JoinUserChats (sock : Socket.socket)
| UpdateUserOnlineStatus (userId : string) (isOnline : bool).

Section Loop.
Variable classify : string -> Moderation.http_outcome.
Variable sendMail : alert -> bool.
Variable paginate : list (string * Message.t) -> list (string * Message.t).

(** The event loop takes the oldest [setImmediate] callback and runs it. *)
Definition runImmediate (w : world) : world * list effect :=
  match immediates w with
  | [] => (w, [])
  | tk :: queue =>
      (set_immediates queue w, (Monitoring.notify sendMail (db w) tk).2)
  end.

(** One turn of the loop at clock [now]. *)
Definition step (ev : event) (now : Z) (w : world) : world * list effect :=
  match ev with
  | Connection sock => Socket.connection sock now w
  | Disconnect sock => Socket.disconnect sock now w
  | SendMessage sock data newId =>
      Socket.sendMessage classify sock data now newId w
  | MarkMessagesRead sock data => Socket.markMessagesRead sock data now w
  | JoinChat sock chatId => Socket.joinChat sock chatId w
  | LeaveChat sock chatId => Socket.leaveChat sock chatId w
  | StartTyping sock chatId => Socket.startTyping sock chatId w
  | StopTyping sock chatId => Socket.stopTyping sock chatId w
  | UpdatePresence sock status => Socket.updatePresence sock status now w
  | Ping sock data => Socket.ping sock data w
  | PostMessage req newId =>
      let '(w', _, fx) := Routes.post_message classify newId req now w in
      (w', fx)
  | GetMessages req =>
      let '(w', _, fx) := Routes.get_messages paginate req now w in (w', fx)
  | PutMessage req =>
      let '(w', _, fx) := Routes.put_message classify req now w in (w', fx)
  | PostReaction req =>
      let '(w', _, fx) := Routes.post_reaction req now w in (w', fx)
  | RunImmediate => runImmediate w
  | Opened sock => (Socket.register sock w, [])
  | Closed sock =>
      (Socket.unregister sock (Socket.leave_all (Socket.id sock) w), [])
  | JoinUserChats sock => (Socket.joinUserChats sock w, [])
  | UpdateUserOnlineStatus userId isOnline =>
      Socket.updateUserOnlineStatus userId isOnline now w
  end.

(** A schedule: the events with the clock at which each runs. *)
Fixpoint run (evs : list (event * Z)) (w : world) : world :=
  match evs with
  | [] => w
  | (ev, now) :: evs' => run evs' (step ev now w).1
  end.

End Loop.

(** [ev] does not take the connection [sid] out of [room]: it is neither
    that connection closing nor its [leaveChat] for the room. *)
Definition keeps (sid room : string) (ev : event) : bool :=
  match ev with
  | Disconnect sock | Closed sock =>
      negb (bool_decide (Socket.id sock = sid))
  | LeaveChat sock chatId =>
      negb (bool_decide (Socket.id sock = sid)
            && bool_decide (Socket.chat_room chatId = room))
  | _ => true
  end.

End Gateway.

(* ===================================================================== *)
(** ** A small deployment *)
(* ===================================================================== *)

(** One group chat with Anna and Ben as active members and Cara as a member
    who was removed; Cara's connection still sits in the chat's room, which
    it joined when it connected.  Zed has an account and is in no chat. *)
Module Sample.

Definition anna : User.t :=
  {| User.username := "anna"; User.fullName := Some "Anna A";
     User.email := "anna@example.com";
     User.parentEmail := Some "parent@example.com"; User.age := 12;
     User.isOnline := true; User.lastSeen := 0;
     User.presenceStatus := "offline" |}.

Definition ben : User.t :=
  {| User.username := "ben"; User.fullName := None;
     User.email := "ben@example.com"; User.parentEmail := None;
     User.age := 14; User.isOnline := true; User.lastSeen := 0;
     User.presenceStatus := "offline" |}.

Definition cara : User.t :=
  {| User.username := "cara"; User.fullName := None;
     User.email := "cara@example.com"; User.parentEmail := None;
     User.age := 15; User.isOnline := true; User.lastSeen := 0;
     User.presenceStatus := "offline" |}.

Definition zed : User.t :=
  {| User.username := "zed"; User.fullName := None;
     User.email := "zed@example.com"; User.parentEmail := None;
     User.age := 16; User.isOnline := false; User.lastSeen := 0;
     User.presenceStatus := "offline" |}.

Definition member (u : string) (active : bool) : Chat.participant :=
  {| Chat.user := Some u; Chat.role := "member"; Chat.p_isActive := active |}.

Definition c1 : Chat.t :=
  {| Chat.chatType := "group";
     Chat.participants := [member "anna" true; member "ben" true;
                           member "cara" false];
     Chat.lastMessage := None; Chat.lastActivity := 0;
     Chat.isActive := true |}.

(** Anna's and Cara's messages in the chat, both created at clock 0. *)
Definition m1 : Message.t := Message.create "hello" "text" "anna" "c1" None 0.
Definition m2 : Message.t := Message.create "bye" "text" "cara" "c1" None 0.

Definition store0 : store :=
  {| messages := {[ "m1" := m1; "m2" := m2 ]};
     chats := {[ "c1" := c1 ]};
     users := {[ "anna" := anna; "ben" := ben; "cara" := cara;
                 "zed" := zed ]} |}.

Definition w0 : world :=
  {| db := store0;
     connectedUsers := {[ "anna" := "s1"; "ben" := "s2"; "cara" := "s3" ]};
     userSockets := {[ "s1" := "anna"; "s2" := "ben"; "s3" := "cara" ]};
     rooms := {[ "user_anna" := {[ "s1" ]}; "user_ben" := {[ "s2" ]};
                 "user_cara" := {[ "s3" ]};
                 "chat_c1" := {[ "s1"; "s2"; "s3" ]} ]};
     immediates := [] |}.

Definition annaSocket : Socket.socket :=
  {| Socket.id := "s1"; Socket.userId := "anna"; Socket.username := "anna" |}.

Definition caraSocket : Socket.socket :=
  {| Socket.id := "s3"; Socket.userId := "cara"; Socket.username := "cara" |}.

(** An HTTP request by [u] with the given route parameters and body. *)
Definition request (u : string) (params : gmap string string)
    (content : jsval) (emoji : string) : Controller.request :=
  {| Controller.params := params; Controller.body_content := content;
     Controller.body_emoji := emoji; Controller.body_messageType := None;
     Controller.body_replyTo := None; Controller.user_id := u;
     Controller.io := true |}.

(** A classifier that flags exactly the text "bad words". *)
Definition classifier (t : string) : Moderation.http_outcome :=
  Moderation.HttpResponse (JBool (bool_decide (t = "bad words"))).

(** A classifier that cannot be reached. *)
Definition unreachable (t : string) : Moderation.http_outcome :=
  Moderation.HttpError (Some "ECONNREFUSED") "connect ECONNREFUSED".

End Sample.

(* ===================================================================== *)
(** ** Models/Chat.js: membership methods *)
(* ===================================================================== *)

Module ChatMembership.

(** [enum: ['member', 'admin', 'moderator']] *)
Definition roles : list string := ["member"; "admin"; "moderator"].

(** The [find] of [getUserRole]: the first active entry of [userId].  The
    predicate reads [p.user._id] without a guard, so a null reference met
    before a match throws. *)
Fixpoint findActive (userId : string) (ps : list Chat.participant)
  : result (option Chat.participant) :=
  match ps with
  | [] => Ok None
  | p :: ps' =>
      match Chat.user p with
      | None => Throw "Cannot read properties of null (reading '_id')"
      | Some participantUserId =>
          if bool_decide (participantUserId = userId) && Chat.p_isActive p
          then Ok (Some p)
          else findActive userId ps'
      end
  end.

(** [chatSchema.methods.getUserRole] *)
Definition getUserRole (c : Chat.t) (userId : string)
  : result (option string) :=
  bind (findActive userId (Chat.participants c)) (fun participant =>
    Ok (Chat.role <$> participant)).

(** [chatSchema.methods.canModerate] *)
Definition canModerate (c : Chat.t) (userId : string) : result bool :=
  bind (getUserRole c userId) (fun role =>
    Ok (bool_decide (role = Some "admin")
        || bool_decide (role = Some "moderator"))).

(** The virtual [activeParticipantsCount] *)
Definition activeParticipantsCount (c : Chat.t) : nat :=
  length (filter (fun p => Chat.p_isActive p = true) (Chat.participants c)).

(** The [find] of [addParticipant] and [removeParticipant]: the index of the
    first entry of [userId], active or not; [p.user.toString()] throws on a
    null reference. *)
Fixpoint findEntry (userId : string) (ps : list Chat.participant)
  : result (option nat) :=
  match ps with
  | [] => Ok None
  | p :: ps' =>
      match Chat.user p with
      | None => Throw "Cannot read properties of null (reading 'toString')"
      | Some u =>
          if bool_decide (u = userId) then Ok (Some 0%nat)
          else bind (findEntry userId ps') (fun i => Ok (S <$> i))
      end
  end.

Definition set_participants (ps : list Chat.participant) (c : Chat.t)
  : Chat.t :=
  {| Chat.chatType := Chat.chatType c; Chat.participants := ps;
     Chat.lastMessage := Chat.lastMessage c;
     Chat.lastActivity := Chat.lastActivity c;
     Chat.isActive := Chat.isActive c |}.

(** [this.save()] after a change of the participants: the [role] enum is
    validated. *)
Definition save (c : Chat.t) : result Chat.t :=
  if forallb (fun p => bool_decide (Chat.role p ∈ roles)) (Chat.participants c)
  then Ok c
  else Throw "Chat validation failed".

(** [chatSchema.methods.addParticipant]: an entry of the user is switched on
    again with the new role, otherwise one is pushed ([isActive] defaults to
    true). *)
Definition addParticipant (c : Chat.t) (userId role : string)
  : result Chat.t :=
  bind (findEntry userId (Chat.participants c)) (fun existing =>
    let entry := {| Chat.user := Some userId; Chat.role := role;
                    Chat.p_isActive := true |} in
    save (set_participants
            match existing with
            | Some i => <[i := entry]> (Chat.participants c)
            | None => Chat.participants c ++ [entry]
            end c)).

(** [chatSchema.methods.removeParticipant]: the first entry of the user is
    switched off; the entry stays. *)
Definition removeParticipant (c : Chat.t) (userId : string) : result Chat.t :=
  bind (findEntry userId (Chat.participants c)) (fun existing =>
    save (set_participants
            match existing with
            | Some i =>
                alter (fun p => {| Chat.user := Chat.user p;
                                   Chat.role := Chat.role p;
                                   Chat.p_isActive := false |}) i
                      (Chat.participants c)
            | None => Chat.participants c
            end c)).

(** The filter of [createDirectChat]'s [findOne]:
    [{chatType: 'direct', $and: [{'participants.user': user1Id},
      {'participants.user': user2Id}], isActive: true}]. *)
Definition direct_between (user1Id user2Id : string) (c : Chat.t) : bool :=
  bool_decide (Chat.chatType c = "direct")
  && existsb (fun p => bool_decide (Chat.user p = Some user1Id))
             (Chat.participants c)
  && existsb (fun p => bool_decide (Chat.user p = Some user2Id))
             (Chat.participants c)
  && Chat.isActive c.

(** [chatSchema.statics.createDirectChat]: the chat found, or a new one
    stored under [newId]; the result is the chat's id with the collection
    afterwards. *)
Definition createDirectChat (user1Id user2Id : string) (now : Z)
    (newId : string) (cs : gmap string Chat.t)
  : string * gmap string Chat.t :=
  match list_find (fun kc => direct_between user1Id user2Id kc.2 = true)
                  (map_to_list cs) with
  | Some (_, (existingId, _)) => (existingId, cs)
  | None =>
      (newId,
       <[newId := {| Chat.chatType := "direct";
                     Chat.participants :=
                       [ {| Chat.user := Some user1Id; Chat.role := "member";
                            Chat.p_isActive := true |};
                         {| Chat.user := Some user2Id; Chat.role := "member";
                            Chat.p_isActive := true |} ];
                     Chat.lastMessage := None; Chat.lastActivity := now;
                     Chat.isActive := true |}]> cs)
  end.

End ChatMembership.

(* ===================================================================== *)
(** ** Controllers/messageController.js: deleteMessage, getUnreadCount *)
(* ===================================================================== *)

Module Deletion.

(** The soft delete: [isDeleted = true] and the content replaced.  The
    [deletedAt] stamp the handler also writes is read by no handler and is
    not kept in [Message.t]. *)
Definition set_deleted (m : Message.t) : Message.t :=
  {| Message.content := "This message has been deleted";
     Message.sender := Message.sender m; Message.chat := Message.chat m;
     Message.messageType := Message.messageType m;
     Message.isEdited := Message.isEdited m;
     Message.editedAt := Message.editedAt m; Message.isDeleted := true;
     Message.readBy := Message.readBy m; Message.replyTo := Message.replyTo m;
     Message.reactions := Message.reactions m;
     Message.createdAt := Message.createdAt m |}.

(** The payload [{messageId, chatId}] of [messageDeleted], written
    [messageId/chatId]. *)
Definition deleted_payload (messageId chatId : string) : payload :=
  POther (messageId +:+ "/" +:+ chatId).

(** [message.sender.toString() === userId || chat.canModerate(userId)
     || isAdmin], evaluated left to right on the chat found ([None] is a
    null chat, on which [chat.canModerate] throws). *)
Definition canDelete (message : Message.t) (chat : option Chat.t)
    (userId role : string) : result bool :=
  if bool_decide (Message.sender message = userId) then Ok true
  else
    match chat with
    | None => Throw "Cannot read properties of null (reading 'canModerate')"
    | Some c =>
        bind (ChatMembership.canModerate c userId) (fun moderator =>
          Ok (moderator || bool_decide (role = "admin")))
    end.

(** [deleteMessage]; [role] is [req.user.role]. *)
Definition deleteMessage (req : Controller.request) (role : string) (now : Z)
    (w : world) : world * Controller.response * list effect :=
  let failed := Controller.reply 500 "Failed to delete message" in
  match Controller.params req !! "id",
        Controller.findMessage w (Controller.params req !! "id") with
  | Some messageId, Some message =>
      if Message.isDeleted message
      then (w, Controller.reply 400 "Message is already deleted", [])
      else
        let chat := chats (db w) !! Message.chat message in
        match canDelete message chat (Controller.user_id req) role with
        | Throw _ => (w, failed, [])
        | Ok false =>
            (w, Controller.reply 403 "You can only delete your own messages",
             [])
        | Ok true =>
            let deleted := set_deleted message in
            if negb (Message.valid deleted) then (w, failed, [])
            else
              let w1 :=
                set_db (set_messages
                          (<[messageId := deleted]> (messages (db w)))
                          (db w)) w in
              let done :=
                Controller.ok 200 "Message deleted successfully"
                              Controller.DNone in
              match chat with
              | Some c =>
                  (w1, done,
                   Controller.emitToParticipants (Controller.io req) c
                     "messageDeleted"
                     (deleted_payload messageId (Message.chat message)))
              | None =>
                  (* [chat.participants] on null, under [if (io)] *)
                  if Controller.io req then (w1, failed, [])
                  else (w1, done, [])
              end
        end
  | _, _ => (w, Controller.reply 404 "Message not found", [])
  end.

End Deletion.

Module Unread.

(** Is the message counted for [userId]:
    [{chat: {$in: chatIds}, sender: {$ne: userId},
      'readBy.user': {$ne: userId}, isDeleted: false}]. *)
Definition counted (userId : string) (chatIds : list string)
    (m : Message.t) : bool :=
  bool_decide (Message.chat m ∈ chatIds)
  && negb (bool_decide (Message.sender m = userId))
  && negb (Message.read_by userId m)
  && negb (Message.isDeleted m).

(** [Message.countDocuments] of [getUnreadCount], over the chats
    [Chat.find] returns for the user. *)
Definition unreadCount (userId : string) (d : store) : nat :=
  size (filter (fun km => counted userId (Socket.userChats d userId).*1 km.2
                          = true) (messages d)).

(** [getUnreadCount]: the response and its [data.unreadCount]. *)
Definition getUnreadCount (req : Controller.request) (w : world)
  : Controller.response * nat :=
  (Controller.ok 200 "Unread count retrieved successfully" Controller.DNone,
   unreadCount (Controller.user_id req) (db w)).

End Unread.

(* ===================================================================== *)
(** ** services/contentMonitoringService.js: images and guardian lookups *)
(* ===================================================================== *)

Module ImageMonitoring.

(** What [axios.post] to [/v1/api/check-image] does: the fields of the body
    the service reads, or a rejection. *)
Inductive image_outcome :=
| ImageResponse (result confidence : jsval) (categories : option (list string))
| ImageError (message : string).

(** The object [monitorImageContent] resolves with. *)
Record ImageResult := {
  blocked : bool;
  reason : option string;
  message : option string;
  approved : option bool;
  service_available : option bool;
  details : option (jsval * list string)
}.

#[global] Instance ImageResult_eq_dec : EqDecision ImageResult.
Proof. solve_decision. Defined.

Section Service.
(** The image classifier, bounded by the 10 second timeout. *)
Variable classifyImage : string -> image_outcome.

(** [monitorImageContent]: the verdict and the [setImmediate] queue
    afterwards.  A failing request leaves the initial
    [{is_inappropriate: false, service_available: false}] in place. *)
Definition monitorImageContent (imagePath senderId chatId : string)
    (queue : list task) : ImageResult * list task :=
  match classifyImage imagePath with
  | ImageResponse result confidence categories =>
      if strict_true result
      then
        ({| blocked := true; reason := Some "inappropriate_image";
            message :=
              Some "Your image contains inappropriate content and has been blocked.";
            approved := None; service_available := None;
            details := Some (if truthy confidence then confidence else JNum 0,
                             default [] categories) |},
         Monitoring.sendParentNotificationAsync (JStr imagePath) senderId
           chatId "image" queue)
      else
        ({| blocked := false; reason := None; message := None;
            approved := Some true; service_available := Some true;
            details := None |}, queue)
  | ImageError _ =>
      ({| blocked := false; reason := None; message := None;
          approved := Some true; service_available := Some false;
          details := None |}, queue)
  end.

End Service.

(** [user?.parentEmail || null] of [getUserParentEmail] *)
Definition getUserParentEmail (d : store) (userId : string) : option string :=
  users d !! userId ≫= fun u =>
    User.parentEmail u ≫= fun e =>
      if bool_decide (e = "") then None else Some e.

(** The truthiness of what [requiresParentNotification] resolves with:
    [user && user.age < 13 && user.parentEmail]. *)
Definition requiresParentNotification (d : store) (userId : string) : bool :=
  match users d !! userId with
  | Some u => (User.age u <? 13) && negb (Monitoring.no_parentEmail u)
  | None => false
  end.

End ImageMonitoring.

(* ===================================================================== *)
(** ** Schedules a socket.io server can produce *)
(* ===================================================================== *)

Module Schedule.




Section Loop.
Variable classify : string -> Moderation.http_outcome.
Variable sendMail : alert -> bool.
Variable paginate : list (string * Message.t) -> list (string * Message.t).




End Loop.

(** An identity the map calls connected has its connection tracked under
    that identity. *)
Definition tracked (w : world) : Prop :=
  forall u s, connectedUsers w !! u = Some s -> userSockets w !! s = Some u.

(** The directory is sound: an identity the map calls connected has its
    connection tracked under that identity, and every connection sitting in
    a room is tracked. *)
Definition sound (w : world) : Prop :=
  tracked w
  /\ (forall room s, s ∈ members w room -> is_Some (userSockets w !! s)).


End Schedule.

(** More of Models/Chat.js: the shape of a participants list that
    [addParticipant] and [removeParticipant] keep. *)
Module ChatShape.

(** Every entry references a user and carries a role of the enum, and no
    user has two entries. *)
Definition wellFormed (c : Chat.t) : Prop :=
  Forall (fun p => is_Some (Chat.user p)
                   /\ Chat.role p ∈ ChatMembership.roles)
         (Chat.participants c)
  /\ NoDup (Chat.user <$> Chat.participants c).

End ChatShape.

(* ===================================================================== *)
(** * Properties *)
(* ===================================================================== *)

(** ** String helpers *)

Example trim_pads : trim "  hi there  " = "hi there".
Proof. reflexivity. Qed.

(** U+00A0 before and U+3000 after the text are white space too. *)
Example trim_unicode :
  trim (String "194" (String "160" ("hi" +:+
          String "227" (String "128" (String "128" "")))))
  = "hi".
Proof. reflexivity. Qed.

(** U+00E9 is two bytes and one code unit. *)
Example utf16_length_accented :
  utf16_length (String "195" (String "169" (String "195" (String "169" ""))))
  = 2%nat.
Proof. reflexivity. Qed.

Example blank_spaces : blank "   " = true.
Proof. reflexivity. Qed.

(** ** ObjectIds *)

Example objectId_valid : ObjectId.valid "507f1f77bcf86cd799439011" = true.
Proof. reflexivity. Qed.

Example objectId_upper_case :
  ObjectId.valid "507F1F77BCF86CD799439011" = true
  /\ ObjectId.toString "507F1F77BCF86CD799439011" = "507f1f77bcf86cd799439011".
Proof. split; reflexivity. Qed.

Example objectId_malformed : ObjectId.valid "lobby" = false.
Proof. reflexivity. Qed.

(** The id of a stored document casts to itself. *)
Lemma cast_found {A} (coll : gmap string A) (id : string) (x : A) :
  coll !! id = Some x -> ObjectId.cast coll id = Ok id.
Proof.
  intros H. unfold ObjectId.cast.
  rewrite bool_decide_eq_true_2; [done|by eexists].
Qed.

Lemma findById_found {A} (coll : gmap string A) (id : string) (x : A) :
  coll !! id = Some x -> ObjectId.findById coll id = Ok (Some (id, x)).
Proof.
  intros H. unfold ObjectId.findById. rewrite (cast_found _ _ _ H).
  cbn [bind]. by rewrite H.
Qed.

(** [findById] either throws on the cast or resolves. *)
Lemma findById_cast {A} (coll : gmap string A) (id : string) :
  (exists m, ObjectId.cast coll id = Throw m
             /\ ObjectId.findById coll id = Throw m)
  \/ (exists k, ObjectId.cast coll id = Ok k
                /\ ObjectId.findById coll id = Ok (pair k <$> coll !! k)).
Proof.
  unfold ObjectId.findById.
  destruct (ObjectId.cast coll id) as [k|m]; cbn [bind]; eauto.
Qed.

(** A string that is neither on file nor 24 hexadecimal digits does not
    cast. *)
Lemma cast_malformed {A} (coll : gmap string A) (id : string) :
  coll !! id = None -> ObjectId.valid id = false ->
  ObjectId.cast coll id = Throw "Cast to ObjectId failed".
Proof.
  intros Hn Hv. unfold ObjectId.cast. rewrite Hv.
  rewrite bool_decide_eq_false_2; [done|]. rewrite Hn. by intros [? ?].
Qed.

(** ** The moderation gateway *)

Section ModerationFacts.
Variable classify : string -> Moderation.http_outcome.

(** The guard and the request agree: a request is made exactly when the
    guard lets the text through. *)
Lemma request_text_guard (text : jsval) :
  Moderation.request_text text = None <-> Moderation.no_text text = true.
Proof.
  destruct text as [| |b|n|s]; simpl; try (split; congruence).
  destruct (blank s); split; congruence.
Qed.

Lemma request_text_string (text : jsval) (t : string) :
  Moderation.request_text text = Some t ->
  exists s, text = JStr s /\ blank s = false /\ t = trim s.
Proof.
  destruct text as [| |b|n|s]; simpl; try discriminate.
  destruct (blank s) eqn:Hb; [discriminate|].
  intros [= <-]. eauto.
Qed.

Lemma empty_text_approved (text : jsval) :
  Moderation.no_text text = true ->
  Moderation.serviceCheckSexualContent classify text = Moderation.empty_approved.
Proof.
  intros H. apply request_text_guard in H.
  unfold Moderation.serviceCheckSexualContent. by rewrite H.
Qed.

(** Blocked iff the classifier's flag is the boolean [true]. *)
Lemma flagged_iff_result_true (text : jsval) :
  Moderation.is_sexual (Moderation.serviceCheckSexualContent classify text) = true
  <-> exists t, Moderation.request_text text = Some t
             /\ classify t = Moderation.HttpResponse (JBool true).
Proof.
  unfold Moderation.serviceCheckSexualContent.
  destruct (Moderation.request_text text) as [t|] eqn:Ht; simpl.
  - destruct (classify t) as [r|code msg] eqn:Hc; simpl.
    + split.
      * intros Hr. exists t. split; [done|].
        destruct r as [| |[]|?|?]; simpl in Hr; congruence.
      * intros (t' & [= <-] & Hc'). rewrite Hc in Hc'. by injection Hc' as ->.
    + split.
      * unfold Moderation.on_request_error.
        destruct (Moderation.unavailable_code code); simpl; discriminate.
      * intros (t' & [= <-] & Hc'). congruence.
  - split; [discriminate|]. intros (t' & [=] & _).
Qed.

(** C2, as amended.  When the request to the classifier fails, the verdict is
    an approval that cannot be confused with a normal one (it has an [error]
    and its [message] is not the normal one); it is the distinguished
    service-unavailable verdict exactly for the codes ECONNREFUSED and
    ETIMEDOUT, and for every other failure it is the moderation-error verdict
    carrying the failure's own message. *)
Theorem request_failure_fails_open
    (text : jsval) (t : string) (code : option string) (msg : string) :
  Moderation.request_text text = Some t ->
  classify t = Moderation.HttpError code msg ->
  let r := Moderation.serviceCheckSexualContent classify text in
  Moderation.is_sexual r = false
  /\ (forall result, r <> Moderation.classified result)
  /\ Moderation.error r <> Moderation.ErrAbsent
  /\ Moderation.message r <> "Content approved"
  /\ (r = Moderation.service_unavailable <->
      code = Some "ECONNREFUSED" \/ code = Some "ETIMEDOUT")
  /\ (code <> Some "ECONNREFUSED" -> code <> Some "ETIMEDOUT" ->
      r = Moderation.moderation_error msg).
Proof.
  intros Ht Hc r. subst r.
  unfold Moderation.serviceCheckSexualContent. rewrite Ht, Hc.
  unfold Moderation.on_request_error, Moderation.unavailable_code.
  destruct code as [c|]; simpl.
  - destruct (decide (c = "ECONNREFUSED")) as [->|Hr];
      [|destruct (decide (c = "ETIMEDOUT")) as [->|Ht']].
    + simpl. repeat split; try done; auto.
    + simpl. repeat split; try done; auto.
    + rewrite !bool_decide_eq_false_2 by done. simpl.
      repeat split; try done.
      * intros [[=]|[=]]; congruence.
  - repeat split; try done. intros [|]; discriminate.
Qed.

End ModerationFacts.

(** The amended C2 at a refused connection. *)
Lemma request_failure_fails_open_witness :
  let classify := fun _ : string =>
    Moderation.HttpError (Some "ECONNREFUSED") "connect ECONNREFUSED" in
  Moderation.request_text (JStr " hello ") = Some "hello"
  /\ classify "hello"
     = Moderation.HttpError (Some "ECONNREFUSED") "connect ECONNREFUSED"
  /\ Moderation.serviceCheckSexualContent classify (JStr " hello ")
     = Moderation.service_unavailable.
Proof.
  intros classify.
  split; [reflexivity|]. split; [reflexivity|].
  apply (request_failure_fails_open classify (JStr " hello ") "hello"
           (Some "ECONNREFUSED") "connect ECONNREFUSED");
    [reflexivity | reflexivity | by left].
Defined.

(** C2 as stated fails: a connection reset is a transport failure, and the
    verdict it yields does not carry the service-unavailable reason. *)
Lemma reset_not_reported_unavailable :
  ~ (forall (classify : string -> Moderation.http_outcome) (text : jsval)
            (t : string) (code : option string) (msg : string),
        Moderation.request_text text = Some t ->
        classify t = Moderation.HttpError code msg ->
        let r := Moderation.serviceCheckSexualContent classify text in
        Moderation.is_sexual r = false
        /\ Moderation.error r = Moderation.ErrMsg "service_unavailable").
Proof.
  intros H.
  destruct (H (fun _ => Moderation.HttpError (Some "ECONNRESET") "socket hang up")
              (JStr "hello") "hello" (Some "ECONNRESET") "socket hang up"
              eq_refl eq_refl) as [_ Herr].
  vm_compute in Herr. discriminate.
Qed.

(** ** The room directory *)

Section Rooms.
Implicit Types (w : world) (room sid : string).

Lemma members_join room sid w room' :
  members (Socket.join room sid w) room'
  = if decide (room = room') then {[ sid ]} ∪ members w room'
    else members w room'.
Proof.
  unfold members, Socket.join. simpl.
  destruct (decide (room = room')) as [->|Hne].
  - by rewrite lookup_insert_eq.
  - by rewrite lookup_insert_ne.
Qed.

Lemma members_leave room sid w room' :
  members (Socket.leave room sid w) room'
  = if decide (room = room') then members w room' ∖ {[ sid ]}
    else members w room'.
Proof.
  unfold members, Socket.leave. simpl.
  destruct (decide (room = room')) as [->|Hne].
  - by rewrite lookup_insert_eq.
  - by rewrite lookup_insert_ne.
Qed.

Lemma members_leave_all sid w room :
  members (Socket.leave_all sid w) room = members w room ∖ {[ sid ]}.
Proof.
  unfold members, Socket.leave_all. simpl. rewrite lookup_fmap.
  destruct (rooms w !! room) as [s|]; simpl; [done|].
  symmetry. apply leibniz_equiv. apply subseteq_empty_difference.
  apply empty_subseteq.
Qed.

Lemma join_member room sid w : sid ∈ members (Socket.join room sid w) room.
Proof. rewrite members_join. rewrite decide_True by done. set_solver. Qed.

Lemma join_mono room sid w room' sid' :
  sid' ∈ members w room' -> sid' ∈ members (Socket.join room sid w) room'.
Proof. rewrite members_join. case_decide; set_solver. Qed.

Lemma joinUserChats_fold (l : list (string * Chat.t)) sid w room' sid' :
  sid' ∈ members w room' ->
  sid' ∈ members
           (foldl (fun w' kc => Socket.join (Socket.chat_room kc.1) sid w') w l)
           room'.
Proof.
  revert w. induction l as [|kc l IH]; intros w Hin; simpl; [done|].
  apply IH. by apply join_mono.
Qed.

Lemma joinUserChats_mono sock w room' sid' :
  sid' ∈ members w room' -> sid' ∈ members (Socket.joinUserChats sock w) room'.
Proof.
  intros H. unfold Socket.joinUserChats.
  exact (joinUserChats_fold _ _ _ _ _ H).
Qed.

Lemma joinUserChats_fold_frame (l : list (string * Chat.t)) sid w :
  db (foldl (fun w' kc => Socket.join (Socket.chat_room kc.1) sid w') w l)
  = db w
  /\ connectedUsers
       (foldl (fun w' kc => Socket.join (Socket.chat_room kc.1) sid w') w l)
     = connectedUsers w
  /\ userSockets
       (foldl (fun w' kc => Socket.join (Socket.chat_room kc.1) sid w') w l)
     = userSockets w
  /\ immediates
       (foldl (fun w' kc => Socket.join (Socket.chat_room kc.1) sid w') w l)
     = immediates w.
Proof.
  revert w. induction l as [|kc l IH]; intros w; [done|].
  cbn [foldl].
  destruct (IH (Socket.join (Socket.chat_room kc.1) sid w)) as (H1&H2&H3&H4).
  rewrite H1, H2, H3, H4. done.
Qed.

Lemma joinUserChats_frame sock w :
  db (Socket.joinUserChats sock w) = db w
  /\ connectedUsers (Socket.joinUserChats sock w) = connectedUsers w
  /\ userSockets (Socket.joinUserChats sock w) = userSockets w
  /\ immediates (Socket.joinUserChats sock w) = immediates w.
Proof.
  unfold Socket.joinUserChats.
  exact (joinUserChats_fold_frame _ _ _).
Qed.

(** [updateUserOnlineStatus] touches only the users collection. *)
Lemma updateUserOnlineStatus_frame userId isOnline now w :
  let w' := (Socket.updateUserOnlineStatus userId isOnline now w).1 in
  rooms w' = rooms w /\ connectedUsers w' = connectedUsers w
  /\ userSockets w' = userSockets w /\ immediates w' = immediates w
  /\ messages (db w') = messages (db w) /\ chats (db w') = chats (db w)
  /\ users (db w')
     = alter (User.set_online isOnline now) userId (users (db w)).
Proof.
  unfold Socket.updateUserOnlineStatus.
  destruct (Socket.contactIds _ _); simpl; done.
Qed.

Lemma updateUserOnlineStatus_members userId isOnline now w room :
  members (Socket.updateUserOnlineStatus userId isOnline now w).1 room
  = members w room.
Proof.
  unfold members.
  by destruct (updateUserOnlineStatus_frame userId isOnline now w) as [-> _].
Qed.

End Rooms.

(** ** Presence tracking *)

Section Presence.
Implicit Types (w : world) (sock : Socket.socket).

Lemma connection_spec sock now w :
  let w' := (Socket.connection sock now w).1 in
  connectedUsers w'
  = <[Socket.userId sock := Socket.id sock]> (connectedUsers w)
  /\ userSockets w' = <[Socket.id sock := Socket.userId sock]> (userSockets w)
  /\ Socket.id sock ∈ members w' (Socket.user_room (Socket.userId sock))
  /\ (forall room sid, sid ∈ members w room -> sid ∈ members w' room)
  /\ users (db w')
     = alter (User.set_online true now) (Socket.userId sock) (users (db w)).
Proof.
  unfold Socket.connection.
  set (w1 := set_maps _ _ w).
  set (w2 := Socket.join _ _ w1).
  set (w3 := Socket.joinUserChats sock w2).
  destruct (updateUserOnlineStatus_frame (Socket.userId sock) true now w3)
    as (Hr & Hc & Hu & _ & _ & _ & Hus).
  destruct (joinUserChats_frame sock w2) as (Hd3 & Hc3 & Hu3 & _).
  fold w3 in Hd3, Hc3, Hu3.
  cbv zeta. rewrite Hc, Hu, Hus, Hc3, Hu3, Hd3.
  split; [done|]. split; [done|]. split; [|split; [|done]].
  - rewrite updateUserOnlineStatus_members.
    apply joinUserChats_mono, join_member.
  - intros room sid Hin. rewrite updateUserOnlineStatus_members.
    apply joinUserChats_mono, join_mono. done.
Qed.

Lemma disconnect_spec sock now w :
  let w' := (Socket.disconnect sock now w).1 in
  connectedUsers w' = delete (Socket.userId sock) (connectedUsers w)
  /\ userSockets w' = delete (Socket.id sock) (userSockets w)
  /\ (forall room, members w' room = members w room ∖ {[ Socket.id sock ]})
  /\ users (db w')
     = alter (User.set_online false now) (Socket.userId sock) (users (db w)).
Proof.
  unfold Socket.disconnect, Socket.handleDisconnection.
  set (w1 := set_maps _ _ _).
  destruct (updateUserOnlineStatus_frame (Socket.userId sock) false now w1)
    as (Hr & Hc & Hu & _ & _ & _ & Hus).
  cbv zeta. rewrite Hc, Hu, Hus.
  split; [done|]. split; [done|]. split; [|done].
  intros room. rewrite updateUserOnlineStatus_members.
  apply members_leave_all.
Qed.

(** C7.  An identity connects twice, the second connection overwriting the
    first in the identity-to-connection map; when the first connection then
    closes, the identity's entry is deleted and the identity is marked
    offline, so [getUserStatus] answers false and [emitToUser] emits nothing,
    although the second connection is still tracked by its socket id and
    still sits in the identity's personal room. *)
Theorem superseded_disconnect_drops_identity
    (w : world) (u name s1 s2 : string) (t1 t2 t3 : Z)
    (event : string) (data : payload) :
  s1 <> s2 ->
  let first := {| Socket.id := s1; Socket.userId := u;
                  Socket.username := name |} in
  let second := {| Socket.id := s2; Socket.userId := u;
                   Socket.username := name |} in
  let w1 := (Socket.connection first t1 w).1 in
  let w2 := (Socket.connection second t2 w1).1 in
  let w3 := (Socket.disconnect first t3 w2).1 in
  connectedUsers w1 !! u = Some s1
  /\ connectedUsers w2 !! u = Some s2
  /\ connectedUsers w3 !! u = None
  /\ Socket.getUserStatus w3 u = false
  /\ Socket.emitToUser w3 u event data = []
  /\ userSockets w3 !! s2 = Some u
  /\ s2 ∈ members w3 (Socket.user_room u)
  /\ (User.isOnline <$> users (db w3) !! u)
     = ((fun _ => false) <$> users (db w) !! u).
Proof.
  intros Hne first second w1 w2 w3.
  destruct (connection_spec first t1 w) as (Hc1 & Hu1 & _ & _ & Hus1).
  destruct (connection_spec second t2 w1) as (Hc2 & Hu2 & Hm2 & _ & Hus2).
  destruct (disconnect_spec first t3 w2) as (Hc3 & Hu3 & Hm3 & Hus3).
  fold w1 in Hc1, Hu1, Hus1, Hc2, Hu2, Hus2.
  fold w2 in Hc2, Hu2, Hm2, Hus2, Hc3, Hu3, Hm3, Hus3.
  fold w3 in Hc3, Hu3, Hm3, Hus3.
  cbn [Socket.id Socket.userId first second] in *.
  assert (connectedUsers w3 !! u = None) as Hgone.
  { rewrite Hc3. apply lookup_delete_eq. }
  split; [rewrite Hc1; apply lookup_insert_eq|].
  split; [rewrite Hc2; apply lookup_insert_eq|].
  split; [done|].
  split; [unfold Socket.getUserStatus; rewrite Hgone;
          apply bool_decide_eq_false_2; by intros [? ?]|].
  split; [unfold Socket.emitToUser; by rewrite Hgone|].
  split.
  { rewrite Hu3, lookup_delete_ne by done. rewrite Hu2.
    apply lookup_insert_eq. }
  split.
  { rewrite Hm3. apply elem_of_difference. split; [done|].
    rewrite elem_of_singleton. congruence. }
  rewrite Hus3, Hus2, Hus1. rewrite !lookup_alter_eq.
  destruct (users (db w) !! u); done.
Qed.

End Presence.

(** C7 on a fresh process: Anna connects from two devices and the first one
    goes away. *)
Lemma superseded_disconnect_drops_identity_witness :
  let w := {| db := {| messages := ∅; chats := ∅;
                       users := {[ "anna" := {| User.username := "anna";
                                                User.fullName := None;
                                                User.email := "anna@example.com";
                                                User.parentEmail := None;
                                                User.age := 14;
                                                User.isOnline := false;
                                                User.lastSeen := 0;
                                                User.presenceStatus :=
                                                  "offline" |} ]} |};
              connectedUsers := ∅; userSockets := ∅; rooms := ∅;
              immediates := [] |} in
  let first := {| Socket.id := "s1"; Socket.userId := "anna";
                  Socket.username := "anna" |} in
  let second := {| Socket.id := "s2"; Socket.userId := "anna";
                   Socket.username := "anna" |} in
  let w3 := (Socket.disconnect first 30
               (Socket.connection second 20
                  (Socket.connection first 10 w).1).1).1 in
  "s1" <> "s2"
  /\ Socket.getUserStatus w3 "anna" = false
  /\ Socket.emitToUser w3 "anna" "newMessage" (PSent "m1") = []
  /\ userSockets w3 !! "s2" = Some "anna".
Proof.
  intros w first second w3.
  assert ("s1" <> "s2") as Hne by discriminate.
  split; [exact Hne|].
  destruct (superseded_disconnect_drops_identity w "anna" "anna" "s1" "s2"
              10 20 30 "newMessage" (PSent "m1") Hne)
    as (_ & _ & _ & Hs & He & Hl & _).
  split; [exact Hs|]. split; [exact He|exact Hl].
Defined.

(** ** Read receipts *)

Section ReadReceipts.
Implicit Types (ms : gmap string Message.t) (m : Message.t).

Lemma read_by_iff u m :
  Message.read_by u m = true
  <-> exists e, e ∈ Message.readBy m /\ Message.re_user e = u.
Proof.
  unfold Message.read_by. rewrite existsb_exists.
  split; intros (e & Hin & He); exists e.
  - apply list_elem_of_In in Hin. apply bool_decide_eq_true in He. done.
  - apply list_elem_of_In in Hin. split; [done|].
    by apply bool_decide_eq_true.
Qed.

Lemma read_by_addToSet u now m :
  Message.read_by u
    (Message.set_readBy
       (Socket.addToSet {| Message.re_user := u; Message.readAt := now |}
                        (Message.readBy m)) m) = true.
Proof.
  apply read_by_iff.
  exists {| Message.re_user := u; Message.readAt := now |}.
  split; [|reflexivity].
  cbn [Message.set_readBy Message.readBy]. unfold Socket.addToSet.
  case_decide; [done|]. apply elem_of_app. right. by apply list_elem_of_singleton.
Qed.


Lemma mark_read_lookup u chatId ids now ms i :
  Socket.mark_read u chatId ids now ms !! i
  = (fun m =>
       if bool_decide (i ∈ ids) && bool_decide (Message.chat m = chatId)
          && negb (Message.read_by u m)
       then Message.set_readBy
              (Socket.addToSet {| Message.re_user := u; Message.readAt := now |}
                               (Message.readBy m)) m
       else m) <$> ms !! i.
Proof.
  unfold Socket.mark_read. rewrite map_lookup_imap.
  by destruct (ms !! i).
Qed.



End ReadReceipts.


(** ** Reactions *)

Section Reactions.
Implicit Types (l : list Message.Reaction) (u e : string).

(** The (identity, emoji) pair a reaction is found by. *)
Let key (r : Message.Reaction) : string * string :=
  (Message.r_user r, Message.emoji r).

Lemma findIndex_None u e l :
  Controller.findIndex u e l = None <-> (u, e) ∉ key <$> l.
Proof.
  induction l as [|r l IH]; simpl.
  - split; [intros _; apply not_elem_of_nil|done].
  - rewrite not_elem_of_cons.
    destruct (bool_decide (Message.r_user r = u)
              && bool_decide (Message.emoji r = e)) eqn:Hm.
    + apply andb_prop in Hm as [Hu He].
      apply bool_decide_eq_true in Hu, He. subst.
      split; [discriminate|]. intros [Hne _]. by destruct Hne.
    + destruct (Controller.findIndex u e l) as [i|]; simpl.
      * split; [discriminate|]. intros [_ Hn]. by apply IH in Hn.
      * split; [|done]. intros _. split; [|by apply IH].
        intros [= Hu He]. subst.
        by rewrite !bool_decide_eq_true_2 in Hm.
Qed.

Lemma findIndex_last u e now l :
  Controller.findIndex u e l = None ->
  Controller.findIndex u e
    (l ++ [ {| Message.r_user := u; Message.emoji := e;
               Message.r_createdAt := now |} ])
  = Some (length l).
Proof.
  induction l as [|r l IH]; simpl.
  - intros _. by rewrite !bool_decide_eq_true_2.
  - destruct (bool_decide (Message.r_user r = u)
              && bool_decide (Message.emoji r = e)); [discriminate|].
    destruct (Controller.findIndex u e l); [discriminate|].
    intros _. by rewrite IH.
Qed.

(** Toggling on and off again gives the list back. *)
Lemma toggle_twice u e t1 t2 l :
  Controller.findIndex u e l = None ->
  Controller.toggleReaction u e t2 (Controller.toggleReaction u e t1 l) = l.
Proof.
  intros Hn. unfold Controller.toggleReaction at 2. rewrite Hn.
  unfold Controller.toggleReaction. rewrite findIndex_last by done.
  rewrite delete_middle. apply app_nil_r.
Qed.

(** The operation never creates a second entry for a pair. *)
Lemma toggle_NoDup u e now l :
  NoDup (key <$> l) -> NoDup (key <$> Controller.toggleReaction u e now l).
Proof.
  intros Hnd. unfold Controller.toggleReaction.
  destruct (Controller.findIndex u e l) as [i|] eqn:Hf.
  - eapply sublist_NoDup; [exact Hnd|].
    apply fmap_sublist, sublist_delete.
  - rewrite fmap_app. apply NoDup_app. split; [done|].
    split; [|apply NoDup_singleton].
    intros x Hx. cbn. rewrite list_elem_of_singleton. intros ->.
    by apply findIndex_None in Hf.
Qed.

Lemma set_reactions_same (m : Message.t) :
  Message.set_reactions (Message.reactions m) m = m.
Proof. by destruct m. Qed.

Lemma set_reactions_twice l l' (m : Message.t) :
  Message.set_reactions l (Message.set_reactions l' m)
  = Message.set_reactions l m.
Proof. done. Qed.

Lemma valid_added u e now (m : Message.t) :
  Message.valid m = true -> e <> "" ->
  Message.valid
    (Message.set_reactions
       (Message.reactions m ++ [ {| Message.r_user := u; Message.emoji := e;
                                    Message.r_createdAt := now |} ]) m) = true.
Proof.
  unfold Message.valid. cbn [Message.set_reactions Message.content
    Message.sender Message.chat Message.messageType Message.reactions].
  intros Hv He. apply andb_prop in Hv as [Hv Hr]. rewrite Hv.
  rewrite forallb_app, Hr. cbn. by rewrite bool_decide_eq_false_2.
Qed.

(** What [addReaction] does with a request that passes its guards. *)
Lemma addReaction_accepted (req : Controller.request) (now : Z) (w : world)
    (messageId : string) (message : Message.t) (chat : Chat.t) :
  Controller.body_emoji req <> "" ->
  Controller.params req !! "messageId" = Some messageId ->
  messages (db w) !! messageId = Some message ->
  Message.isDeleted message = false ->
  chats (db w) !! Message.chat message = Some chat ->
  Chat.isParticipant chat (Controller.user_id req) = true ->
  let reacted :=
    Message.set_reactions
      (Controller.toggleReaction (Controller.user_id req)
         (Controller.body_emoji req) now (Message.reactions message))
      message in
  Message.valid reacted = true ->
  Controller.addReaction req now w
  = (set_db (set_messages (<[messageId := reacted]> (messages (db w)))
                          (db w)) w,
     Controller.ok 200 "Reaction updated successfully"
       (Controller.DReactions (Message.reactions reacted)),
     Controller.emitToParticipants (Controller.io req) chat
       "messageReactionUpdated"
       (PReactions messageId (Message.reactions reacted))).
Proof.
  intros He Hp Hm Hd Hc Hi reacted Hv. unfold Controller.addReaction.
  rewrite bool_decide_eq_false_2 by done.
  rewrite Hp. unfold Controller.findMessage. cbn [mbind option_bind].
  rewrite Hm, Hd, Hc, Hi. cbn [negb]. fold reacted. rewrite Hv. done.
Qed.

(** [addReaction] leaves the world alone or writes one message, whose
    reactions it toggled. *)
Lemma addReaction_writes (req : Controller.request) (now : Z) (w : world) :
  (Controller.addReaction req now w).1.1 = w
  \/ exists messageId message,
       messages (db w) !! messageId = Some message
       /\ (Controller.addReaction req now w).1.1
          = set_db (set_messages
                      (<[messageId :=
                           Message.set_reactions
                             (Controller.toggleReaction (Controller.user_id req)
                                (Controller.body_emoji req) now
                                (Message.reactions message)) message]>
                         (messages (db w))) (db w)) w.
Proof.
  unfold Controller.addReaction.
  destruct (bool_decide (Controller.body_emoji req = "")); [by left|].
  destruct (Controller.params req !! "messageId") as [messageId|];
    [|by left].
  unfold Controller.findMessage. cbn [mbind option_bind].
  destruct (messages (db w) !! messageId) as [message|] eqn:Hm; [|by left].
  destruct (Message.isDeleted message); [by left|].
  destruct (chats (db w) !! Message.chat message) as [chat|]; [|by left].
  destruct (negb (Chat.isParticipant chat (Controller.user_id req)));
    [by left|].
  destruct (negb (Message.valid _)); [by left|].
  right. by exists messageId, message.
Qed.

(** Among reactions none of which has the pair, the one appended is the only
    one that has it. *)
Lemma appended_once u e now l :
  Controller.findIndex u e l = None ->
  length (filter (fun r => Message.r_user r = u /\ Message.emoji r = e)
                 (l ++ [ {| Message.r_user := u; Message.emoji := e;
                            Message.r_createdAt := now |} ])) = 1%nat.
Proof.
  intros Hn. apply findIndex_None in Hn.
  rewrite filter_app, length_app.
  assert (filter (fun r => Message.r_user r = u /\ Message.emoji r = e) l
          = []) as ->.
  { induction l as [|r l IH]; [done|].
    rewrite fmap_cons, not_elem_of_cons in Hn. destruct Hn as [Hr Hl].
    rewrite filter_cons_False; [by apply IH|].
    intros [<- <-]. by destruct Hr. }
  rewrite filter_cons_True by done. reflexivity.
Qed.

(** C9.  Requests are handled one after the other.  A reaction request that
    passes the handler's guards, for a pair (identity, emoji) the message
    does not carry yet: the stored message afterwards carries its former
    reactions followed by one new reaction with that pair, which is the only
    one with that pair, and is otherwise unchanged; no other message
    changes; the answer is 200 with that list and the list goes to the
    chat's participants.  The same request again removes the reaction: the
    answer is 200 with the former list and the world is as it was before the
    first request.  And whatever the request, if no stored message carries a
    pair twice before the handler runs, none does afterwards. *)
Theorem reaction_toggle
    (req : Controller.request) (t1 t2 : Z) (w : world)
    (messageId : string) (message : Message.t) (chat : Chat.t) :
  Controller.body_emoji req <> "" ->
  Controller.params req !! "messageId" = Some messageId ->
  messages (db w) !! messageId = Some message ->
  Message.isDeleted message = false ->
  Message.valid message = true ->
  chats (db w) !! Message.chat message = Some chat ->
  Chat.isParticipant chat (Controller.user_id req) = true ->
  Controller.findIndex (Controller.user_id req) (Controller.body_emoji req)
                       (Message.reactions message) = None ->
  let mine := {| Message.r_user := Controller.user_id req;
                 Message.emoji := Controller.body_emoji req;
                 Message.r_createdAt := t1 |} in
  let has_pair (r : Message.Reaction) :=
    Message.r_user r = Controller.user_id req
    /\ Message.emoji r = Controller.body_emoji req in
  let first := Controller.addReaction req t1 w in
  let second := Controller.addReaction req t2 first.1.1 in
  (exists stored,
     messages (db first.1.1) !! messageId = Some stored
     /\ Message.reactions stored = Message.reactions message ++ [mine]
     /\ length (filter has_pair (Message.reactions stored)) = 1%nat
     /\ Message.content stored = Message.content message
     /\ Message.sender stored = Message.sender message
     /\ Message.chat stored = Message.chat message
     /\ Message.messageType stored = Message.messageType message
     /\ Message.isEdited stored = Message.isEdited message
     /\ Message.editedAt stored = Message.editedAt message
     /\ Message.isDeleted stored = Message.isDeleted message
     /\ Message.readBy stored = Message.readBy message
     /\ Message.replyTo stored = Message.replyTo message
     /\ Message.createdAt stored = Message.createdAt message)
  /\ (forall i, i <> messageId ->
                messages (db first.1.1) !! i = messages (db w) !! i)
  /\ chats (db first.1.1) = chats (db w)
  /\ first.1.2
     = {| Controller.status := 200; Controller.success := true;
          Controller.message := "Reaction updated successfully";
          Controller.data :=
            Controller.DReactions (Message.reactions message ++ [mine]) |}
  /\ first.2
     = Controller.emitToParticipants (Controller.io req) chat
         "messageReactionUpdated"
         (PReactions messageId (Message.reactions message ++ [mine]))
  /\ second.1.1 = w
  /\ (Message.reactions <$> messages (db second.1.1) !! messageId)
     = Some (Message.reactions message)
  /\ second.1.2
     = {| Controller.status := 200; Controller.success := true;
          Controller.message := "Reaction updated successfully";
          Controller.data :=
            Controller.DReactions (Message.reactions message) |}
  /\ second.2
     = Controller.emitToParticipants (Controller.io req) chat
         "messageReactionUpdated"
         (PReactions messageId (Message.reactions message))
  /\ (forall req' now' w',
        (forall i m, messages (db w') !! i = Some m ->
                     NoDup ((fun r => (Message.r_user r, Message.emoji r))
                              <$> Message.reactions m)) ->
        forall i m,
          messages (db (Controller.addReaction req' now' w').1.1) !! i
          = Some m ->
          NoDup ((fun r => (Message.r_user r, Message.emoji r))
                   <$> Message.reactions m)).
Proof.
  intros He Hp Hm Hd Hv Hc Hi Hf mine has_pair first second.
  assert (Controller.toggleReaction (Controller.user_id req)
            (Controller.body_emoji req) t1 (Message.reactions message)
          = Message.reactions message ++ [mine]) as Ht1.
  { unfold Controller.toggleReaction. by rewrite Hf. }
  pose proof (addReaction_accepted req t1 w messageId message chat
                He Hp Hm Hd Hc Hi) as H1.
  cbv zeta in H1. rewrite Ht1 in H1.
  specialize (H1 (valid_added _ _ _ _ Hv He)).
  set (m1 := Message.set_reactions _ message) in H1.
  assert (first = Controller.addReaction req t1 w) as Hfirst by done.
  rewrite H1 in Hfirst.
  set (w1 := set_db _ w) in Hfirst.
  assert (messages (db w1) !! messageId = Some m1) as Hm1
    by apply lookup_insert_eq.
  pose proof (addReaction_accepted req t2 w1 messageId m1 chat
                He Hp Hm1 Hd Hc Hi) as H2.
  cbv zeta in H2.
  assert (Controller.toggleReaction (Controller.user_id req)
            (Controller.body_emoji req) t2 (Message.reactions m1)
          = Message.reactions message) as Ht2.
  { subst m1. cbn [Message.set_reactions Message.reactions].
    rewrite <- Ht1. by apply toggle_twice. }
  rewrite Ht2 in H2. subst m1.
  rewrite set_reactions_twice, set_reactions_same in H2.
  specialize (H2 Hv).
  assert (second = Controller.addReaction req t2 w1) as Hsecond
    by (subst second; by rewrite Hfirst).
  rewrite H2 in Hsecond.
  assert (set_db (set_messages (<[messageId := message]> (messages (db w1)))
                               (db w1)) w1 = w) as Hback.
  { subst w1. cbn [db set_db set_messages messages chats users].
    rewrite insert_insert_eq, insert_id by done.
    by destruct w as [[] ? ? ? ?]. }
  rewrite Hback in Hsecond.
  rewrite Hfirst, Hsecond.
  cbn [fst snd Controller.ok Message.set_reactions Message.reactions].
  split.
  { eexists. split; [exact Hm1|].
    cbn [Message.set_reactions Message.reactions Message.content
         Message.sender Message.chat Message.messageType Message.isEdited
         Message.editedAt Message.isDeleted Message.readBy Message.replyTo
         Message.createdAt].
    split; [done|]. split; [by apply appended_once|]. done. }
  split.
  { intros i Hne. subst w1. cbn [db set_db set_messages messages].
    by rewrite lookup_insert_ne. }
  split; [done|]. split; [done|]. split; [done|]. split; [done|].
  split; [by rewrite Hm|]. split; [done|]. split; [done|].
  intros req' now' w' Hnd i m.
  destruct (addReaction_writes req' now' w')
    as [->|(messageId' & message' & Hm' & ->)]; [by apply Hnd|].
  cbn [db set_db set_messages messages].
  destruct (decide (i = messageId')) as [->|Hne].
  - rewrite lookup_insert_eq. intros [= <-].
    cbn [Message.set_reactions Message.reactions].
    apply toggle_NoDup. by eapply Hnd.
  - rewrite lookup_insert_ne by done. by apply Hnd.
Qed.

End Reactions.

(** C9 in the sample deployment: Anna reacts to her message twice. *)
Lemma reaction_toggle_witness :
  let req := Sample.request "anna" {[ "messageId" := "m1" ]} JUndefined "heart" in
  let heart := {| Message.r_user := "anna"; Message.emoji := "heart";
                  Message.r_createdAt := 1000 |} in
  let first := Controller.addReaction req 1000 Sample.w0 in
  let second := Controller.addReaction req 2000 first.1.1 in
  Controller.body_emoji req <> ""
  /\ Controller.params req !! "messageId" = Some "m1"
  /\ messages (db Sample.w0) !! "m1" = Some Sample.m1
  /\ Message.isDeleted Sample.m1 = false
  /\ Message.valid Sample.m1 = true
  /\ chats (db Sample.w0) !! Message.chat Sample.m1 = Some Sample.c1
  /\ Chat.isParticipant Sample.c1 (Controller.user_id req) = true
  /\ Controller.findIndex (Controller.user_id req) (Controller.body_emoji req)
                          (Message.reactions Sample.m1) = None
  /\ Message.reactions <$> messages (db first.1.1) !! "m1" = Some [heart]
  /\ Controller.data first.1.2 = Controller.DReactions [heart]
  /\ second.1.1 = Sample.w0
  /\ Controller.data second.1.2 = Controller.DReactions [].
Proof.
  intros req heart first second.
  assert (Controller.body_emoji req <> "") as H1 by discriminate.
  assert (Controller.params req !! "messageId" = Some "m1") as H2
    by reflexivity.
  assert (messages (db Sample.w0) !! "m1" = Some Sample.m1) as H3
    by reflexivity.
  assert (Message.isDeleted Sample.m1 = false) as H4 by reflexivity.
  assert (Message.valid Sample.m1 = true) as H5 by reflexivity.
  assert (chats (db Sample.w0) !! Message.chat Sample.m1 = Some Sample.c1)
    as H6 by reflexivity.
  assert (Chat.isParticipant Sample.c1 (Controller.user_id req) = true)
    as H7 by reflexivity.
  assert (Controller.findIndex (Controller.user_id req)
            (Controller.body_emoji req) (Message.reactions Sample.m1) = None)
    as H8 by reflexivity.
  destruct (reaction_toggle req 1000 2000 Sample.w0 "m1" Sample.m1 Sample.c1
              H1 H2 H3 H4 H5 H6 H7 H8)
    as ((stored & Hst & Hrs & _) & _ & _ & Hr1 & _ & Hw & _ & Hr2 & _).
  repeat (split; [assumption|]).
  split; [unfold first; rewrite Hst; exact (f_equal Some Hrs)|].
  split; [exact (f_equal Controller.data Hr1)|]. split; [exact Hw|].
  exact (f_equal Controller.data Hr2).
Defined.

(** ** Editing *)

Section Editing.
Implicit Types (req : Controller.request) (w : world) (m : Message.t).

Lemma not_blank_truthy (s : string) : blank s = false -> truthy (JStr s) = true.
Proof.
  destruct s as [|a s]; [discriminate|]. intros _. unfold truthy.
  by rewrite bool_decide_eq_false_2.
Qed.

(** [editMessage] up to the sender and time checks, for a request with text
    content whose target exists and is not deleted. *)
Lemma editMessage_found req now w messageId content m :
  Controller.params req !! "id" = Some messageId ->
  Controller.body_content req = JStr content ->
  blank content = false ->
  messages (db w) !! messageId = Some m ->
  Message.isDeleted m = false ->
  Controller.editMessage req now w
  = if negb (bool_decide (Message.sender m = Controller.user_id req))
    then (w, Controller.reply 403 "You can only edit your own messages", [])
    else if now - Message.createdAt m >? Controller.editTimeLimit
    then (w, Controller.reply 400 "Message edit time limit exceeded", [])
    else
      let edited := Message.set_content (trim content) now m in
      if negb (Message.valid edited)
      then (w, Controller.reply 500 "Failed to edit message", [])
      else
        let w1 := set_db (set_messages (<[messageId := edited]>
                                          (messages (db w))) (db w)) w in
        match chats (db w) !! Message.chat m with
        | Some chat =>
            (w1, Controller.ok 200 "Message updated successfully"
                   (Controller.DMessage messageId edited),
             Controller.emitToParticipants (Controller.io req) chat
               "messageEdited" (PMessage messageId edited))
        | None =>
            if Controller.io req
            then (w1, Controller.reply 500 "Failed to edit message", [])
            else (w1, Controller.ok 200 "Message updated successfully"
                        (Controller.DMessage messageId edited), [])
        end.
Proof.
  intros Hp Hc Hb Hm Hd. unfold Controller.editMessage.
  rewrite Hc, (not_blank_truthy _ Hb), Hb, Hp. cbn [negb].
  unfold Controller.findMessage. cbn [mbind option_bind]. rewrite Hm, Hd.
  reflexivity.
Qed.

(** An edit is applied, or answered with 200, only for the sender's own
    message and within the window. *)
Lemma editMessage_only_sender_in_window req now w :
  (Controller.editMessage req now w).1.1 <> w
  \/ Controller.status (Controller.editMessage req now w).1.2 = 200 ->
  exists messageId m,
    Controller.params req !! "id" = Some messageId
    /\ messages (db w) !! messageId = Some m
    /\ Message.sender m = Controller.user_id req
    /\ now - Message.createdAt m <= Controller.editTimeLimit.
Proof.
  unfold Controller.editMessage.
  destruct (truthy (Controller.body_content req)); cbn [negb];
    [|intros [|]; done].
  destruct (Controller.body_content req) as [| | | |content];
    try (intros [|]; done).
  destruct (blank content); [intros [|]; done|].
  destruct (Controller.params req !! "id") as [messageId|];
    [|intros [|]; done].
  unfold Controller.findMessage. cbn [mbind option_bind].
  destruct (messages (db w) !! messageId) as [m|] eqn:Hm;
    [|intros [|]; done].
  destruct (Message.isDeleted m); [intros [|]; done|].
  destruct (bool_decide (Message.sender m = Controller.user_id req)) eqn:Hs;
    cbn [negb]; [|intros [|]; done].
  apply bool_decide_eq_true in Hs.
  destruct (now - Message.createdAt m >? Controller.editTimeLimit) eqn:Ht;
    [intros [|]; done|].
  intros _. exists messageId, m. repeat split; try done.
  rewrite Z.gtb_ltb in Ht. by apply Z.ltb_ge in Ht.
Qed.

(** C5.  For an edit request by the message's sender that is otherwise valid
    (non-blank text, an existing undeleted message, a result the schema
    accepts, and the message's chat on file when a socket server is attached):
    if the message was created more than 15 minutes before the request it is
    answered 400 "Message edit time limit exceeded" and nothing changes; if it
    was created at most 15 minutes before (14 minutes in particular) the new
    content is stored and the answer is 200.  And no request is ever applied
    or answered 200 unless it comes from the sender within the window. *)
Theorem edit_window req now w messageId content m :
  Controller.params req !! "id" = Some messageId ->
  Controller.body_content req = JStr content ->
  blank content = false ->
  messages (db w) !! messageId = Some m ->
  Message.isDeleted m = false ->
  Message.sender m = Controller.user_id req ->
  Message.valid (Message.set_content (trim content) now m) = true ->
  (Controller.io req = true -> is_Some (chats (db w) !! Message.chat m)) ->
  let edited := Message.set_content (trim content) now m in
  let out := Controller.editMessage req now w in
  (15 * 60 * 1000 < now - Message.createdAt m ->
     out = (w, Controller.reply 400 "Message edit time limit exceeded", []))
  /\ (now - Message.createdAt m <= 15 * 60 * 1000 ->
        out.1.1 = set_db (set_messages (<[messageId := edited]>
                                          (messages (db w))) (db w)) w
        /\ out.1.2 = Controller.ok 200 "Message updated successfully"
                       (Controller.DMessage messageId edited))
  /\ (now - Message.createdAt m = 14 * 60 * 1000 ->
        Controller.status out.1.2 = 200
        /\ Message.content <$> messages (db out.1.1) !! messageId
           = Some (trim content))
  /\ (forall req' now' w',
        (Controller.editMessage req' now' w').1.1 <> w'
        \/ Controller.status (Controller.editMessage req' now' w').1.2 = 200 ->
        exists messageId' m',
          Controller.params req' !! "id" = Some messageId'
          /\ messages (db w') !! messageId' = Some m'
          /\ Message.sender m' = Controller.user_id req'
          /\ now' - Message.createdAt m' <= 15 * 60 * 1000).
Proof.
  intros Hp Hc Hb Hm Hd Hs Hv Hio edited out.
  assert (out = Controller.editMessage req now w) as Hout by done.
  rewrite (editMessage_found req now w messageId content m Hp Hc Hb Hm Hd)
    in Hout.
  rewrite bool_decide_eq_true_2 in Hout by done. cbn [negb] in Hout.
  fold edited in Hout. cbv zeta in Hout. fold edited in Hout.
  change (15 * 60 * 1000) with Controller.editTimeLimit.
  assert (now - Message.createdAt m <= Controller.editTimeLimit ->
          out.1.1 = set_db (set_messages (<[messageId := edited]>
                                            (messages (db w))) (db w)) w
          /\ out.1.2 = Controller.ok 200 "Message updated successfully"
                         (Controller.DMessage messageId edited)) as Hin.
  { intros Hle.
    assert ((now - Message.createdAt m >? Controller.editTimeLimit) = false)
      as Hg by (rewrite Z.gtb_ltb; by apply Z.ltb_ge).
    rewrite Hg in Hout. unfold edited in Hout at 1. rewrite Hv in Hout.
    cbn [negb] in Hout.
    destruct (chats (db w) !! Message.chat m) as [chat|] eqn:Hchat.
    - by rewrite Hout.
    - destruct (Controller.io req) eqn:Hi.
      + destruct (Hio eq_refl) as [? [=]].
      + by rewrite Hout. }
  split; [|split; [exact Hin|split]].
  - intros Hlt.
    assert ((now - Message.createdAt m >? Controller.editTimeLimit) = true)
      as Hg by (rewrite Z.gtb_ltb; by apply Z.ltb_lt).
    by rewrite Hg in Hout.
  - intros H14.
    destruct Hin as [Hw Hr]; [rewrite H14; by vm_compute|].
    rewrite Hw, Hr. split; [done|].
    cbn [db set_db set_messages messages]. rewrite lookup_insert_eq. done.
  - intros req' now' w'. apply editMessage_only_sender_in_window.
Qed.

End Editing.

(** C5 in the sample deployment: Anna edits her message 14 minutes after she
    sent it. *)
Lemma edit_window_witness :
  let req := Sample.request "anna" {[ "id" := "m1" ]} (JStr "hello there") "" in
  let now := 14 * 60 * 1000 in
  Controller.params req !! "id" = Some "m1"
  /\ Controller.body_content req = JStr "hello there"
  /\ blank "hello there" = false
  /\ messages (db Sample.w0) !! "m1" = Some Sample.m1
  /\ Message.isDeleted Sample.m1 = false
  /\ Message.sender Sample.m1 = Controller.user_id req
  /\ Message.valid (Message.set_content (trim "hello there") now Sample.m1)
     = true
  /\ (Controller.io req = true ->
      is_Some (chats (db Sample.w0) !! Message.chat Sample.m1))
  /\ Controller.status (Controller.editMessage req now Sample.w0).1.2 = 200
  /\ Message.content
       <$> messages (db (Controller.editMessage req now Sample.w0).1.1) !! "m1"
     = Some "hello there".
Proof.
  intros req now.
  assert (Controller.params req !! "id" = Some "m1") as H1 by reflexivity.
  assert (Controller.body_content req = JStr "hello there") as H2
    by reflexivity.
  assert (blank "hello there" = false) as H3 by reflexivity.
  assert (messages (db Sample.w0) !! "m1" = Some Sample.m1) as H4
    by reflexivity.
  assert (Message.isDeleted Sample.m1 = false) as H5 by reflexivity.
  assert (Message.sender Sample.m1 = Controller.user_id req) as H6
    by reflexivity.
  assert (Message.valid (Message.set_content (trim "hello there") now
                                             Sample.m1) = true) as H7
    by reflexivity.
  assert (Controller.io req = true ->
          is_Some (chats (db Sample.w0) !! Message.chat Sample.m1)) as H8
    by (intros _; exists Sample.c1; reflexivity).
  repeat (split; [assumption|]).
  exact (proj1 (proj2 (proj2
    (edit_window req now Sample.w0 "m1" "hello there" Sample.m1
       H1 H2 H3 H4 H5 H6 H7 H8))) eq_refl).
Defined.

(** ** Moderated routes *)

Section ModeratedRoutes.
Variable classify : string -> Moderation.http_outcome.
Implicit Types (req : Controller.request) (w : world).

(** The middleware blocks exactly the requests whose text the classifier
    flags. *)
Lemma middleware_blocks_iff (content : jsval) :
  Moderation.sexualContentMiddleware classify content = Moderation.Blocked400
  <-> exists t, Moderation.request_text content = Some t
             /\ classify t = Moderation.HttpResponse (JBool true).
Proof.
  unfold Moderation.sexualContentMiddleware.
  destruct (Moderation.no_text content) eqn:Hn.
  - apply request_text_guard in Hn. rewrite Hn.
    split; [discriminate|]. intros (t & [=] & _).
  - rewrite <- flagged_iff_result_true.
    destruct (Moderation.is_sexual _); split; congruence.
Qed.

(** Whatever answer [editMessage] gives to a request without text content,
    it leaves the world alone. *)
Lemma editMessage_needs_text req now w :
  Moderation.request_text (Controller.body_content req) = None ->
  (Controller.editMessage req now w).1.1 = w.
Proof.
  intros Hn. unfold Controller.editMessage.
  destruct (truthy (Controller.body_content req)); cbn [negb]; [|done].
  destruct (Controller.body_content req) as [| | | |content]; try done.
  cbn [Moderation.request_text] in Hn.
  destruct (blank content); [done|discriminate].
Qed.

(** C6.  On the moderated edit route, a request whose new text the classifier
    marks unsafe is answered with the blocked 400 response after the one
    classifier request, and the world is unchanged; and whenever the route
    does change the world, the classifier was asked about the new text first
    and did not flag it. *)
Theorem edit_is_moderated req now w :
  (forall t,
     Moderation.request_text (Controller.body_content req) = Some t ->
     classify t = Moderation.HttpResponse (JBool true) ->
     Routes.put_message classify req now w
     = (w, Routes.blocked_response, [ClassifierRequest t]))
  /\ ((Routes.put_message classify req now w).1.1 <> w ->
      exists t fx,
        Moderation.request_text (Controller.body_content req) = Some t
        /\ (Routes.put_message classify req now w).2 = ClassifierRequest t :: fx
        /\ classify t <> Moderation.HttpResponse (JBool true)).
Proof.
  unfold Routes.put_message, Routes.moderated. split.
  - intros t Ht Hc.
    assert (Moderation.sexualContentMiddleware classify
              (Controller.body_content req) = Moderation.Blocked400) as ->
      by (apply middleware_blocks_iff; eauto).
    by rewrite Ht.
  - destruct (Moderation.sexualContentMiddleware classify
                (Controller.body_content req)) as [moderation|] eqn:Hmw;
      [|done].
    destruct (Controller.editMessage req now w) as [[w' res] fx] eqn:He.
    cbn [fst snd]. intros Hchanged.
    destruct (Moderation.request_text (Controller.body_content req))
      as [t|] eqn:Ht.
    + exists t, fx. split; [done|]. split; [done|].
      intros Hc.
      assert (Moderation.sexualContentMiddleware classify
                (Controller.body_content req) = Moderation.Blocked400) as Hb
        by (apply middleware_blocks_iff; eauto).
      congruence.
    + pose proof (editMessage_needs_text req now w Ht) as Hsame.
      rewrite He in Hsame. done.
Qed.

End ModeratedRoutes.

(** C6 in the sample deployment: Anna tries to edit her message into text
    the classifier flags. *)
Lemma edit_is_moderated_witness :
  let req := Sample.request "anna" {[ "id" := "m1" ]} (JStr " bad words ") "" in
  Moderation.request_text (Controller.body_content req) = Some "bad words"
  /\ Sample.classifier "bad words" = Moderation.HttpResponse (JBool true)
  /\ Routes.put_message Sample.classifier req 1000 Sample.w0
     = (Sample.w0, Routes.blocked_response, [ClassifierRequest "bad words"]).
Proof.
  intros req.
  assert (Moderation.request_text (Controller.body_content req)
          = Some "bad words") as H1 by reflexivity.
  assert (Sample.classifier "bad words" = Moderation.HttpResponse (JBool true))
    as H2 by reflexivity.
  split; [exact H1|]. split; [exact H2|].
  exact (proj1 (edit_is_moderated Sample.classifier req 1000 Sample.w0)
           "bad words" H1 H2).
Defined.

(** ** The send pipeline *)

Section SendPipeline.
Variable classify : string -> Moderation.http_outcome.
Implicit Types (sock : Socket.socket) (data : Socket.sendMessageData)
               (w : world).

(** [monitorTextContent] resolves on every path. *)
Lemma monitorTextContent_resolves content senderId chatId queue :
  exists m, (Monitoring.monitorTextContent classify content senderId chatId
                                           queue).1.1 = Ok m.
Proof.
  unfold Monitoring.monitorTextContent.
  destruct (Monitoring.blocked _); eauto.
Qed.

(** A blocked verdict, spelled out: the text went to the classifier, which
    flagged it; one notification was handed to [setImmediate]. *)
Lemma monitorTextContent_blocked content senderId chatId queue m fx queue' :
  Monitoring.monitorTextContent classify content senderId chatId queue
  = (Ok m, fx, queue') ->
  Monitoring.blocked m = true ->
  exists s,
    content = JStr s /\ blank s = false
    /\ classify (trim s) = Moderation.HttpResponse (JBool true)
    /\ m = Monitoring.blocked_result
    /\ fx = [ClassifierRequest (trim s)]
    /\ queue' = queue ++ [ {| t_content := content; t_senderId := senderId;
                              t_chatId := chatId; t_contentType := "text" |} ].
Proof.
  unfold Monitoring.monitorTextContent, Monitoring.quickContentCheck,
    Moderation.checkSexualContent.
  destruct (Moderation.is_sexual _) eqn:Hs.
  - cbn [Monitoring.blocked Monitoring.blocked_result].
    intros [= <- <- <-] _.
    apply flagged_iff_result_true in Hs as (t & Ht & Hc).
    destruct (request_text_string _ _ Ht) as (s & -> & Hb & ->).
    exists s. rewrite Ht. done.
  - cbn [Monitoring.blocked Monitoring.approved_result].
    intros [= <- <- <-]. discriminate.
Qed.

(** C1.  When the moderation check of a text message returns a blocked
    verdict, the [sendMessage] listener asks the classifier once, emits
    [messageBlocked] with the verdict's reason and message to the sending
    connection and to no other, and returns: the database (message records,
    the chat's last-message and last-activity pointers) and the rooms are
    untouched, no [newMessage] is emitted, and the only thing left behind is
    the guardian notification handed to [setImmediate]. *)
Theorem blocked_message_halts sock data now newId w m fx queue :
  Socket.chatId data <> "" ->
  default "text" (Socket.messageType data) = "text" ->
  Monitoring.monitorTextContent classify (Socket.content data)
    (Socket.userId sock) (Socket.chatId data) (immediates w)
  = (Ok m, fx, queue) ->
  Monitoring.blocked m = true ->
  let out := Socket.sendMessage classify sock data now newId w in
  let blockedEmit :=
    Emit (ToSocket (Socket.id sock)) "messageBlocked"
         (PBlocked (Monitoring.reason m) (Monitoring.message m)) in
  out.2 = fx ++ [blockedEmit]
  /\ filter (fun e => is_emit e = true) out.2 = [blockedEmit]
  /\ (forall live, receivers w live (ToSocket (Socket.id sock))
                   = {[ Socket.id sock ]})
  /\ Forall (fun e => emits "newMessage" e = false) out.2
  /\ db out.1 = db w
  /\ rooms out.1 = rooms w
  /\ connectedUsers out.1 = connectedUsers w
  /\ immediates out.1
     = immediates w
       ++ [ {| t_content := Socket.content data;
               t_senderId := Socket.userId sock;
               t_chatId := Socket.chatId data; t_contentType := "text" |} ].
Proof.
  intros Hchat Htype Hmon Hblocked out blockedEmit.
  destruct (monitorTextContent_blocked _ _ _ _ _ _ _ Hmon Hblocked)
    as (s & Hcontent & Hb & _ & _ & Hfx & Hq).
  assert (out = (set_immediates queue w, fx ++ [blockedEmit])) as ->.
  { subst out. unfold Socket.sendMessage.
    rewrite bool_decide_eq_false_2 by done.
    rewrite Htype. rewrite Hcontent in Hmon |- *.
    rewrite (not_blank_truthy _ Hb), Hb. cbn [negb orb].
    unfold Socket.moderate. rewrite bool_decide_eq_true_2 by done.
    rewrite Hmon, Hblocked. reflexivity. }
  cbn [fst snd db rooms connectedUsers immediates set_immediates].
  subst fx. split; [done|]. split; [done|]. split; [done|].
  split; [by repeat constructor|]. done.
Qed.

End SendPipeline.

(** C1 in the sample deployment: Anna sends text the classifier flags. *)
Lemma blocked_message_halts_witness :
  let data := {| Socket.chatId := "c1"; Socket.content := JStr "bad words";
                 Socket.messageType := None; Socket.replyTo := None |} in
  let out := Socket.sendMessage Sample.classifier Sample.annaSocket data
               1000 "m3" Sample.w0 in
  Socket.chatId data <> ""
  /\ default "text" (Socket.messageType data) = "text"
  /\ Monitoring.monitorTextContent Sample.classifier (Socket.content data)
       "anna" "c1" []
     = (Ok Monitoring.blocked_result, [ClassifierRequest "bad words"],
        [ {| t_content := JStr "bad words"; t_senderId := "anna";
             t_chatId := "c1"; t_contentType := "text" |} ])
  /\ Monitoring.blocked Monitoring.blocked_result = true
  /\ db out.1 = db Sample.w0
  /\ filter (fun e => is_emit e = true) out.2
     = [Emit (ToSocket "s1") "messageBlocked"
          (PBlocked (Monitoring.reason Monitoring.blocked_result)
                    (Monitoring.message Monitoring.blocked_result))].
Proof.
  intros data out.
  assert (Socket.chatId data <> "") as H1 by discriminate.
  assert (default "text" (Socket.messageType data) = "text") as H2
    by reflexivity.
  assert (Monitoring.monitorTextContent Sample.classifier (Socket.content data)
            (Socket.userId Sample.annaSocket) (Socket.chatId data)
            (immediates Sample.w0)
          = (Ok Monitoring.blocked_result, [ClassifierRequest "bad words"],
             [ {| t_content := JStr "bad words"; t_senderId := "anna";
                  t_chatId := "c1"; t_contentType := "text" |} ])) as H3
    by reflexivity.
  assert (Monitoring.blocked Monitoring.blocked_result = true) as H4
    by reflexivity.
  split; [exact H1|]. split; [exact H2|]. split; [exact H3|].
  split; [exact H4|].
  destruct (blocked_message_halts Sample.classifier Sample.annaSocket data
              1000 "m3" Sample.w0 _ _ _ H1 H2 H3 H4)
    as (_ & Hemit & _ & _ & Hdb & _).
  split; [exact Hdb|exact Hemit].
Defined.

(** ** The guardian notifier *)

Section GuardianNotifier.
Variable classify : string -> Moderation.http_outcome.
Variable sendMail : alert -> bool.
Implicit Types (d : store) (tk : task).

Lemma sendParentContentAlert_background (a : alert) :
  Forall (fun e => background e = true)
         (Monitoring.sendParentContentAlert sendMail a).2.
Proof.
  unfold Monitoring.sendParentContentAlert.
  destruct (sendMail a); by repeat constructor.
Qed.

Lemma send_alert_background d sender parent tk chat :
  Forall (fun e => background e = true)
         (Monitoring.send_alert sendMail d sender parent tk chat).2.
Proof.
  unfold Monitoring.send_alert.
  destruct (match chat with
            | Some c => _ | None => _ end) as [names|?]; [|by constructor].
  destruct (Monitoring.preview _ _ 50) as [p|?]; [|by constructor].
  apply sendParentContentAlert_background.
Qed.

Lemma notify_body_background d tk :
  Forall (fun e => background e = true)
         (Monitoring.notify_body sendMail d tk).2.
Proof.
  unfold Monitoring.notify_body.
  destruct (users d !! t_senderId tk) as [sender|];
    [|by repeat constructor].
  destruct (Monitoring.no_parentEmail sender); [by constructor|].
  destruct (ObjectId.findById (chats d) (t_chatId tk)) as [chat|?];
    [|by constructor].
  pose proof (send_alert_background d sender
                (default "" (User.parentEmail sender)) tk (snd <$> chat))
    as Hfx.
  destruct (Monitoring.send_alert _ _ _ _ _ _) as [sent fx].
  cbn [snd] in Hfx.
  assert (Forall (fun e => background e = true)
            match sent with
            | Ok _ => fx
            | Throw _ =>
                fx ++ [ConsoleError "Failed to send parent notification (async)"]
            end) as Hfx'.
  { destruct sent; [done|]. apply Forall_app. split; [done|].
    by repeat constructor. }
  destruct (Monitoring.preview _ _ 100); cbn [snd]; [|done].
  apply Forall_app. split; [done|]. by repeat constructor.
Qed.

(** A failed delivery is logged by the inner [catch]. *)
Lemma failed_delivery_logged d tk sender k :
  users d !! t_senderId tk = Some sender ->
  Monitoring.no_parentEmail sender = false ->
  ObjectId.cast (chats d) (t_chatId tk) = Ok k ->
  (forall a, sendMail a = false) ->
  ConsoleError "Failed to send parent notification (async)"
    ∈ (Monitoring.notify sendMail d tk).2.
Proof.
  intros Hs Hp Hk Hfail.
  assert (forall parent chat,
            exists msg fx, Monitoring.send_alert sendMail d sender parent tk
                             chat
                           = (Throw msg, fx)) as Hsend.
  { intros parent chat. unfold Monitoring.send_alert.
    destruct (match chat with
              | Some c => _ | None => _ end) as [names|?]; [|by eauto].
    destruct (Monitoring.preview _ _ 50) as [p|?]; [|by eauto].
    unfold Monitoring.sendParentContentAlert. rewrite Hfail. by eauto. }
  unfold Monitoring.notify, Monitoring.notify_body. rewrite Hs, Hp.
  destruct (findById_cast (chats d) (t_chatId tk))
    as [(m & Hc & _)|(k' & _ & ->)]; [congruence|].
  destruct (Hsend (default "" (User.parentEmail sender))
              (snd <$> (pair k' <$> chats d !! k'))) as (msg & fx & ->).
  destruct (Monitoring.preview _ _ 100).
  - apply elem_of_app. left. apply elem_of_app. right.
    apply list_elem_of_here.
  - apply elem_of_app. left. apply elem_of_app. right.
    apply list_elem_of_here.
Qed.

(** A chat id that is no ObjectId ends the callback in its outer [catch],
    before any mail is composed. *)
Lemma malformed_chat_ends_callback d tk sender m :
  users d !! t_senderId tk = Some sender ->
  Monitoring.no_parentEmail sender = false ->
  ObjectId.cast (chats d) (t_chatId tk) = Throw m ->
  Monitoring.notify sendMail d tk
  = (Ok tt, [ConsoleError "Error in async parent notification"]).
Proof.
  intros Hs Hp Hc.
  unfold Monitoring.notify, Monitoring.notify_body. rewrite Hs, Hp.
  destruct (findById_cast (chats d) (t_chatId tk))
    as [(m' & _ & ->)|(k & Hk & _)]; [done|congruence].
Qed.

(** C10.  A blocked verdict only hands the notification to [setImmediate]:
    the response path performs nothing but the classifier request.  The
    callback runs later as a turn of its own that touches nothing but the
    queue; when the sender has no guardian contact it does nothing at all;
    and on every input, a failing mail transport and a chat id that is no
    ObjectId included, it completes without an uncaught exception, having
    emitted nothing to any connection.  A failed delivery is logged by the
    inner [catch]; a chat id that cannot be cast ends the callback in the
    outer [catch] before any mail is attempted. *)
Theorem guardian_notification_deferred d tk :
  (forall content senderId chatId queue m fx queue',
     Monitoring.monitorTextContent classify content senderId chatId queue
     = (Ok m, fx, queue') ->
     Monitoring.blocked m = true ->
     queue' = queue ++ [ {| t_content := content; t_senderId := senderId;
                            t_chatId := chatId; t_contentType := "text" |} ]
     /\ Forall (fun e => background e = false) fx)
  /\ (forall w queue,
        immediates w = tk :: queue ->
        Gateway.runImmediate sendMail w
        = (set_immediates queue w, (Monitoring.notify sendMail (db w) tk).2))
  /\ (forall sender,
        users d !! t_senderId tk = Some sender ->
        Monitoring.no_parentEmail sender = true ->
        Monitoring.notify sendMail d tk = (Ok tt, []))
  /\ (Monitoring.notify sendMail d tk).1 = Ok tt
  /\ Forall (fun e => is_emit e = false) (Monitoring.notify sendMail d tk).2
  /\ (forall sender k,
        users d !! t_senderId tk = Some sender ->
        Monitoring.no_parentEmail sender = false ->
        ObjectId.cast (chats d) (t_chatId tk) = Ok k ->
        (forall a, sendMail a = false) ->
        ConsoleError "Failed to send parent notification (async)"
          ∈ (Monitoring.notify sendMail d tk).2)
  /\ (forall sender m,
        users d !! t_senderId tk = Some sender ->
        Monitoring.no_parentEmail sender = false ->
        ObjectId.cast (chats d) (t_chatId tk) = Throw m ->
        Monitoring.notify sendMail d tk
        = (Ok tt, [ConsoleError "Error in async parent notification"])).
Proof.
  split; [|split; [|split; [|split; [|split; [|split]]]]].
  - intros content senderId chatId queue m fx queue' Hmon Hb.
    destruct (monitorTextContent_blocked classify _ _ _ _ _ _ _ Hmon Hb)
      as (s & _ & _ & _ & _ & -> & ->).
    split; [done|]. by repeat constructor.
  - intros w queue Hq. unfold Gateway.runImmediate. by rewrite Hq.
  - intros sender Hs Hp. unfold Monitoring.notify, Monitoring.notify_body.
    by rewrite Hs, Hp.
  - unfold Monitoring.notify.
    by destruct (Monitoring.notify_body sendMail d tk) as [[|] ?].
  - pose proof (notify_body_background d tk) as Hbg.
    unfold Monitoring.notify.
    destruct (Monitoring.notify_body sendMail d tk) as [[|] fx];
      cbn [snd] in *.
    + eapply Forall_impl; [exact Hbg|]. by intros [].
    + apply Forall_app. split; [|by repeat constructor].
      eapply Forall_impl; [exact Hbg|]. by intros [].
  - intros sender k. apply failed_delivery_logged.
  - intros sender m. apply malformed_chat_ends_callback.
Qed.

End GuardianNotifier.

(** C10 in the sample deployment, with a mail transport that is down: Ben has
    no guardian contact and his notification does nothing; Anna's fails to go
    out, which is logged and goes no further; and for the text Anna sent
    with the chat id ["lobby"], which is no ObjectId, the callback ends
    before any mail. *)
Lemma guardian_notification_deferred_witness :
  let down := fun _ : alert => false in
  let forBen := {| t_content := JStr "bad words"; t_senderId := "ben";
                   t_chatId := "c1"; t_contentType := "text" |} in
  let forAnna := {| t_content := JStr "bad words"; t_senderId := "anna";
                    t_chatId := "c1"; t_contentType := "text" |} in
  let lobby := {| t_content := JStr "bad words"; t_senderId := "anna";
                  t_chatId := "lobby"; t_contentType := "text" |} in
  users Sample.store0 !! t_senderId forBen = Some Sample.ben
  /\ Monitoring.no_parentEmail Sample.ben = true
  /\ Monitoring.notify down Sample.store0 forBen = (Ok tt, [])
  /\ users Sample.store0 !! t_senderId forAnna = Some Sample.anna
  /\ Monitoring.no_parentEmail Sample.anna = false
  /\ ObjectId.cast (chats Sample.store0) (t_chatId forAnna) = Ok "c1"
  /\ (forall a, down a = false)
  /\ ConsoleError "Failed to send parent notification (async)"
       ∈ (Monitoring.notify down Sample.store0 forAnna).2
  /\ (Monitoring.notify down Sample.store0 forAnna).1 = Ok tt
  /\ ObjectId.cast (chats Sample.store0) (t_chatId lobby)
     = Throw "Cast to ObjectId failed"
  /\ Monitoring.notify down Sample.store0 lobby
     = (Ok tt, [ConsoleError "Error in async parent notification"]).
Proof.
  intros down forBen forAnna lobby.
  assert (users Sample.store0 !! t_senderId forBen = Some Sample.ben) as H1
    by reflexivity.
  assert (Monitoring.no_parentEmail Sample.ben = true) as H2 by reflexivity.
  assert (users Sample.store0 !! t_senderId forAnna = Some Sample.anna) as H3
    by reflexivity.
  assert (Monitoring.no_parentEmail Sample.anna = false) as H4 by reflexivity.
  assert (forall a, down a = false) as H5 by reflexivity.
  assert (ObjectId.cast (chats Sample.store0) (t_chatId forAnna) = Ok "c1")
    as H6 by reflexivity.
  assert (ObjectId.cast (chats Sample.store0) (t_chatId lobby)
          = Throw "Cast to ObjectId failed") as H7 by reflexivity.
  destruct (guardian_notification_deferred Sample.classifier down
              Sample.store0 forBen) as (_ & _ & HBen & _).
  destruct (guardian_notification_deferred Sample.classifier down
              Sample.store0 forAnna) as (_ & _ & _ & Hok & _ & HAnna & _).
  destruct (guardian_notification_deferred Sample.classifier down
              Sample.store0 lobby) as (_ & _ & _ & _ & _ & _ & Hlobby).
  split; [exact H1|]. split; [exact H2|]. split; [exact (HBen _ H1 H2)|].
  split; [exact H3|]. split; [exact H4|]. split; [exact H6|].
  split; [exact H5|].
  split; [exact (HAnna _ _ H3 H4 H6 H5)|]. split; [exact Hok|].
  split; [exact H7|exact (Hlobby _ _ H3 H4 H7)].
Defined.

(** ** Authorization at operation time *)

Section Authorization.
Variable classify : string -> Moderation.http_outcome.
Variable paginate : list (string * Message.t) -> list (string * Message.t).
Implicit Types (w : world) (u chatId : string).

(** [monitorTextContent] resolves, having made the classifier request (if
    any) and nothing else. *)
Lemma monitorTextContent_shape content senderId chatId queue :
  exists m queue',
    Monitoring.monitorTextContent classify content senderId chatId queue
    = (Ok m,
       ClassifierRequest <$> option_list (Moderation.request_text content),
       queue').
Proof.
  unfold Monitoring.monitorTextContent.
  destruct (Monitoring.blocked _); eauto.
Qed.

(** The moderation block performs classifier requests and nothing else. *)
Lemma moderate_requests_only sock chatId content messageType queue :
  Forall (fun e => is_emit e = false)
         (Socket.moderate classify sock chatId content messageType queue).1.2.
Proof.
  unfold Socket.moderate.
  destruct (bool_decide (messageType = "text")); [|by constructor].
  destruct (monitorTextContent_shape content (Socket.userId sock) chatId queue)
    as (m & queue' & ->).
  destruct (Monitoring.blocked m); cbn [fst snd];
    destruct (Moderation.request_text content); by repeat constructor.
Qed.

Lemma requests_to_sender_only sid (fx : list effect) :
  Forall (fun e => is_emit e = false) fx ->
  Forall (fun e => to_sender_only sid e = true) fx.
Proof. intros H. eapply Forall_impl; [exact H|]. by intros []. Qed.

(** The socket [sendMessage] for an identity that is not an active member
    of the chat the id leads to. *)
Lemma socket_send_denied sock data now newId w :
  (forall key c,
     ObjectId.findById (chats (db w)) (Socket.chatId data)
     = Ok (Some (key, c)) ->
     Chat.isParticipant c (Socket.userId sock) = false) ->
  let out := Socket.sendMessage classify sock data now newId w in
  db out.1 = db w /\ rooms out.1 = rooms w
  /\ Forall (fun e => to_sender_only (Socket.id sock) e = true) out.2.
Proof.
  intros Hnot. unfold Socket.sendMessage.
  assert (forall msg, to_sender_only (Socket.id sock)
                        (Emit (ToSocket (Socket.id sock)) "error" msg) = true)
    as Hown
    by (intros; unfold to_sender_only; by rewrite bool_decide_eq_true_2).
  assert (forall msg, to_sender_only (Socket.id sock)
                        (Emit (ToSocket (Socket.id sock)) "messageBlocked" msg)
                      = true)
    as Hblk
    by (intros; unfold to_sender_only; by rewrite bool_decide_eq_true_2).
  assert (forall (P : effect -> Prop) e, P e -> Forall P [e]) as Hone
    by (intros; by repeat constructor).
  destruct (bool_decide (Socket.chatId data = "")
            || negb (truthy (Socket.content data))).
  { cbv zeta. cbn [fst snd]. split; [done|]. split; [done|].
    apply Hone. apply Hown. }
  destruct (Socket.content data) as [| | | |text];
    try (cbv zeta; cbn [fst snd]; split; [done|]; split; [done|];
         apply Hone; apply Hown).
  destruct (blank text).
  { cbv zeta. cbn [fst snd]. split; [done|]. split; [done|].
    apply Hone. apply Hown. }
  pose proof (moderate_requests_only sock (Socket.chatId data) (JStr text)
                (default "text" (Socket.messageType data)) (immediates w))
    as Hfx.
  cbv zeta.
  destruct (Socket.moderate _ _ _ _ _ _) as [[verdict fx] queue].
  cbn [fst snd] in Hfx. apply (requests_to_sender_only (Socket.id sock)) in Hfx.
  destruct verdict as [p|].
  - cbn [fst snd db rooms set_immediates]. split; [done|]. split; [done|].
    apply Forall_app. split; [done|]. apply Hone. apply Hblk.
  - unfold Socket.persist_and_broadcast.
    cbn [db set_immediates chats].
    destruct (ObjectId.findById (chats (db w)) (Socket.chatId data))
      as [[[key c]|]|?] eqn:Hc.
    + rewrite (Hnot key c eq_refl). rewrite orb_true_r.
      cbn [fst snd db rooms set_immediates]. split; [done|]. split; [done|].
      apply Forall_app. split; [done|]. apply Hone. apply Hown.
    + cbn [fst snd db rooms set_immediates]. split; [done|]. split; [done|].
      apply Forall_app. split; [done|]. apply Hone. apply Hown.
    + cbn [fst snd db rooms set_immediates]. split; [done|]. split; [done|].
      apply Forall_app. split; [done|]. apply Hone. apply Hown.
Qed.

End Authorization.

(** C3 fails on the code, for editing.  In the sample deployment Cara's
    entry in the chat is switched off.  Her REST send, her fetch of the
    chat's messages and her reaction are answered 403 and her socket send
    is answered with an error, each leaving the store as it was: those
    handlers ask [isParticipant] when they run.  [editMessage] does not ask:
    her edit of the message she sent there earlier is stored and answered
    200.  Two more things reach the removed member or are caused by her: her
    connection is still in the chat's room, where Anna's next message is
    emitted; and when the text of her refused socket send is flagged, the
    guardian notification is queued all the same, the moderation coming
    before the membership check. *)
Lemma removed_member_edits :
  let edit := Sample.request "cara" {[ "id" := "m2" ]} (JStr "changed") "" in
  let out := Controller.editMessage edit 1000 Sample.w0 in
  let post := Sample.request "cara" {[ "chatId" := "c1" ]} (JStr "hi") "" in
  let fetch := Sample.request "cara" {[ "chatId" := "c1" ]} JUndefined "" in
  let react :=
    Sample.request "cara" {[ "messageId" := "m2" ]} JUndefined "heart" in
  let say text := {| Socket.chatId := "c1"; Socket.content := JStr text;
                     Socket.messageType := None; Socket.replyTo := None |} in
  messages (db Sample.w0) !! "m2" = Some Sample.m2
  /\ chats (db Sample.w0) !! Message.chat Sample.m2 = Some Sample.c1
  /\ Chat.isParticipant Sample.c1 "cara" = false
  /\ Controller.sendMessage post 1000 "m3" Sample.w0
     = (Sample.w0,
        Controller.reply 403
          "Access denied. You are not a participant in this chat.", [])
  /\ Controller.getChatMessages (fun l => l) fetch 1000 Sample.w0
     = (Sample.w0,
        Controller.reply 403
          "Access denied. You are not a participant in this chat.", [])
  /\ Controller.addReaction react 1000 Sample.w0
     = (Sample.w0, Controller.reply 403 "Access denied", [])
  /\ Socket.sendMessage Sample.classifier Sample.caraSocket (say "hi") 1000
       "m3" Sample.w0
     = (Sample.w0,
        [ClassifierRequest "hi";
         Emit (ToSocket "s3") "error"
              (PError "Chat not found or access denied")])
  /\ Controller.status out.1.2 = 200
  /\ Message.content <$> messages (db out.1.1) !! "m2" = Some "changed"
  /\ out.1.1 <> Sample.w0
  /\ "s3" ∈ receivers Sample.w0 ∅ (ToRoom (Socket.chat_room "c1"))
  /\ Emit (ToRoom (Socket.chat_room "c1")) "newMessage"
          (PMessage "m3" (Message.create "hi" "text" "anna" "c1" None 1000))
       ∈ (Socket.sendMessage Sample.classifier Sample.annaSocket (say "hi")
            1000 "m3" Sample.w0).2
  /\ immediates (Socket.sendMessage Sample.classifier Sample.caraSocket
                   (say "bad words") 1000 "m3" Sample.w0).1
     = [ {| t_content := JStr "bad words"; t_senderId := "cara";
            t_chatId := "c1"; t_contentType := "text" |} ].
Proof.
  intros edit out post fetch react say.
  assert (Message.content <$> messages (db out.1.1) !! "m2" = Some "changed")
    as Hc by reflexivity.
  repeat (split; [reflexivity|]).
  split; [intros Heq; rewrite Heq in Hc; discriminate Hc|].
  split; [by vm_compute|].
  split; [|reflexivity].
  apply list_elem_of_further, list_elem_of_here.
Qed.

(** A chat id that is no ObjectId makes [Chat.findById] throw: the sender is
    told "Failed to send message"; an ObjectId that no chat has is answered
    "Chat not found or access denied". *)
Example socket_send_to_malformed_chat :
  let say chatId := {| Socket.chatId := chatId; Socket.content := JStr "hi";
                       Socket.messageType := None;
                       Socket.replyTo := None |} in
  Socket.sendMessage Sample.classifier Sample.annaSocket (say "lobby") 1000
    "m3" Sample.w0
  = (Sample.w0,
     [ClassifierRequest "hi";
      Emit (ToSocket "s1") "error" (PError "Failed to send message")])
  /\ Socket.sendMessage Sample.classifier Sample.annaSocket
       (say "507f1f77bcf86cd799439011") 1000 "m3" Sample.w0
     = (Sample.w0,
        [ClassifierRequest "hi";
         Emit (ToSocket "s1") "error"
              (PError "Chat not found or access denied")]).
Proof. split; reflexivity. Qed.

(** ** Joining a room *)

Section JoinRoom.
Variable classify : string -> Moderation.http_outcome.
Variable sendMail : alert -> bool.
Variable paginate : list (string * Message.t) -> list (string * Message.t).
Implicit Types (w : world) (sock : Socket.socket) (sid room : string).

Lemma persist_and_broadcast_rooms sock chatId text messageType replyTo now
    newId w :
  rooms (Socket.persist_and_broadcast sock chatId text messageType replyTo
           now newId w).1 = rooms w.
Proof.
  unfold Socket.persist_and_broadcast.
  destruct (ObjectId.findById (chats (db w)) chatId) as [[[key c]|]|?];
    [|done|done].
  destruct (negb (Chat.isActive c) || _); [done|].
  destruct (Socket.castReply _ _) as [reply|?]; [|done].
  destruct (negb (Message.valid _)); [done|].
  destruct (bool_decide (is_Some _)); done.
Qed.

Lemma sendMessage_rooms sock data now newId w :
  rooms (Socket.sendMessage classify sock data now newId w).1 = rooms w.
Proof.
  unfold Socket.sendMessage. cbv zeta.
  destruct (bool_decide (Socket.chatId data = "") || _); [done|].
  destruct (Socket.content data) as [| | | |text]; try done.
  destruct (blank text); [done|].
  destruct (Socket.moderate _ _ _ _ _ _) as [[verdict fx] queue].
  destruct verdict as [p|]; [done|].
  pose proof (persist_and_broadcast_rooms sock (Socket.chatId data) text
                (default "text" (Socket.messageType data))
                (Socket.replyTo data) now newId (set_immediates queue w))
    as Hr.
  destruct (Socket.persist_and_broadcast _ _ _ _ _ _ _ _) as [w2 fx'].
  exact Hr.
Qed.

Lemma editMessage_rooms req now w :
  rooms (Controller.editMessage req now w).1.1 = rooms w.
Proof.
  unfold Controller.editMessage. cbv zeta.
  repeat case_match; done.
Qed.

Lemma put_message_rooms req now w :
  rooms (Routes.put_message classify req now w).1.1 = rooms w.
Proof.
  unfold Routes.put_message, Routes.moderated. cbv zeta.
  destruct (Moderation.sexualContentMiddleware _ _); [|done].
  pose proof (editMessage_rooms req now w) as Hr.
  by destruct (Controller.editMessage req now w) as [[w' res] fx].
Qed.

Lemma sendMessage_rest_rooms req now newId w :
  rooms (Controller.sendMessage req now newId w).1.1 = rooms w.
Proof.
  unfold Controller.sendMessage. cbv zeta.
  repeat case_match; done.
Qed.

Lemma post_message_rooms newId req now w :
  rooms (Routes.post_message classify newId req now w).1.1 = rooms w.
Proof.
  unfold Routes.post_message, Routes.moderated. cbv zeta.
  destruct (Moderation.sexualContentMiddleware _ _); [|done].
  pose proof (sendMessage_rest_rooms req now newId w) as Hr.
  by destruct (Controller.sendMessage req now newId w) as [[w' res] fx].
Qed.

Lemma getChatMessages_rooms req now w :
  rooms (Controller.getChatMessages paginate req now w).1.1 = rooms w.
Proof.
  unfold Controller.getChatMessages. cbv zeta.
  repeat case_match; done.
Qed.

Lemma addReaction_rooms req now w :
  rooms (Controller.addReaction req now w).1.1 = rooms w.
Proof.
  unfold Controller.addReaction. cbv zeta.
  repeat case_match; done.
Qed.

(** A turn of the loop that is neither the connection closing nor its
    leaving the room keeps the connection in the room. *)
Lemma step_keeps_member ev now w sid room :
  Gateway.keeps sid room ev = true ->
  sid ∈ members w room ->
  sid ∈ members (Gateway.step classify sendMail paginate ev now w).1 room.
Proof.
  intros Hk Hin.
  destruct ev as [s|s|s data newId|s data|s c|s c|s c|s c|s status|s data
                 |req newId|req|req|req| |s|s|s|u b];
    cbn [Gateway.step Gateway.keeps] in *.
  - by apply connection_spec.
  - destruct (disconnect_spec s now w) as (_ & _ & -> & _).
    apply negb_true_iff, bool_decide_eq_false in Hk. set_solver.
  - unfold members. by rewrite sendMessage_rooms.
  - unfold members, Socket.markMessagesRead.
    destruct (Socket.messageIds data); [|done].
    by destruct (bool_decide _).
  - by apply join_mono.
  - cbn [Socket.leaveChat fst]. rewrite members_leave.
    destruct (decide (Socket.chat_room c = room)) as [Hr|]; [|done].
    apply negb_true_iff, andb_false_iff in Hk.
    rewrite (bool_decide_eq_true_2 _ Hr) in Hk.
    destruct Hk as [Hk|Hk]; [|done].
    apply bool_decide_eq_false in Hk. set_solver.
  - done.
  - done.
  - unfold members, Socket.updatePresence.
    by destruct (Socket.contactIds _ _).
  - done.
  - pose proof (post_message_rooms newId req now w) as Hr.
    destruct (Routes.post_message classify newId req now w) as [[w' res] fx].
    unfold members. cbn [fst] in *. by rewrite Hr.
  - pose proof (getChatMessages_rooms req now w) as Hr.
    unfold Routes.get_messages.
    destruct (Controller.getChatMessages paginate req now w)
      as [[w' res] fx].
    unfold members. cbn [fst] in *. by rewrite Hr.
  - pose proof (put_message_rooms req now w) as Hr.
    destruct (Routes.put_message classify req now w) as [[w' res] fx].
    unfold members. cbn [fst] in *. by rewrite Hr.
  - pose proof (addReaction_rooms req now w) as Hr. unfold Routes.post_reaction.
    destruct (Controller.addReaction req now w) as [[w' res] fx].
    unfold members. cbn [fst] in *. by rewrite Hr.
  - unfold Gateway.runImmediate. by destruct (immediates w).
  - cbn [fst]. unfold Socket.register. by apply join_mono.
  - cbn [fst].
    change (sid ∈ members (Socket.leave_all (Socket.id s) w) room).
    rewrite members_leave_all.
    apply negb_true_iff, bool_decide_eq_false in Hk. set_solver.
  - cbn [fst]. by apply joinUserChats_mono.
  - by rewrite updateUserOnlineStatus_members.
Qed.

Lemma run_keeps_member (evs : list (Gateway.event * Z)) w sid room :
  Forall (fun en => Gateway.keeps sid room en.1 = true) evs ->
  sid ∈ members w room ->
  sid ∈ members (Gateway.run classify sendMail paginate evs w) room.
Proof.
  revert w. induction evs as [|[ev now] evs IH]; intros w Hall Hin; [done|].
  apply Forall_cons in Hall as [Hk Hall]. cbn [Gateway.run].
  apply IH; [done|]. by apply step_keeps_member.
Qed.

(** C4.  [joinChat] puts the connection in the room it names, whatever the
    world: no membership, chat or authorization is looked up.  From then on,
    through any schedule of turns in which that connection neither closes nor
    leaves the room, it stays in the room, so that every [newMessage] the
    [sendMessage] listener emits to the room is delivered to it. *)
Theorem join_room_unconditional w sock chatId (evs : list (Gateway.event * Z)) :
  let joined := (Socket.joinChat sock chatId w).1 in
  let later := Gateway.run classify sendMail paginate evs joined in
  Socket.id sock ∈ members joined (Socket.chat_room chatId)
  /\ db joined = db w
  /\ (Forall (fun en => Gateway.keeps (Socket.id sock)
                          (Socket.chat_room chatId) en.1 = true) evs ->
      Socket.id sock ∈ members later (Socket.chat_room chatId)
      /\ forall sender data now newId p live,
           Socket.chatId data = chatId ->
           Emit (ToRoom (Socket.chat_room chatId)) "newMessage" p
             ∈ (Socket.sendMessage classify sender data now newId later).2 ->
           Socket.id sock
             ∈ receivers later live (ToRoom (Socket.chat_room chatId))).
Proof.
  intros joined later.
  assert (Socket.id sock ∈ members joined (Socket.chat_room chatId)) as Hin
    by apply join_member.
  split; [exact Hin|]. split; [done|].
  intros Hall.
  assert (Socket.id sock ∈ members later (Socket.chat_room chatId)) as Hlater
    by (by apply run_keeps_member).
  split; [exact Hlater|]. intros sender data now newId p live _ _.
  exact Hlater.
Qed.

End JoinRoom.

(** C4 in the sample deployment: Zed, who is in nobody's chat, joins the room
    of chat c1; Anna sends a message, Zed leaves another room, Cara's
    connection closes, the loop looks for a pending callback, and then Ben's
    message is fanned out to the room and reaches Zed's connection. *)
Lemma join_room_unconditional_witness :
  let zed := {| Socket.id := "s9"; Socket.userId := "zed";
                Socket.username := "zed" |} in
  let benSocket := {| Socket.id := "s2"; Socket.userId := "ben";
                      Socket.username := "ben" |} in
  let say := fun text =>
    {| Socket.chatId := "c1"; Socket.content := JStr text;
       Socket.messageType := None; Socket.replyTo := None |} in
  let evs := [(Gateway.SendMessage Sample.annaSocket (say "hi") "m3", 1000);
              (Gateway.LeaveChat zed "c2", 1001);
              (Gateway.Disconnect Sample.caraSocket, 1002);
              (Gateway.RunImmediate, 1003)] in
  let later := Gateway.run Sample.classifier (fun _ => true) (fun l => l) evs
                 (Socket.joinChat zed "c1" Sample.w0).1 in
  let sent := Message.create "hello zed" "text" "ben" "c1" None 2000 in
  Chat.isParticipant Sample.c1 "zed" = false
  /\ Forall (fun en => Gateway.keeps "s9" (Socket.chat_room "c1") en.1 = true)
            evs
  /\ (Socket.sendMessage Sample.classifier benSocket (say "hello zed") 2000
        "m4" later).2
     = [ClassifierRequest "hello zed";
        Emit (ToRoom (Socket.chat_room "c1")) "newMessage" (PMessage "m4" sent);
        Emit (ToSocket "s2") "messageSent" (PSent "m4")]
  /\ "s9" ∈ receivers later ∅ (ToRoom (Socket.chat_room "c1")).
Proof.
  intros zed benSocket say evs later sent.
  assert (Forall (fun en => Gateway.keeps "s9" (Socket.chat_room "c1") en.1
                            = true) evs) as Hall
    by (repeat constructor).
  assert ((Socket.sendMessage Sample.classifier benSocket (say "hello zed")
             2000 "m4" later).2
          = [ClassifierRequest "hello zed";
             Emit (ToRoom (Socket.chat_room "c1")) "newMessage"
                  (PMessage "m4" sent);
             Emit (ToSocket "s2") "messageSent" (PSent "m4")]) as Hfx
    by (vm_compute; reflexivity).
  split; [reflexivity|]. split; [exact Hall|]. split; [exact Hfx|].
  destruct (join_room_unconditional Sample.classifier (fun _ => true)
              (fun l => l) Sample.w0 zed "c1" evs) as (_ & _ & Hlater).
  destruct (Hlater Hall) as [_ Hrecv].
  apply (Hrecv benSocket (say "hello zed") 2000 "m4" (PMessage "m4" sent) ∅
               eq_refl).
  fold later. rewrite Hfx. apply list_elem_of_further, list_elem_of_here.
Defined.

(* ===================================================================== *)
(** * Further properties of the code *)
(* ===================================================================== *)

(** ** What blocks and what passes *)

Section Verdicts.
Variable classify : string -> Moderation.http_outcome.
Implicit Types (sock : Socket.socket) (data : Socket.sendMessageData)
               (w : world).

(** X1.  [checkSexualContent] asks the classifier only about a non-blank
    string, and then blocks exactly when the [result] field of the answer is
    the boolean [true]: any other answer, a string or a number included, and
    any failure of the request, approves; without a request the verdict is
    the empty-text approval. *)
Theorem only_boolean_true_blocks (text : jsval) :
  (Moderation.request_text text = None ->
   Moderation.serviceCheckSexualContent classify text
   = Moderation.empty_approved)
  /\ (forall t result,
        Moderation.request_text text = Some t ->
        classify t = Moderation.HttpResponse result ->
        result <> JBool true ->
        Moderation.serviceCheckSexualContent classify text
        = {| Moderation.is_sexual := false;
             Moderation.message := "Content approved";
             Moderation.error := Moderation.ErrAbsent;
             Moderation.raw_response := Some result |})
  /\ (Moderation.is_sexual (Moderation.serviceCheckSexualContent classify text)
      = true
      <-> exists t, Moderation.request_text text = Some t
                 /\ classify t = Moderation.HttpResponse (JBool true)).
Proof.
  split; [|split].
  - intros Hn. unfold Moderation.serviceCheckSexualContent. by rewrite Hn.
  - intros t result Ht Hc Hr. unfold Moderation.serviceCheckSexualContent.
    rewrite Ht, Hc. unfold Moderation.classified.
    destruct result as [| |[]|?|?]; try done.
  - apply flagged_iff_result_true.
Qed.

(** A new document with content, sender, chat and a known type passes the
    schema. *)
Lemma valid_create content messageType sender chat replyTo now :
  content <> "" ->
  (utf16_length content <= 1000)%nat ->
  sender <> "" ->
  chat <> "" ->
  messageType ∈ Message.messageTypes ->
  Message.valid (Message.create content messageType sender chat replyTo now)
  = true.
Proof.
  intros Hc Hl Hs Hch Ht. unfold Message.valid.
  cbn [Message.create Message.content Message.sender Message.chat
       Message.messageType Message.reactions forallb].
  rewrite (bool_decide_eq_false_2 _ Hc), (bool_decide_eq_false_2 _ Hs),
    (bool_decide_eq_false_2 _ Hch), (bool_decide_eq_true_2 _ Hl),
    (bool_decide_eq_true_2 _ Ht).
  reflexivity.
Qed.

(** The moderation block of the socket listener when nothing is flagged. *)
Lemma moderate_passes sock chatId content messageType queue :
  Moderation.is_sexual (Moderation.serviceCheckSexualContent classify content)
  = false ->
  Socket.moderate classify sock chatId content messageType queue
  = (None,
     if bool_decide (messageType = "text")
     then ClassifierRequest <$> option_list (Moderation.request_text content)
     else [],
     queue).
Proof.
  intros Hs. unfold Socket.moderate.
  destruct (bool_decide (messageType = "text")); [|done].
  unfold Monitoring.monitorTextContent, Monitoring.quickContentCheck,
    Moderation.checkSexualContent. rewrite Hs.
  cbn [Monitoring.blocked Monitoring.approved_result]. done.
Qed.

(** What [castReply] makes of the reference a client sent. *)
Lemma castReply_cases (ms : gmap string Message.t) (replyTo : option string) :
  (replyTo = None \/ replyTo = Some "" -> Socket.castReply ms replyTo = Ok None)
  /\ (forall r, replyTo = Some r -> r <> "" ->
        (is_Some (ms !! r) -> Socket.castReply ms replyTo = Ok (Some r))
        /\ (ms !! r = None -> ObjectId.valid r = true ->
            Socket.castReply ms replyTo = Ok (Some (ObjectId.toString r)))
        /\ (ms !! r = None -> ObjectId.valid r = false ->
            Socket.castReply ms replyTo = Throw "Cast to ObjectId failed")).
Proof.
  split.
  - by intros [-> | ->].
  - intros r -> Hr. unfold Socket.castReply. cbn [mbind option_bind].
    rewrite bool_decide_eq_false_2 by done. unfold ObjectId.cast.
    split; [|split].
    + intros Hs. by rewrite bool_decide_eq_true_2.
    + intros Hn Hv. rewrite Hv.
      rewrite bool_decide_eq_false_2; [done|]. rewrite Hn. by intros [? ?].
    + intros Hn Hv. rewrite Hv.
      rewrite bool_decide_eq_false_2; [done|]. rewrite Hn. by intros [? ?].
Qed.

Lemma set_immediates_same (w : world) : set_immediates (immediates w) w = w.
Proof. by destruct w. Qed.

(** [sendMessage] up to [save], once the moderation block lets the message
    through, for an active member of an active chat. *)
Lemma sendMessage_reaches_save sock data now newId w text c fx queue :
  Socket.chatId data <> "" ->
  Socket.content data = JStr text ->
  blank text = false ->
  Socket.moderate classify sock (Socket.chatId data) (JStr text)
    (default "text" (Socket.messageType data)) (immediates w)
  = (None, fx, queue) ->
  chats (db w) !! Socket.chatId data = Some c ->
  Chat.isActive c = true ->
  Chat.isParticipant c (Socket.userId sock) = true ->
  Socket.sendMessage classify sock data now newId w
  = let w0 := set_immediates queue w in
    match Socket.castReply (messages (db w)) (Socket.replyTo data) with
    | Throw _ => (w0, fx ++ [Socket.failed sock])
    | Ok reply =>
        let newMessage :=
          Message.create (trim text) (default "text" (Socket.messageType data))
            (Socket.userId sock) (Socket.chatId data) reply now in
        if negb (Message.valid newMessage)
        then (w0, fx ++ [Socket.failed sock])
        else
          let w1 :=
            set_db (set_messages (<[newId := newMessage]> (messages (db w)))
                                 (db w)) w0 in
          if bool_decide (is_Some (users (db w) !! Socket.userId sock)) then
            (set_db (set_chats
                       (<[Socket.chatId data := Chat.touch newId now c]>
                          (chats (db w))) (db w1)) w1,
             fx ++ [Emit (ToRoom (Socket.chat_room (Socket.chatId data)))
                         "newMessage"
                         (PMessage newId
                            (Socket.populated
                               (<[newId := newMessage]> (messages (db w)))
                               newMessage));
                    Emit (ToSocket (Socket.id sock)) "messageSent"
                         (PSent newId)])
          else (w1, fx ++ [Socket.failed sock])
    end.
Proof.
  intros Hchat Hcontent Hb Hmod Hc Hact Hpart.
  unfold Socket.sendMessage.
  rewrite bool_decide_eq_false_2 by done.
  rewrite Hcontent, (not_blank_truthy _ Hb), Hb. cbn [negb orb]. cbv zeta.
  rewrite Hmod. unfold Socket.persist_and_broadcast.
  cbn [db set_immediates chats messages users].
  rewrite (findById_found _ _ _ Hc), Hact, Hpart. cbn [negb orb].
  destruct (Socket.castReply _ _) as [reply|?]; [|done].
  destruct (negb (Message.valid _)); [done|].
  cbn [db set_db set_messages set_chats messages chats users].
  destruct (bool_decide (is_Some _)); done.
Qed.

(** What [sendMessage] does once the moderation block lets the message
    through and the reply reference casts. *)
Lemma sendMessage_delivers sock data now newId w text c fx queue reply :
  Socket.chatId data <> "" ->
  Socket.content data = JStr text ->
  blank text = false ->
  Socket.moderate classify sock (Socket.chatId data) (JStr text)
    (default "text" (Socket.messageType data)) (immediates w)
  = (None, fx, queue) ->
  chats (db w) !! Socket.chatId data = Some c ->
  Chat.isActive c = true ->
  Chat.isParticipant c (Socket.userId sock) = true ->
  Socket.castReply (messages (db w)) (Socket.replyTo data) = Ok reply ->
  let newMessage :=
    Message.create (trim text) (default "text" (Socket.messageType data))
      (Socket.userId sock) (Socket.chatId data) reply now in
  Message.valid newMessage = true ->
  is_Some (users (db w) !! Socket.userId sock) ->
  let out := Socket.sendMessage classify sock data now newId w in
  messages (db out.1) = <[newId := newMessage]> (messages (db w))
  /\ chats (db out.1)
     = <[Socket.chatId data := Chat.touch newId now c]> (chats (db w))
  /\ users (db out.1) = users (db w)
  /\ rooms out.1 = rooms w
  /\ immediates out.1 = queue
  /\ out.2 = fx ++ [Emit (ToRoom (Socket.chat_room (Socket.chatId data)))
                         "newMessage"
                         (PMessage newId
                            (Socket.populated (messages (db out.1))
                                              newMessage));
                    Emit (ToSocket (Socket.id sock)) "messageSent"
                         (PSent newId)].
Proof.
  intros Hchat Hcontent Hb Hmod Hc Hact Hpart Hreply newMessage Hv Hu out.
  subst out.
  rewrite (sendMessage_reaches_save sock data now newId w text c fx queue
             Hchat Hcontent Hb Hmod Hc Hact Hpart).
  cbv zeta. rewrite Hreply. fold newMessage. rewrite Hv. cbn [negb].
  rewrite bool_decide_eq_true_2 by done.
  cbn [fst snd db set_db set_messages set_chats messages chats users rooms
       immediates set_immediates].
  done.
Qed.

(** The document a socket [sendMessage] builds. *)
Lemma create_literal content messageType sender chat reply now :
  Message.create content messageType sender chat reply now
  = {| Message.content := content; Message.sender := sender;
       Message.chat := chat; Message.messageType := messageType;
       Message.isEdited := false; Message.editedAt := None;
       Message.isDeleted := false; Message.readBy := [];
       Message.replyTo := reply; Message.reactions := [];
       Message.createdAt := now |}.
Proof. reflexivity. Qed.

(** X2.  A text message that the classifier does not flag, sent by an active
    member of an active chat.  When the reply reference, if any, is an
    ObjectId, the message is stored under the new id with its content
    trimmed and the reference cast, then the chat's last-message and
    last-activity pointers are set to it, then [newMessage] goes to the
    chat's room and [messageSent] to the sender, after the one classifier
    request; nothing is queued for the guardian.  The document sent with
    [newMessage] is the populated one: its reply reference is null when no
    stored message has that id.  When the reply reference is no ObjectId,
    [save] rejects: nothing is stored and the sender is told "Failed to send
    message". *)
Theorem approved_text_is_persisted_then_broadcast
    sock data now newId w text c result :
  Socket.chatId data <> "" ->
  Socket.content data = JStr text ->
  blank text = false ->
  Socket.messageType data = None \/ Socket.messageType data = Some "text" ->
  classify (trim text) = Moderation.HttpResponse result ->
  result <> JBool true ->
  chats (db w) !! Socket.chatId data = Some c ->
  Chat.isActive c = true ->
  Chat.isParticipant c (Socket.userId sock) = true ->
  (utf16_length (trim text) <= 1000)%nat ->
  Socket.userId sock <> "" ->
  is_Some (users (db w) !! Socket.userId sock) ->
  let doc (reply : option string) :=
    {| Message.content := trim text; Message.sender := Socket.userId sock;
       Message.chat := Socket.chatId data; Message.messageType := "text";
       Message.isEdited := false; Message.editedAt := None;
       Message.isDeleted := false; Message.readBy := [];
       Message.replyTo := reply; Message.reactions := [];
       Message.createdAt := now |} in
  let out := Socket.sendMessage classify sock data now newId w in
  (forall reply,
     Socket.castReply (messages (db w)) (Socket.replyTo data) = Ok reply ->
     messages (db out.1) = <[newId := doc reply]> (messages (db w))
     /\ (Chat.lastMessage <$> chats (db out.1) !! Socket.chatId data)
        = Some (Some newId)
     /\ (Chat.lastActivity <$> chats (db out.1) !! Socket.chatId data)
        = Some now
     /\ immediates out.1 = immediates w
     /\ out.2
        = [ClassifierRequest (trim text);
           Emit (ToRoom (Socket.chat_room (Socket.chatId data))) "newMessage"
                (PMessage newId
                   (doc (reply ≫= fun k =>
                           if bool_decide (is_Some (messages (db out.1) !! k))
                           then Some k else None)));
           Emit (ToSocket (Socket.id sock)) "messageSent" (PSent newId)])
  /\ (forall m,
        Socket.castReply (messages (db w)) (Socket.replyTo data) = Throw m ->
        out = (w, [ClassifierRequest (trim text);
                   Emit (ToSocket (Socket.id sock)) "error"
                        (PError "Failed to send message")])).
Proof.
  intros Hchat Hcontent Hb Htype Hc Hr Hchats Hact Hpart Hlen Huid Hu doc out.
  assert (default "text" (Socket.messageType data) = "text") as Hmt
    by (by destruct Htype as [-> | ->]).
  assert (Moderation.request_text (JStr text) = Some (trim text)) as Hreq
    by (cbn; by rewrite Hb).
  assert (Moderation.is_sexual
            (Moderation.serviceCheckSexualContent classify (JStr text))
          = false) as Hs.
  { unfold Moderation.serviceCheckSexualContent. rewrite Hreq, Hc.
    destruct result as [| |[]|?|?]; done. }
  pose proof (moderate_passes sock (Socket.chatId data) (JStr text)
                (default "text" (Socket.messageType data)) (immediates w) Hs)
    as Hmod.
  rewrite Hmt in Hmod. rewrite bool_decide_eq_true_2 in Hmod by done.
  rewrite Hreq in Hmod. cbn [option_list fmap list_fmap] in Hmod.
  assert (trim text <> "") as Hne
    by (intros He; unfold blank in Hb; by rewrite bool_decide_eq_true_2 in Hb).
  split.
  - intros reply Hreply.
    assert (Message.valid
              (Message.create (trim text) "text" (Socket.userId sock)
                 (Socket.chatId data) reply now) = true) as Hv.
    { apply valid_create; try done.
      unfold Message.messageTypes. apply list_elem_of_here. }
    pose proof (sendMessage_delivers sock data now newId w text c
                  [ClassifierRequest (trim text)] (immediates w) reply
                  Hchat Hcontent Hb) as Hd.
    rewrite Hmt in Hd. specialize (Hd Hmod Hchats Hact Hpart Hreply Hv Hu).
    destruct Hd as (Hm & Hcs & _ & _ & Hq & Hfx).
    fold out in Hm, Hcs, Hq, Hfx.
    split; [exact Hm|]. rewrite Hcs, lookup_insert_eq.
    split; [done|]. split; [done|]. split; [exact Hq|exact Hfx].
  - intros m Hm. subst out.
    pose proof (sendMessage_reaches_save sock data now newId w text c
                  [ClassifierRequest (trim text)] (immediates w)
                  Hchat Hcontent Hb) as Hd.
    rewrite Hmt in Hd. rewrite (Hd Hmod Hchats Hact Hpart). cbv zeta.
    rewrite Hm. by rewrite set_immediates_same.
Qed.

(** X3.  The socket send path fails open: when the request to the classifier
    fails, whatever the failure, a text message of an active member (whose
    reply reference, if any, is an ObjectId) is stored and fanned out
    exactly as an approved one, and the verdict the monitoring service hands
    to the listener is the very object it hands over for a clean approval:
    the failure leaves no trace in it. *)
Theorem classifier_outage_lets_message_through
    sock data now newId w text c code msg reply :
  Socket.chatId data <> "" ->
  Socket.content data = JStr text ->
  blank text = false ->
  Socket.messageType data = None ->
  classify (trim text) = Moderation.HttpError code msg ->
  chats (db w) !! Socket.chatId data = Some c ->
  Chat.isActive c = true ->
  Chat.isParticipant c (Socket.userId sock) = true ->
  Socket.castReply (messages (db w)) (Socket.replyTo data) = Ok reply ->
  (utf16_length (trim text) <= 1000)%nat ->
  Socket.userId sock <> "" ->
  is_Some (users (db w) !! Socket.userId sock) ->
  let doc (reply : option string) :=
    {| Message.content := trim text; Message.sender := Socket.userId sock;
       Message.chat := Socket.chatId data; Message.messageType := "text";
       Message.isEdited := false; Message.editedAt := None;
       Message.isDeleted := false; Message.readBy := [];
       Message.replyTo := reply; Message.reactions := [];
       Message.createdAt := now |} in
  let out := Socket.sendMessage classify sock data now newId w in
  (Monitoring.monitorTextContent classify (JStr text) (Socket.userId sock)
     (Socket.chatId data) (immediates w)).1.1 = Ok Monitoring.approved_result
  /\ messages (db out.1) !! newId = Some (doc reply)
  /\ out.2
     = [ClassifierRequest (trim text);
        Emit (ToRoom (Socket.chat_room (Socket.chatId data))) "newMessage"
             (PMessage newId
                (doc (reply ≫= fun k =>
                        if bool_decide (is_Some (messages (db out.1) !! k))
                        then Some k else None)));
        Emit (ToSocket (Socket.id sock)) "messageSent" (PSent newId)].
Proof.
  intros Hchat Hcontent Hb Htype Hc Hchats Hact Hpart Hreply Hlen Huid Hu
         doc out.
  assert (Moderation.request_text (JStr text) = Some (trim text)) as Hreq
    by (cbn; by rewrite Hb).
  assert (Moderation.is_sexual
            (Moderation.serviceCheckSexualContent classify (JStr text))
          = false) as Hs.
  { unfold Moderation.serviceCheckSexualContent. rewrite Hreq, Hc.
    unfold Moderation.on_request_error.
    by destruct (Moderation.unavailable_code code). }
  pose proof (moderate_passes sock (Socket.chatId data) (JStr text)
                "text" (immediates w) Hs) as Hmod.
  rewrite bool_decide_eq_true_2 in Hmod by done.
  rewrite Hreq in Hmod. cbn [option_list fmap list_fmap] in Hmod.
  assert (trim text <> "") as Hne
    by (intros He; unfold blank in Hb; by rewrite bool_decide_eq_true_2 in Hb).
  assert (Message.valid
            (Message.create (trim text) "text" (Socket.userId sock)
               (Socket.chatId data) reply now) = true) as Hv.
  { apply valid_create; try done.
    unfold Message.messageTypes. apply list_elem_of_here. }
  pose proof (sendMessage_delivers sock data now newId w text c
                [ClassifierRequest (trim text)] (immediates w) reply
                Hchat Hcontent Hb) as Hd.
  rewrite Htype in Hd. cbn [default] in Hd.
  specialize (Hd Hmod Hchats Hact Hpart Hreply Hv Hu).
  destruct Hd as (Hm & _ & _ & _ & _ & Hfx).
  fold out in Hm, Hfx.
  split.
  - unfold Monitoring.monitorTextContent, Monitoring.quickContentCheck,
      Moderation.checkSexualContent. rewrite Hs. done.
  - split; [|exact Hfx]. rewrite Hm. apply lookup_insert_eq.
Qed.

(** X4.  Only messages typed ['text'] are moderated.  A message whose
    [messageType] is one of the other types the schema knows (and whose
    reply reference, if any, is an ObjectId) is stored and fanned out with
    the content as sent, without any request to the classifier, whatever
    the classifier would say about that content. *)
Theorem non_text_type_skips_moderation
    sock data now newId w text c messageType reply :
  Socket.chatId data <> "" ->
  Socket.content data = JStr text ->
  blank text = false ->
  Socket.messageType data = Some messageType ->
  messageType ∈ ["image"; "file"; "system"] ->
  chats (db w) !! Socket.chatId data = Some c ->
  Chat.isActive c = true ->
  Chat.isParticipant c (Socket.userId sock) = true ->
  Socket.castReply (messages (db w)) (Socket.replyTo data) = Ok reply ->
  (utf16_length (trim text) <= 1000)%nat ->
  Socket.userId sock <> "" ->
  is_Some (users (db w) !! Socket.userId sock) ->
  let doc (reply : option string) :=
    {| Message.content := trim text; Message.sender := Socket.userId sock;
       Message.chat := Socket.chatId data; Message.messageType := messageType;
       Message.isEdited := false; Message.editedAt := None;
       Message.isDeleted := false; Message.readBy := [];
       Message.replyTo := reply; Message.reactions := [];
       Message.createdAt := now |} in
  let out := Socket.sendMessage classify sock data now newId w in
  messages (db out.1) !! newId = Some (doc reply)
  /\ immediates out.1 = immediates w
  /\ out.2
     = [Emit (ToRoom (Socket.chat_room (Socket.chatId data))) "newMessage"
             (PMessage newId
                (doc (reply ≫= fun k =>
                        if bool_decide (is_Some (messages (db out.1) !! k))
                        then Some k else None)));
        Emit (ToSocket (Socket.id sock)) "messageSent" (PSent newId)].
Proof.
  intros Hchat Hcontent Hb Htype Hin Hchats Hact Hpart Hreply Hlen Huid Hu
         doc out.
  assert (messageType <> "text") as Hnt.
  { intros ->. rewrite !elem_of_cons, elem_of_nil in Hin.
    destruct Hin as [|[|[|[]]]]; discriminate. }
  assert (Socket.moderate classify sock (Socket.chatId data) (JStr text)
            messageType (immediates w) = (None, [], immediates w)) as Hmod.
  { unfold Socket.moderate. by rewrite bool_decide_eq_false_2. }
  assert (trim text <> "") as Hne
    by (intros He; unfold blank in Hb; by rewrite bool_decide_eq_true_2 in Hb).
  assert (Message.valid
            (Message.create (trim text) messageType (Socket.userId sock)
               (Socket.chatId data) reply now) = true) as Hv.
  { apply valid_create; try done.
    unfold Message.messageTypes. apply elem_of_cons. by right. }
  pose proof (sendMessage_delivers sock data now newId w text c
                [] (immediates w) reply Hchat Hcontent Hb) as Hd.
  rewrite Htype in Hd. cbn [default] in Hd.
  specialize (Hd Hmod Hchats Hact Hpart Hreply Hv Hu).
  destruct Hd as (Hm & _ & _ & _ & Hq & Hfx).
  fold out in Hm, Hq, Hfx.
  split; [rewrite Hm; apply lookup_insert_eq|]. split; [exact Hq|exact Hfx].
Qed.

End Verdicts.

(** ** Chat membership *)

Section Membership.
Implicit Types (ps : list Chat.participant) (c : Chat.t) (u v : string).

Lemma bool_eq_iff (b1 b2 : bool) : (b1 = true <-> b2 = true) -> b1 = b2.
Proof. destruct b1, b2; intros [H1 H2]; try done; [by rewrite H1|by rewrite H2]. Qed.

Lemma isParticipant_lookup c v :
  Chat.isParticipant c v = true
  <-> exists j p, Chat.participants c !! j = Some p
               /\ Chat.user p = Some v /\ Chat.p_isActive p = true.
Proof.
  unfold Chat.isParticipant. rewrite existsb_exists. split.
  - intros (p & Hin & Hp). apply list_elem_of_In, list_elem_of_lookup in Hin
      as [j Hj].
    exists j, p. split; [done|].
    destruct (Chat.user p) as [w|]; [|done].
    apply andb_prop in Hp as [Hw Ha]. apply bool_decide_eq_true in Hw.
    by subst.
  - intros (j & p & Hj & Hu & Ha). exists p. split.
    + apply list_elem_of_In, list_elem_of_lookup. eauto.
    + rewrite Hu, Ha. by rewrite bool_decide_eq_true_2.
Qed.

Lemma findActive_sound u ps r :
  ChatMembership.findActive u ps = Ok r ->
  match r with
  | Some p => p ∈ ps /\ Chat.user p = Some u /\ Chat.p_isActive p = true
  | None => forall p, p ∈ ps -> ~ (Chat.user p = Some u
                                   /\ Chat.p_isActive p = true)
  end.
Proof.
  revert r. induction ps as [|p ps IH]; intros r; simpl.
  - intros [= <-]. intros p Hin. by apply elem_of_nil in Hin.
  - destruct (Chat.user p) as [w|] eqn:Hw; [|discriminate].
    destruct (bool_decide (w = u) && Chat.p_isActive p) eqn:Hm.
    + intros [= <-]. apply andb_prop in Hm as [Hu Ha].
      apply bool_decide_eq_true in Hu. subst.
      split; [apply list_elem_of_here|done].
    + intros Hr. specialize (IH r Hr). destruct r as [q|].
      * destruct IH as (Hin & ? & ?). split; [by apply list_elem_of_further|done].
      * intros q Hin. apply elem_of_cons in Hin as [->|Hin]; [|by apply IH].
        intros [Hu Ha]. rewrite Hw in Hu. injection Hu as ->.
        by rewrite bool_decide_eq_true_2, Ha in Hm.
Qed.

(** X5.  A role is only ever reported for an active member: when
    [getUserRole] returns a role, and so when [canModerate] returns true,
    [isParticipant] holds; when [getUserRole] returns null, it does not. *)
Theorem role_implies_membership c u :
  (forall role, ChatMembership.getUserRole c u = Ok (Some role) ->
                Chat.isParticipant c u = true)
  /\ (ChatMembership.getUserRole c u = Ok None ->
      Chat.isParticipant c u = false)
  /\ (ChatMembership.canModerate c u = Ok true ->
      Chat.isParticipant c u = true
      /\ (ChatMembership.getUserRole c u = Ok (Some "admin")
          \/ ChatMembership.getUserRole c u = Ok (Some "moderator"))).
Proof.
  assert (forall role, ChatMembership.getUserRole c u = Ok (Some role) ->
                       Chat.isParticipant c u = true) as Hrole.
  { intros role. unfold ChatMembership.getUserRole.
    destruct (ChatMembership.findActive u (Chat.participants c)) as [r|]
      eqn:Hf; [|discriminate].
    cbn [bind]. destruct r as [p|]; [|discriminate]. intros _.
    apply findActive_sound in Hf as (Hin & Hu & Ha).
    apply list_elem_of_lookup in Hin as [j Hj].
    apply isParticipant_lookup. eauto. }
  split; [exact Hrole|]. split.
  - unfold ChatMembership.getUserRole.
    destruct (ChatMembership.findActive u (Chat.participants c)) as [r|]
      eqn:Hf; [|discriminate].
    cbn [bind]. destruct r as [p|]; [discriminate|]. intros _.
    apply findActive_sound in Hf.
    destruct (Chat.isParticipant c u) eqn:Hp; [|done].
    apply isParticipant_lookup in Hp as (j & p & Hj & Hu & Ha).
    destruct (Hf p); [|done]. apply list_elem_of_lookup. eauto.
  - unfold ChatMembership.canModerate.
    destruct (ChatMembership.getUserRole c u) as [role|] eqn:Hr;
      [|discriminate].
    cbn [bind]. intros [= Hm]. apply orb_prop in Hm.
    destruct Hm as [Hm|Hm]; apply bool_decide_eq_true in Hm; subst role.
    + split; [by eapply Hrole|by left].
    + split; [by eapply Hrole|by right].
Qed.

Lemma findEntry_ok u ps :
  Forall (fun p => is_Some (Chat.user p)) ps ->
  exists r, ChatMembership.findEntry u ps = Ok r
            /\ match r with
               | Some i => exists p, ps !! i = Some p /\ Chat.user p = Some u
               | None => Some u ∉ Chat.user <$> ps
               end.
Proof.
  induction ps as [|p ps IH]; intros Hwf; simpl.
  - exists None. split; [done|]. apply not_elem_of_nil.
  - apply Forall_cons in Hwf as [[w Hw] Hwf]. rewrite Hw.
    destruct (bool_decide (w = u)) eqn:Hm.
    + apply bool_decide_eq_true in Hm. subst. exists (Some 0%nat).
      split; [done|]. exists p. done.
    + apply bool_decide_eq_false in Hm.
      destruct (IH Hwf) as (r & -> & Hr). cbn [bind].
      exists (S <$> r). split; [done|]. destruct r as [i|]; cbn.
      * exact Hr.
      * apply not_elem_of_cons. split; [congruence|exact Hr].
Qed.

Lemma wellFormed_users c :
  ChatShape.wellFormed c ->
  Forall (fun p => is_Some (Chat.user p)) (Chat.participants c).
Proof. intros [Hf _]. eapply Forall_impl; [exact Hf|]. by intros p [? ?]. Qed.

Lemma save_wellFormed c : ChatShape.wellFormed c -> ChatMembership.save c = Ok c.
Proof.
  intros [Hf _]. unfold ChatMembership.save.
  assert (forallb (fun p => bool_decide (Chat.role p ∈ ChatMembership.roles))
                  (Chat.participants c) = true) as ->; [|done].
  apply forallb_forall. intros p Hin. apply list_elem_of_In in Hin.
  apply bool_decide_eq_true_2.
  by destruct (proj1 (Forall_forall _ _) Hf p Hin).
Qed.

(** X6.  On a chat where every user has one entry, [removeParticipant]
    switches the user's entry off and keeps it: afterwards the user is not a
    participant, every other user's membership is what it was, and the list
    of entries has the same users in the same order. *)
Theorem removeParticipant_deactivates c u :
  ChatShape.wellFormed c ->
  exists c',
    ChatMembership.removeParticipant c u = Ok c'
    /\ Chat.isParticipant c' u = false
    /\ (forall v, v <> u -> Chat.isParticipant c' v = Chat.isParticipant c v)
    /\ Chat.user <$> Chat.participants c' = Chat.user <$> Chat.participants c
    /\ ChatShape.wellFormed c'.
Proof.
  intros Hwf. pose proof Hwf as [Hall Hnd].
  destruct (findEntry_ok u _ (wellFormed_users c Hwf)) as (r & Hfind & Hr).
  unfold ChatMembership.removeParticipant. rewrite Hfind. cbn [bind].
  set (off := fun p => {| Chat.user := Chat.user p; Chat.role := Chat.role p;
                          Chat.p_isActive := false |}).
  destruct r as [i|].
  - destruct Hr as (p0 & Hi & Hu0).
    set (c' := ChatMembership.set_participants
                 (alter off i (Chat.participants c)) c).
    assert (Chat.user <$> Chat.participants c'
            = Chat.user <$> Chat.participants c) as Husers.
    { apply list_eq. intros j. cbn. rewrite !list_lookup_fmap.
      destruct (decide (i = j)) as [<-|Hne].
      - rewrite list_lookup_alter_eq, Hi. done.
      - by rewrite list_lookup_alter_ne. }
    assert (ChatShape.wellFormed c') as Hwf'.
    { split; [|by rewrite Husers]. cbn. apply Forall_alter; [done|].
      intros p _ Hp. exact Hp. }
    exists c'. split; [by apply save_wellFormed|].
    split; [|split; [|done]].
    + destruct (Chat.isParticipant c' u) eqn:Hp; [|done].
      apply isParticipant_lookup in Hp as (j & p & Hj & Hu & Ha). cbn in Hj.
      destruct (decide (i = j)) as [<-|Hne].
      * rewrite list_lookup_alter_eq, Hi in Hj. injection Hj as <-. done.
      * rewrite list_lookup_alter_ne in Hj by done.
        destruct Hne. eapply (NoDup_lookup _ _ _ (Some u) Hnd).
        -- by rewrite list_lookup_fmap, Hi; cbn; rewrite Hu0.
        -- by rewrite list_lookup_fmap, Hj; cbn; rewrite Hu.
    + intros v Hv. apply bool_eq_iff. rewrite !isParticipant_lookup. split.
      * intros (j & p & Hj & Hu & Ha). cbn in Hj.
        destruct (decide (i = j)) as [<-|Hne].
        -- rewrite list_lookup_alter_eq, Hi in Hj. injection Hj as <-.
           cbn in Hu. congruence.
        -- rewrite list_lookup_alter_ne in Hj by done. eauto.
      * intros (j & p & Hj & Hu & Ha). exists j, p. split; [|done]. cbn.
        rewrite list_lookup_alter_ne; [done|]. intros <-. congruence.
  - assert (ChatMembership.set_participants (Chat.participants c) c = c) as ->
      by (by destruct c).
    exists c. split; [by apply save_wellFormed|].
    split; [|done].
    destruct (Chat.isParticipant c u) eqn:Hp; [|done].
    apply isParticipant_lookup in Hp as (j & p & Hj & Hu & Ha).
    destruct Hr. apply list_elem_of_lookup. exists j.
    by rewrite list_lookup_fmap, Hj; cbn; rewrite Hu.
Qed.

Lemma findActive_unique u ps i p :
  Forall (fun q => is_Some (Chat.user q)) ps ->
  NoDup (Chat.user <$> ps) ->
  ps !! i = Some p ->
  Chat.user p = Some u ->
  Chat.p_isActive p = true ->
  ChatMembership.findActive u ps = Ok (Some p).
Proof.
  revert i. induction ps as [|q ps IH]; intros i Hall Hnd Hi Hu Ha;
    [done|].
  apply Forall_cons in Hall as [[w Hw] Hall].
  rewrite fmap_cons in Hnd. apply NoDup_cons in Hnd as [Hq Hnd].
  cbn [ChatMembership.findActive]. rewrite Hw.
  destruct i as [|i].
  - injection Hi as ->. rewrite Hu in Hw. injection Hw as <-.
    by rewrite bool_decide_eq_true_2, Ha.
  - assert (ps !! i = Some p) as Hi' by exact Hi.
    assert (w <> u) as Hne.
    { intros ->. destruct Hq. rewrite Hw. apply list_elem_of_lookup.
      exists i. by rewrite list_lookup_fmap, Hi'; cbn; rewrite Hu. }
    rewrite bool_decide_eq_false_2 by done. cbn [andb]. by eapply IH.
Qed.

(** X7.  On a chat where every user has one entry, [addParticipant] with a
    role of the enum makes the user an active participant with that role and
    leaves every other membership alone; a user already listed, active or
    removed, gets no second entry, a user not listed is appended.  With a
    role outside the enum the save is refused. *)
Theorem addParticipant_activates c u role :
  ChatShape.wellFormed c ->
  (role ∈ ChatMembership.roles ->
   exists c',
     ChatMembership.addParticipant c u role = Ok c'
     /\ Chat.isParticipant c' u = true
     /\ ChatMembership.getUserRole c' u = Ok (Some role)
     /\ (forall v, v <> u -> Chat.isParticipant c' v = Chat.isParticipant c v)
     /\ ChatShape.wellFormed c'
     /\ (Some u ∈ Chat.user <$> Chat.participants c ->
         Chat.user <$> Chat.participants c'
         = Chat.user <$> Chat.participants c)
     /\ (Some u ∉ Chat.user <$> Chat.participants c ->
         Chat.participants c'
         = Chat.participants c
           ++ [ {| Chat.user := Some u; Chat.role := role;
                   Chat.p_isActive := true |} ]))
  /\ (role ∉ ChatMembership.roles ->
      ChatMembership.addParticipant c u role = Throw "Chat validation failed").
Proof.
  intros Hwf. pose proof Hwf as [Hall Hnd].
  destruct (findEntry_ok u _ (wellFormed_users c Hwf)) as (r & Hfind & Hr).
  set (entry := {| Chat.user := Some u; Chat.role := role;
                   Chat.p_isActive := true |}).
  split.
  - intros Hrole.
    unfold ChatMembership.addParticipant. rewrite Hfind. cbn [bind].
    fold entry.
    assert (forall ps',
      Forall (fun p => is_Some (Chat.user p)
                       /\ Chat.role p ∈ ChatMembership.roles) ps' ->
      NoDup (Chat.user <$> ps') ->
      forall j, ps' !! j = Some entry ->
      (forall v, v <> u ->
         (exists k p, ps' !! k = Some p /\ Chat.user p = Some v
                      /\ Chat.p_isActive p = true)
         <-> (exists k p, Chat.participants c !! k = Some p
                          /\ Chat.user p = Some v
                          /\ Chat.p_isActive p = true)) ->
      let c' := ChatMembership.set_participants ps' c in
      ChatMembership.save c' = Ok c'
      /\ Chat.isParticipant c' u = true
      /\ ChatMembership.getUserRole c' u = Ok (Some role)
      /\ (forall v, v <> u ->
            Chat.isParticipant c' v = Chat.isParticipant c v)
      /\ ChatShape.wellFormed c') as Hgen.
    { intros ps' Hall' Hnd' j Hj Hothers c'.
      assert (ChatShape.wellFormed c') as Hwf' by done.
      split; [by apply save_wellFormed|].
      split; [apply isParticipant_lookup; by exists j, entry|].
      split.
      - unfold ChatMembership.getUserRole.
        change (Chat.participants c') with ps'.
        rewrite (findActive_unique u ps' j entry); try done.
        apply (wellFormed_users c' Hwf').
      - split; [|done]. intros v Hv. apply bool_eq_iff.
        rewrite !isParticipant_lookup. by apply Hothers. }
    destruct r as [i|].
    + destruct Hr as (p0 & Hi & Hu0).
      assert (i < length (Chat.participants c))%nat as Hlt
        by (apply lookup_lt_is_Some; eauto).
      assert (Chat.user <$> <[i := entry]> (Chat.participants c)
              = Chat.user <$> Chat.participants c) as Husers.
      { apply list_eq. intros j. rewrite !list_lookup_fmap.
        destruct (decide (i = j)) as [<-|Hne].
        - rewrite list_lookup_insert_eq, Hi by done. cbn. by rewrite Hu0.
        - by rewrite list_lookup_insert_ne. }
      destruct (Hgen (<[i := entry]> (Chat.participants c))) with (j := i)
        as (Hs & Hp & Hg & Ho & Hw').
      * apply Forall_insert; [done|]. split; [by eexists|done].
      * by rewrite Husers.
      * by apply list_lookup_insert_eq.
      * intros v Hv. split.
        -- intros (k & p & Hk & Hpu & Ha).
           destruct (decide (i = k)) as [<-|Hne].
           ++ rewrite list_lookup_insert_eq in Hk by done.
              injection Hk as <-. cbn in Hpu. congruence.
           ++ rewrite list_lookup_insert_ne in Hk by done. eauto.
        -- intros (k & p & Hk & Hpu & Ha). exists k, p. split; [|done].
           rewrite list_lookup_insert_ne; [done|]. intros <-. congruence.
      * eexists. split; [exact Hs|]. split; [done|]. split; [done|].
        split; [done|]. split; [done|]. split; [done|].
        intros Hnot. destruct Hnot. apply list_elem_of_lookup. exists i.
        by rewrite list_lookup_fmap, Hi; cbn; rewrite Hu0.
    + destruct (Hgen (Chat.participants c ++ [entry]))
        with (j := length (Chat.participants c))
        as (Hs & Hp & Hg & Ho & Hw').
      * apply Forall_app. split; [done|]. apply Forall_singleton.
        split; [by eexists|done].
      * rewrite fmap_app. apply NoDup_app. split; [done|].
        split; [|apply NoDup_singleton].
        intros x Hx. cbn. rewrite list_elem_of_singleton. by intros ->.
      * rewrite lookup_app_r by done. by rewrite Nat.sub_diag.
      * intros v Hv. split.
        -- intros (k & p & Hk & Hpu & Ha).
           apply lookup_app_Some in Hk as [Hk|[_ Hk]]; [eauto|].
           apply list_lookup_singleton_Some in Hk as [_ <-].
           cbn in Hpu. congruence.
        -- intros (k & p & Hk & Hpu & Ha). exists k, p. split; [|done].
           by apply lookup_app_l_Some.
      * eexists. split; [exact Hs|]. split; [done|]. split; [done|].
        split; [done|]. split; [done|]. split; [done|]. done.
  - intros Hrole.
    unfold ChatMembership.addParticipant. rewrite Hfind. cbn [bind].
    fold entry. unfold ChatMembership.save.
    assert (forall ps', entry ∈ ps' ->
              forallb (fun p => bool_decide (Chat.role p ∈ ChatMembership.roles))
                      ps' = false) as Hbad.
    { intros ps' Hin. apply not_true_is_false. intros Hall'.
      apply forallb_forall with (x := entry) in Hall';
        [|by apply list_elem_of_In].
      apply bool_decide_eq_true in Hall'. done. }
    cbn [ChatMembership.set_participants Chat.participants].
    destruct r as [i|].
    + destruct Hr as (p0 & Hi & _).
      rewrite Hbad; [done|]. apply list_elem_of_lookup. exists i.
      apply list_lookup_insert_eq. apply lookup_lt_is_Some. eauto.
    + rewrite Hbad; [done|]. apply elem_of_app. right.
      apply list_elem_of_here.
Qed.

End Membership.

(** ** Direct chats *)

Section DirectChats.
Implicit Types (cs : gmap string Chat.t).

Lemma direct_between_sym a b (c : Chat.t) :
  ChatMembership.direct_between a b c = ChatMembership.direct_between b a c.
Proof.
  unfold ChatMembership.direct_between.
  destruct (bool_decide _), (existsb _ _), (existsb _ _), (Chat.isActive c);
    done.
Qed.

Lemma createDirectChat_result a b now newId cs :
  let out := ChatMembership.createDirectChat a b now newId cs in
  exists c, out.2 !! out.1 = Some c
            /\ ChatMembership.direct_between a b c = true.
Proof.
  unfold ChatMembership.createDirectChat.
  destruct (list_find _ (map_to_list cs)) as [[i [k c]]|] eqn:Hf.
  - apply list_find_Some in Hf as (Hi & Hc & _). cbn [fst snd] in *.
    exists c. split; [|done].
    apply elem_of_map_to_list, list_elem_of_lookup. eauto.
  - cbn [fst snd]. eexists. split; [apply lookup_insert_eq|].
    unfold ChatMembership.direct_between.
    cbn [Chat.chatType Chat.participants Chat.isActive existsb Chat.user].
    rewrite (bool_decide_eq_true_2 (Some a = Some a)) by done.
    rewrite (bool_decide_eq_true_2 (Some b = Some b)) by done.
    rewrite (bool_decide_eq_true_2 ("direct" = "direct")) by done.
    cbn [orb andb]. by rewrite !orb_true_r.
Qed.

(** X8.  [createDirectChat] returns an active direct chat that lists both
    users, and a second call for the same pair, in either order, returns an
    existing chat and stores nothing. *)
Theorem createDirectChat_reuses a b now now' newId newId' cs :
  let first := ChatMembership.createDirectChat a b now newId cs in
  let again := ChatMembership.createDirectChat a b now' newId' first.2 in
  let swapped := ChatMembership.createDirectChat b a now' newId' first.2 in
  (exists c, first.2 !! first.1 = Some c
             /\ ChatMembership.direct_between a b c = true)
  /\ again.2 = first.2
  /\ swapped.2 = first.2
  /\ (exists c, first.2 !! again.1 = Some c
                /\ ChatMembership.direct_between a b c = true)
  /\ (cs !! first.1 = None -> first.1 = newId).
Proof.
  intros first again swapped.
  destruct (createDirectChat_result a b now newId cs) as (c & Hc & Hd).
  fold first in Hc.
  assert (forall x y, ChatMembership.direct_between x y c = true ->
            (ChatMembership.createDirectChat x y now' newId' first.2).2
            = first.2) as Hreuse.
  { intros x y Hxy. unfold ChatMembership.createDirectChat.
    destruct (list_find _ (map_to_list first.2)) as [[i [k c']]|] eqn:Hf;
      [done|].
    apply list_find_None in Hf.
    assert ((first.1, c) ∈ map_to_list first.2) as Hin
      by (by apply elem_of_map_to_list).
    destruct (proj1 (Forall_forall _ _) Hf (first.1, c) Hin). exact Hxy. }
  split; [by exists c|].
  split; [by apply Hreuse|].
  split; [apply Hreuse; by rewrite direct_between_sym|].
  split.
  - pose proof (createDirectChat_result a b now' newId' first.2) as Hr.
    cbv zeta in Hr. fold again in Hr.
    assert (again.2 = first.2) as Ha by (by apply Hreuse).
    rewrite Ha in Hr. exact Hr.
  - subst first. unfold ChatMembership.createDirectChat in *.
    destruct (list_find _ (map_to_list cs)) as [[i [k c']]|] eqn:Hf;
      [|done].
    cbn [fst snd]. intros Hnone.
    apply list_find_Some in Hf as (Hi & _).
    assert ((k, c') ∈ map_to_list cs) as Hin
      by (apply list_elem_of_lookup; eauto).
    apply elem_of_map_to_list in Hin. congruence.
Qed.

End DirectChats.

(** ** Deleting *)

Section Deleting.
Implicit Types (req : Controller.request) (w : world) (m : Message.t).

Lemma valid_deleted m :
  Message.valid m = true -> Message.valid (Deletion.set_deleted m) = true.
Proof.
  unfold Message.valid.
  cbn [Deletion.set_deleted Message.content Message.sender Message.chat
       Message.messageType Message.reactions].
  intros Hv. repeat (apply andb_prop in Hv as [Hv ?]).
  repeat (apply andb_true_intro; split); done.
Qed.

(** X9.  A delete is applied, or answered 200, only for an undeleted message
    and only when the requester is its sender, or holds the admin or
    moderator role as an active participant of the message's chat, or has
    the account role admin.  The sender's delete of a valid message whose
    chat is on file is a soft delete: the document stays under its id with
    [isDeleted] set and its content replaced, everything else as it was,
    and the answer is 200. *)
Theorem delete_needs_authority req role now w :
  ((Deletion.deleteMessage req role now w).1.1 <> w
   \/ Controller.status (Deletion.deleteMessage req role now w).1.2 = 200 ->
   exists messageId m,
     Controller.params req !! "id" = Some messageId
     /\ messages (db w) !! messageId = Some m
     /\ Message.isDeleted m = false
     /\ (Message.sender m = Controller.user_id req
         \/ role = "admin"
         \/ exists c, chats (db w) !! Message.chat m = Some c
                      /\ ChatMembership.canModerate c (Controller.user_id req)
                         = Ok true))
  /\ (forall messageId m c,
        Controller.params req !! "id" = Some messageId ->
        messages (db w) !! messageId = Some m ->
        Message.isDeleted m = false ->
        Message.valid m = true ->
        Message.sender m = Controller.user_id req ->
        chats (db w) !! Message.chat m = Some c ->
        Deletion.deleteMessage req role now w
        = (set_db (set_messages
                     (<[messageId := Deletion.set_deleted m]> (messages (db w)))
                     (db w)) w,
           Controller.ok 200 "Message deleted successfully" Controller.DNone,
           Controller.emitToParticipants (Controller.io req) c
             "messageDeleted" (Deletion.deleted_payload messageId
                                 (Message.chat m)))).
Proof.
  split.
  - unfold Deletion.deleteMessage.
    destruct (Controller.params req !! "id") as [messageId|];
      [|intros [|]; done].
    unfold Controller.findMessage. cbn [mbind option_bind].
    destruct (messages (db w) !! messageId) as [m|] eqn:Hm;
      [|intros [|]; done].
    destruct (Message.isDeleted m) eqn:Hd; [intros [|]; done|].
    destruct (Deletion.canDelete m _ _ _) as [[|]|] eqn:Hcan;
      try (intros [|]; done).
    intros _. exists messageId, m. repeat split; try done.
    unfold Deletion.canDelete in Hcan.
    destruct (bool_decide (Message.sender m = Controller.user_id req)) eqn:Hs;
      [left; by apply bool_decide_eq_true in Hs|].
    destruct (chats (db w) !! Message.chat m) as [c|]; [|discriminate].
    destruct (ChatMembership.canModerate c (Controller.user_id req))
      as [[|]|] eqn:Hmod; cbn [bind orb] in Hcan.
    + right. right. by exists c.
    + injection Hcan as Hr. apply bool_decide_eq_true in Hr. by right; left.
    + discriminate.
  - intros messageId m c Hp Hm Hd Hv Hs Hc. unfold Deletion.deleteMessage.
    rewrite Hp. unfold Controller.findMessage. cbn [mbind option_bind].
    rewrite Hm, Hd. unfold Deletion.canDelete.
    rewrite bool_decide_eq_true_2 by done.
    rewrite (valid_deleted m Hv). cbn [negb]. by rewrite Hc.
Qed.

(** X10.  A deleted message is sealed: as long as the document carries
    [isDeleted], editing it is answered 400, reacting to it 404 and deleting
    it again 400, each without any effect; it is not among the messages a
    fetch of its chat selects from, and it is counted as unread for nobody.
    The document a soft delete leaves behind is in that state. *)
Theorem deleted_message_is_sealed w messageId m :
  messages (db w) !! messageId = Some m ->
  Message.isDeleted m = true ->
  (forall req now content,
     Controller.params req !! "id" = Some messageId ->
     Controller.body_content req = JStr content ->
     blank content = false ->
     Controller.editMessage req now w
     = (w, Controller.reply 400 "Cannot edit deleted message", []))
  /\ (forall req now,
        Controller.params req !! "messageId" = Some messageId ->
        Controller.body_emoji req <> "" ->
        Controller.addReaction req now w
        = (w, Controller.reply 404 "Message not found", []))
  /\ (forall req role now,
        Controller.params req !! "id" = Some messageId ->
        Deletion.deleteMessage req role now w
        = (w, Controller.reply 400 "Message is already deleted", []))
  /\ (forall chatId, (messageId, m) ∉ Controller.in_chat chatId
                                        (messages (db w)))
  /\ (forall u chatIds, Unread.counted u chatIds m = false)
  /\ (forall m', Message.isDeleted (Deletion.set_deleted m') = true).
Proof.
  intros Hm Hd. split; [|split; [|split; [|split; [|split]]]].
  - intros req now content Hp Hc Hb. unfold Controller.editMessage.
    rewrite Hc, (not_blank_truthy _ Hb), Hb, Hp. cbn [negb].
    unfold Controller.findMessage. cbn [mbind option_bind].
    by rewrite Hm, Hd.
  - intros req now Hp He. unfold Controller.addReaction.
    rewrite bool_decide_eq_false_2 by done. rewrite Hp.
    unfold Controller.findMessage. cbn [mbind option_bind].
    by rewrite Hm, Hd.
  - intros req role now Hp. unfold Deletion.deleteMessage.
    rewrite Hp. unfold Controller.findMessage. cbn [mbind option_bind].
    by rewrite Hm, Hd.
  - intros chatId Hin. unfold Controller.in_chat in Hin.
    apply list_elem_of_filter in Hin as [[_ Hnd] _]. cbn in Hnd. congruence.
  - intros u chatIds. unfold Unread.counted. rewrite Hd.
    by rewrite andb_false_r.
  - done.
Qed.

End Deleting.

(** ** The moderated routes *)

Section Transparent.
Variable classify : string -> Moderation.http_outcome.

(** X11.  The moderation middleware is transparent unless the classifier
    flags the text: for a request without text content, for text the
    classifier answers anything but [true] about, and for text whose check
    fails in any way, the route does exactly what its handler does, preceded
    by the classifier request if one was made.  In particular the REST
    routes fail open. *)
Theorem moderated_route_passes_unless_flagged
    (handler : Controller.request -> Z -> world ->
               world * Controller.response * list effect)
    (req : Controller.request) (now : Z) (w : world) :
  (forall t, Moderation.request_text (Controller.body_content req) = Some t ->
             classify t <> Moderation.HttpResponse (JBool true)) ->
  Routes.moderated classify handler req now w
  = ((handler req now w).1.1, (handler req now w).1.2,
     (ClassifierRequest
        <$> option_list (Moderation.request_text (Controller.body_content req)))
     ++ (handler req now w).2).
Proof.
  intros Hnot. unfold Routes.moderated.
  destruct (Moderation.sexualContentMiddleware classify
              (Controller.body_content req)) as [moderation|] eqn:Hmw.
  - by destruct (handler req now w) as [[w' res] fx].
  - apply middleware_blocks_iff in Hmw as (t & Ht & Hc).
    by destruct (Hnot t Ht).
Qed.

End Transparent.

(** ** Rooms at connect and disconnect *)

Section ConnectRooms.
Implicit Types (w : world) (sock : Socket.socket) (sid room : string).

Lemma fold_join_member (l : list (string * Chat.t)) sid w kc :
  kc ∈ l ->
  sid ∈ members
          (foldl (fun w' kc => Socket.join (Socket.chat_room kc.1) sid w') w l)
          (Socket.chat_room kc.1).
Proof.
  revert w. induction l as [|kc' l IH]; intros w Hin.
  - by apply elem_of_nil in Hin.
  - cbn [foldl]. apply elem_of_cons in Hin as [->|Hin]; [|by apply IH].
    apply joinUserChats_fold. apply join_member.
Qed.

Lemma fold_join_only (l : list (string * Chat.t)) sid w room s :
  s ∈ members
        (foldl (fun w' kc => Socket.join (Socket.chat_room kc.1) sid w') w l)
        room ->
  s ∈ members w room
  \/ (s = sid /\ exists kc, kc ∈ l /\ room = Socket.chat_room kc.1).
Proof.
  revert w. induction l as [|kc l IH]; intros w; cbn [foldl]; [by left|].
  intros Hin. apply IH in Hin as [Hin|(-> & kc' & Hkc & ->)].
  - rewrite members_join in Hin. case_decide as Hr; [|by left].
    apply elem_of_union in Hin as [Hin|Hin]; [|by left].
    apply elem_of_singleton in Hin as ->. right. split; [done|].
    exists kc. split; [apply list_elem_of_here|done].
  - right. split; [done|]. exists kc'.
    split; [by apply list_elem_of_further|done].
Qed.

Lemma userChats_elem (d : store) u k c :
  (k, c) ∈ Socket.userChats d u
  <-> chats d !! k = Some c /\ Chat.lists_user u c = true.
Proof.
  unfold Socket.userChats. rewrite list_elem_of_filter, elem_of_map_to_list.
  cbn. tauto.
Qed.

Lemma isParticipant_listed (c : Chat.t) u :
  Chat.isActive c = true -> Chat.isParticipant c u = true ->
  Chat.lists_user u c = true.
Proof.
  intros Ha Hp. apply isParticipant_lookup in Hp as (j & p & Hj & Hu & Hact).
  assert (p ∈ Chat.participants c) as Hin
    by (apply list_elem_of_lookup; eauto).
  apply list_elem_of_In in Hin.
  unfold Chat.lists_user. rewrite Ha.
  assert (existsb (fun p => bool_decide (Chat.user p = Some u))
                  (Chat.participants c) = true) as ->.
  { apply existsb_exists. exists p. split; [done|].
    by apply bool_decide_eq_true_2. }
  assert (existsb Chat.p_isActive (Chat.participants c) = true) as ->; [|done].
  apply existsb_exists. by exists p.
Qed.

(** X12.  When a connection is set up it is tracked both ways, sits in its
    identity's personal room and in the room of every chat the membership
    query returns, which covers every active chat in which the identity is
    an active participant; it is put in no other room, and nobody else's
    rooms change.  From then on [getUserStatus] is true and [emitToUser]
    emits to the personal room. *)
Theorem connection_joins_member_chats sock now w :
  Socket.id sock <> "" ->
  let w' := (Socket.connection sock now w).1 in
  connectedUsers w' !! Socket.userId sock = Some (Socket.id sock)
  /\ userSockets w' !! Socket.id sock = Some (Socket.userId sock)
  /\ Socket.id sock ∈ members w' (Socket.user_room (Socket.userId sock))
  /\ (forall k c, chats (db w) !! k = Some c ->
                  Chat.isActive c = true ->
                  Chat.isParticipant c (Socket.userId sock) = true ->
                  Socket.id sock ∈ members w' (Socket.chat_room k))
  /\ (forall room s,
        s ∈ members w' room ->
        s ∈ members w room
        \/ (s = Socket.id sock
            /\ (room = Socket.user_room (Socket.userId sock)
                \/ exists k c, chats (db w) !! k = Some c
                               /\ Chat.lists_user (Socket.userId sock) c = true
                               /\ room = Socket.chat_room k)))
  /\ Socket.getUserStatus w' (Socket.userId sock) = true
  /\ (forall event data,
        Socket.emitToUser w' (Socket.userId sock) event data
        = [Emit (ToRoom (Socket.user_room (Socket.userId sock))) event data]).
Proof.
  intros Hid w'.
  destruct (connection_spec sock now w) as (Hc & Hu & Hpers & _ & _).
  fold w' in Hc, Hu, Hpers.
  assert (connectedUsers w' !! Socket.userId sock = Some (Socket.id sock))
    as Hcu by (rewrite Hc; apply lookup_insert_eq).
  split; [exact Hcu|].
  split; [rewrite Hu; apply lookup_insert_eq|].
  split; [exact Hpers|].
  assert (forall room,
            members w' room
            = members (Socket.joinUserChats sock
                         (Socket.join (Socket.user_room (Socket.userId sock))
                            (Socket.id sock)
                            (set_maps (<[Socket.userId sock := Socket.id sock]>
                                         (connectedUsers w))
                                      (<[Socket.id sock := Socket.userId sock]>
                                         (userSockets w)) w))) room) as Hmem.
  { intros room. unfold w', Socket.connection.
    apply updateUserOnlineStatus_members. }
  split; [|split; [|split]].
  - intros k c Hk Ha Hp. rewrite Hmem. unfold Socket.joinUserChats.
    apply (fold_join_member _ _ _ (k, c)).
    apply userChats_elem. split; [done|]. by apply isParticipant_listed.
  - intros room s Hin. rewrite Hmem in Hin. unfold Socket.joinUserChats in Hin.
    apply fold_join_only in Hin as [Hin|(-> & [k c] & Hkc & ->)].
    + rewrite members_join in Hin. case_decide as Hr; [|by left].
      apply elem_of_union in Hin as [Hin|Hin]; [|by left].
      apply elem_of_singleton in Hin as ->. right. split; [done|by left].
    + right. split; [done|]. right. apply userChats_elem in Hkc as [Hk Hl].
      by exists k, c.
  - unfold Socket.getUserStatus. rewrite Hcu.
    apply bool_decide_eq_true_2. by eexists.
  - intros event data. unfold Socket.emitToUser. rewrite Hcu.
    by rewrite bool_decide_eq_false_2.
Qed.

(** X13.  The membership query of [joinUserChats] is looser than
    [isParticipant]: an identity whose own entry in an active chat is
    switched off is still put in that chat's room when it connects, as long
    as some entry of the chat is active. *)
Theorem removed_member_rejoins_room_on_connect sock now w k c p q :
  chats (db w) !! k = Some c ->
  Chat.isActive c = true ->
  p ∈ Chat.participants c ->
  Chat.user p = Some (Socket.userId sock) ->
  q ∈ Chat.participants c ->
  Chat.p_isActive q = true ->
  Socket.id sock ∈ members (Socket.connection sock now w).1
                           (Socket.chat_room k).
Proof.
  intros Hk Ha Hp Hu Hq Hact.
  unfold Socket.connection. rewrite updateUserOnlineStatus_members.
  unfold Socket.joinUserChats.
  apply (fold_join_member _ _ _ (k, c)).
  apply userChats_elem. split; [done|].
  unfold Chat.lists_user. rewrite Ha.
  assert (existsb (fun p => bool_decide (Chat.user p = Some (Socket.userId sock)))
                  (Chat.participants c) = true) as ->.
  { apply existsb_exists. exists p. split; [by apply list_elem_of_In|].
    by apply bool_decide_eq_true_2. }
  assert (existsb Chat.p_isActive (Chat.participants c) = true) as ->; [|done].
  apply existsb_exists. exists q. split; [by apply list_elem_of_In|done].
Qed.


Lemma chat_room_not_personal chatId userId :
  Socket.chat_room chatId <> Socket.user_room userId.
Proof. unfold Socket.chat_room, Socket.user_room. discriminate. Qed.

(** X15.  The room handlers work on rooms named [chat_...] only: whatever
    identifier a client sends with [joinChat] or [leaveChat], nobody's
    personal room changes and every other room keeps its members; after
    [joinChat] and then [leaveChat] for the same identifier the connection
    is not in the room. *)
Theorem room_handlers_stay_in_chat_rooms sock chatId w :
  (forall userId,
     (members (Socket.joinChat sock chatId w).1 (Socket.user_room userId)
      = members w (Socket.user_room userId))
     /\ (members (Socket.leaveChat sock chatId w).1 (Socket.user_room userId)
         = members w (Socket.user_room userId)))
  /\ (forall room, room <> Socket.chat_room chatId ->
        members (Socket.joinChat sock chatId w).1 room = members w room
        /\ members (Socket.leaveChat sock chatId w).1 room = members w room)
  /\ (Socket.id sock
       ∉ members (Socket.leaveChat sock chatId
                    (Socket.joinChat sock chatId w).1).1
                 (Socket.chat_room chatId))
  /\ (forall s, s <> Socket.id sock ->
        (s ∈ members (Socket.leaveChat sock chatId
                        (Socket.joinChat sock chatId w).1).1
                     (Socket.chat_room chatId)
         <-> s ∈ members w (Socket.chat_room chatId))).
Proof.
  assert (forall room, room <> Socket.chat_room chatId ->
            members (Socket.joinChat sock chatId w).1 room = members w room
            /\ members (Socket.leaveChat sock chatId w).1 room
               = members w room) as Hother.
  { intros room Hr. cbn [Socket.joinChat Socket.leaveChat fst].
    rewrite members_join, members_leave.
    by rewrite !decide_False by done. }
  split; [|split; [exact Hother|split]].
  - intros userId. apply Hother. intros Heq.
    by apply (chat_room_not_personal chatId userId).
  - cbn [Socket.joinChat Socket.leaveChat fst].
    rewrite members_leave, decide_True by done.
    rewrite elem_of_difference, elem_of_singleton. tauto.
  - intros s Hs. cbn [Socket.joinChat Socket.leaveChat fst].
    rewrite members_leave, decide_True by done.
    rewrite members_join, decide_True by done.
    rewrite elem_of_difference, elem_of_union, !elem_of_singleton. tauto.
Qed.

End ConnectRooms.

(** ** Who hears about presence *)

Section PresenceContacts.
Implicit Types (w : world) (u v : string).





End PresenceContacts.

(** ** The directory along a run *)

Section Directory.
Variable classify : string -> Moderation.http_outcome.
Variable sendMail : alert -> bool.
Variable paginate : list (string * Message.t) -> list (string * Message.t).
Implicit Types (w : world) (sock : Socket.socket).









Lemma sound_frame w w' :
  connectedUsers w' = connectedUsers w ->
  userSockets w' = userSockets w ->
  rooms w' = rooms w ->
  Schedule.sound w -> Schedule.sound w'.
Proof.
  intros Hc Hu Hr [H1 H2]. split.
  - intros u s. rewrite Hc, Hu. apply H1.
  - intros room s. unfold members. rewrite Hr, Hu. apply H2.
Qed.




End Directory.

(** ** What marking messages read writes *)

Section Collection.
Variable classify : string -> Moderation.http_outcome.
Variable sendMail : alert -> bool.
Variable paginate : list (string * Message.t) -> list (string * Message.t).
Implicit Types (w : world) (ms : gmap string Message.t) (m : Message.t).

(** X18.  Marking messages read writes read sets and nothing else: every
    message is still there under its id with its content, sender, chat,
    type, flags, reply reference, reactions and creation time, its read set
    only ever extended at the end; and a read set changes only for a message
    of the chat named in the event whose id is in the list and which the
    identity had not read. *)
Theorem mark_read_touches_read_sets_only
    (sock : Socket.socket) (data : Socket.markReadData) (now : Z) w :
  let w' := (Socket.markMessagesRead sock data now w).1 in
  chats (db w') = chats (db w)
  /\ users (db w') = users (db w)
  /\ dom (messages (db w')) = dom (messages (db w))
  /\ forall i m,
       messages (db w) !! i = Some m ->
       exists m',
         messages (db w') !! i = Some m'
         /\ m' = Message.set_readBy (Message.readBy m') m
         /\ Message.readBy m `prefix_of` Message.readBy m'
         /\ (m' <> m ->
             Socket.mr_chatId data <> ""
             /\ Message.chat m = Socket.mr_chatId data
             /\ (exists ids, Socket.messageIds data = Some ids /\ i ∈ ids)
             /\ Message.read_by (Socket.userId sock) m = false
             /\ Message.readBy m'
                = Message.readBy m
                  ++ [ {| Message.re_user := Socket.userId sock;
                          Message.readAt := now |} ]).
Proof.
  assert (forall m, m = Message.set_readBy (Message.readBy m) m) as Heta
    by (by intros []).
  unfold Socket.markMessagesRead.
  destruct (Socket.messageIds data) as [ids|] eqn:Hids.
  2:{ cbn [fst]. repeat split. intros i m Hm. exists m. split; [done|].
      split; [apply Heta|]. split; [done|]. done. }
  destruct (bool_decide (Socket.mr_chatId data = "")) eqn:He.
  { cbn [fst]. repeat split. intros i m Hm. exists m. split; [done|].
    split; [apply Heta|]. split; [done|]. done. }
  apply bool_decide_eq_false in He.
  cbn [fst db set_db set_messages messages chats users].
  split; [done|]. split; [done|]. split.
  - apply set_eq. intros i. rewrite !elem_of_dom, mark_read_lookup.
    by rewrite fmap_is_Some.
  - intros i m Hm. rewrite mark_read_lookup, Hm.
    cbn [fmap option_fmap option_map].
    destruct (bool_decide (i ∈ ids)
              && bool_decide (Message.chat m = Socket.mr_chatId data)
              && negb (Message.read_by (Socket.userId sock) m)) eqn:Hg.
    + apply andb_prop in Hg as [Hg Hr]. apply andb_prop in Hg as [Hi Hc].
      apply bool_decide_eq_true in Hi, Hc. apply negb_true_iff in Hr.
      assert (Socket.addToSet {| Message.re_user := Socket.userId sock;
                                 Message.readAt := now |} (Message.readBy m)
              = Message.readBy m
                ++ [ {| Message.re_user := Socket.userId sock;
                        Message.readAt := now |} ]) as Hadd.
      { unfold Socket.addToSet.
        destruct (decide (_ ∈ Message.readBy m)) as [Hin|]; [|done].
        assert (Message.read_by (Socket.userId sock) m = true)
          by (apply read_by_iff; eauto).
        congruence. }
      eexists. split; [reflexivity|]. rewrite Hadd.
      split; [done|]. split; [by apply prefix_app_r|].
      intros _. repeat split; try done. by exists ids.
    + exists m. split; [done|]. split; [apply Heta|]. split; [done|]. done.
Qed.

End Collection.

(** ** Fetching, replying, counting *)

Section Fetching.
Variable paginate : list (string * Message.t) -> list (string * Message.t).
Implicit Types (req : Controller.request) (w : world) (m : Message.t).

Lemma mark_fetched_lookup u ids now (ms : gmap string Message.t) i :
  Controller.mark_fetched u ids now ms !! i
  = (fun m =>
       if bool_decide (i ∈ ids)
       then Message.set_readBy
              (Socket.addToSet {| Message.re_user := u; Message.readAt := now |}
                               (Message.readBy m)) m
       else m) <$> ms !! i.
Proof.
  unfold Controller.mark_fetched. rewrite map_lookup_imap.
  by destruct (ms !! i).
Qed.

Lemma mark_fetched_nil u now (ms : gmap string Message.t) :
  Controller.mark_fetched u [] now ms = ms.
Proof.
  apply map_eq. intros i. rewrite mark_fetched_lookup.
  rewrite bool_decide_eq_false_2 by apply not_elem_of_nil.
  by destruct (ms !! i).
Qed.

(** The collection after [getChatMessages] for a member. *)
Lemma getChatMessages_member req now w chatId c :
  Controller.params req !! "chatId" = Some chatId ->
  chats (db w) !! chatId = Some c ->
  Chat.isActive c = true ->
  Chat.isParticipant c (Controller.user_id req) = true ->
  let page := paginate (Controller.in_chat chatId (messages (db w))) in
  let unread :=
    (filter (fun km => Message.read_by (Controller.user_id req) km.2 = false)
            page).*1 in
  let out := Controller.getChatMessages paginate req now w in
  messages (db out.1.1)
  = Controller.mark_fetched (Controller.user_id req) unread now
                            (messages (db w))
  /\ chats (db out.1.1) = chats (db w)
  /\ (Controller.status out.1.2 = 200 ->
      Controller.data out.1.2
      = Controller.DMessages page
          (length (Controller.in_chat chatId (messages (db w))))).
Proof.
  intros Hp Hc Ha Hpart page unread out. subst out.
  unfold Controller.getChatMessages. rewrite Hp. cbn [mbind option_bind].
  rewrite Hc. cbn [fmap option_fmap option_map]. rewrite Ha, Hpart.
  cbn [negb]. fold page. fold unread.
  destruct unread as [|i0 rest] eqn:Hun.
  - cbn [fst snd]. by rewrite mark_fetched_nil.
  - destruct (Controller.io req); [|done].
    destruct (Controller.readReceipts _ _ _) as [fx [|]]; done.
Qed.

(** X20.  Fetching a chat's messages marks what it returns as read.  For an
    active member of an active chat, and a query that returns some of the
    chat's undeleted messages: every message of the returned page is an
    undeleted message of that chat, and after the call the reader is in its
    read set, the document being otherwise as it was; messages that are not
    on the page are not touched. *)
Theorem fetch_marks_page_read req now w chatId c :
  (forall l x, x ∈ paginate l -> x ∈ l) ->
  Controller.params req !! "chatId" = Some chatId ->
  chats (db w) !! chatId = Some c ->
  Chat.isActive c = true ->
  Chat.isParticipant c (Controller.user_id req) = true ->
  let page := paginate (Controller.in_chat chatId (messages (db w))) in
  let out := Controller.getChatMessages paginate req now w in
  (forall i m,
     (i, m) ∈ page ->
     messages (db w) !! i = Some m
     /\ Message.chat m = chatId /\ Message.isDeleted m = false
     /\ exists m',
          messages (db out.1.1) !! i = Some m'
          /\ Message.read_by (Controller.user_id req) m' = true
          /\ m' = Message.set_readBy (Message.readBy m') m)
  /\ (forall i, i ∉ page.*1 ->
                messages (db out.1.1) !! i = messages (db w) !! i).
Proof.
  intros Hsub Hp Hc Ha Hpart page out.
  destruct (getChatMessages_member req now w chatId c Hp Hc Ha Hpart)
    as (Hms & _ & _).
  fold page in Hms. fold out in Hms. rewrite Hms.
  set (unread := (filter _ page).*1).
  split.
  - intros i m Hin.
    assert ((i, m) ∈ Controller.in_chat chatId (messages (db w))) as Hcand
      by (by apply Hsub).
    unfold Controller.in_chat in Hcand.
    apply list_elem_of_filter in Hcand as [[Hchat Hnd] Hmem].
    apply elem_of_map_to_list in Hmem. cbn in Hchat, Hnd.
    split; [done|]. split; [done|]. split; [done|].
    rewrite mark_fetched_lookup, Hmem. cbn [fmap option_fmap option_map].
    destruct (bool_decide (i ∈ unread)) eqn:Hi.
    + eexists. split; [reflexivity|]. split; [apply read_by_addToSet|done].
    + exists m. split; [done|]. split; [|by destruct m].
      apply bool_decide_eq_false in Hi.
      destruct (Message.read_by (Controller.user_id req) m) eqn:Hr; [done|].
      destruct Hi. unfold unread. apply list_elem_of_fmap.
      exists (i, m). split; [done|]. by apply list_elem_of_filter.
  - intros i Hi. rewrite mark_fetched_lookup.
    rewrite bool_decide_eq_false_2; [by destruct (messages (db w) !! i)|].
    intros Hin. apply Hi. unfold unread in Hin.
    apply list_elem_of_fmap in Hin as (km & -> & Hkm).
    apply list_elem_of_filter in Hkm as [_ Hkm].
    apply list_elem_of_fmap. by exists km.
Qed.

(** X21.  The REST send checks the message a reply refers to.  For text an
    active member sends with a non-empty [replyTo]: a reference that is no
    ObjectId makes [Message.findById] throw, which is answered 500 "Failed
    to send message"; a reference that casts but leads to no stored message,
    or to a message of another chat, is answered 400 "Invalid reply
    message"; in both cases nothing happens.  A reference to a message of
    the same chat is kept in the stored document. *)
Theorem rest_reply_must_be_in_chat req now newId w chatId c content r :
  Controller.body_content req = JStr content ->
  blank content = false ->
  Controller.params req !! "chatId" = Some chatId ->
  chats (db w) !! chatId = Some c ->
  Chat.isActive c = true ->
  Chat.isParticipant c (Controller.user_id req) = true ->
  Controller.body_replyTo req = Some r ->
  r <> "" ->
  let out := Controller.sendMessage req now newId w in
  (forall what : string,
     ObjectId.cast (messages (db w)) r = Throw what ->
     out = (w, Controller.reply 500 "Failed to send message", []))
  /\ (forall k,
        ObjectId.cast (messages (db w)) r = Ok k ->
        (forall target, messages (db w) !! k = Some target ->
                        Message.chat target <> chatId) ->
        out = (w, Controller.reply 400 "Invalid reply message", []))
  /\ (forall k target,
        ObjectId.cast (messages (db w)) r = Ok k ->
        messages (db w) !! k = Some target ->
        Message.chat target = chatId ->
        let newMessage :=
          {| Message.content := trim content;
             Message.sender := Controller.user_id req;
             Message.chat := chatId;
             Message.messageType :=
               default "text" (Controller.body_messageType req);
             Message.isEdited := false; Message.editedAt := None;
             Message.isDeleted := false; Message.readBy := [];
             Message.replyTo := Some k; Message.reactions := [];
             Message.createdAt := now |} in
        Message.valid newMessage = true ->
        messages (db out.1.1) !! newId = Some newMessage
        /\ Controller.status out.1.2 = 201
        /\ Controller.data out.1.2 = Controller.DMessage newId newMessage
        /\ out.2 = Controller.emitToParticipants (Controller.io req) c
                     "newMessage" (PMessage newId newMessage)).
Proof.
  intros Hc Hb Hp Hchat Ha Hpart Hr Hne out. subst out.
  unfold Controller.sendMessage.
  rewrite Hc, (not_blank_truthy _ Hb), Hb, Hp. cbn [negb].
  rewrite (findById_found _ _ _ Hchat), Ha, Hpart. cbn [negb].
  unfold Controller.checkReply. rewrite Hr. cbn [mbind option_bind].
  rewrite bool_decide_eq_false_2 by done.
  split; [|split].
  - intros what Hm.
    destruct (findById_cast (messages (db w)) r)
      as [(m' & _ & ->)|(k & Hk & _)]; [done|congruence].
  - intros k Hk Hbad.
    destruct (findById_cast (messages (db w)) r)
      as [(m' & Hm' & _)|(k' & Hk' & ->)]; [congruence|].
    assert (k' = k) as -> by congruence.
    destruct (messages (db w) !! k) as [target|] eqn:Ht;
      cbn [fmap option_fmap option_map]; [|done].
    by rewrite bool_decide_eq_false_2 by (by apply Hbad).
  - intros k target Hk Ht Hsame Hv.
    destruct (findById_cast (messages (db w)) r)
      as [(m' & Hm' & _)|(k' & Hk' & ->)]; [congruence|].
    assert (k' = k) as -> by congruence.
    rewrite Ht. cbn [fmap option_fmap option_map].
    rewrite bool_decide_eq_true_2 by done.
    rewrite create_literal, Hv. cbn [negb fst snd].
    cbn [db set_db set_messages set_chats messages Controller.ok
         Controller.status Controller.data].
    split; [apply lookup_insert_eq|done].
Qed.

(** X22.  Marking messages read can only lower the reader's unread count,
    and leaves everybody else's count as it was. *)
Theorem mark_read_lowers_unread_count
    (sock : Socket.socket) (data : Socket.markReadData) (now : Z) w :
  let w' := (Socket.markMessagesRead sock data now w).1 in
  (Unread.unreadCount (Socket.userId sock) (db w')
   <= Unread.unreadCount (Socket.userId sock) (db w))%nat
  /\ forall v, v <> Socket.userId sock ->
               Unread.unreadCount v (db w') = Unread.unreadCount v (db w).
Proof.
  intros w'.
  assert (chats (db w') = chats (db w)) as Hchats.
  { subst w'. unfold Socket.markMessagesRead.
    destruct (Socket.messageIds data); [|done]. by destruct (bool_decide _). }
  assert (forall v, (Socket.userChats (db w') v).*1
                    = (Socket.userChats (db w) v).*1) as Huc
    by (intros v; unfold Socket.userChats; by rewrite Hchats).
  assert (forall i m', messages (db w') !! i = Some m' ->
            exists m, messages (db w) !! i = Some m
                      /\ Message.chat m' = Message.chat m
                      /\ Message.sender m' = Message.sender m
                      /\ Message.isDeleted m' = Message.isDeleted m
                      /\ (forall v, Message.read_by v m = true ->
                                    Message.read_by v m' = true)
                      /\ (forall v, v <> Socket.userId sock ->
                                    Message.read_by v m'
                                    = Message.read_by v m)) as Hback.
  { subst w'. unfold Socket.markMessagesRead.
    destruct (Socket.messageIds data) as [ids|]; [|by eauto 10].
    destruct (bool_decide _); [by eauto 10|].
    intros i m'. cbn [fst db set_db set_messages messages].
    rewrite mark_read_lookup.
    destruct (messages (db w) !! i) as [m|]; [|discriminate].
    cbn [fmap option_fmap option_map]. intros [= <-]. exists m.
    split; [done|].
    destruct (_ && _); [|done].
    cbn [Message.set_readBy Message.chat Message.sender Message.isDeleted].
    split; [done|]. split; [done|]. split; [done|].
    assert (forall v,
              Message.read_by v
                (Message.set_readBy
                   (Socket.addToSet {| Message.re_user := Socket.userId sock;
                                       Message.readAt := now |}
                                    (Message.readBy m)) m)
              = Message.read_by v m
                || (if decide ({| Message.re_user := Socket.userId sock;
                                  Message.readAt := now |} ∈ Message.readBy m)
                    then false
                    else bool_decide (Socket.userId sock = v))) as Hrb.
    { intros v. unfold Message.read_by, Socket.addToSet.
      cbn [Message.set_readBy Message.readBy].
      destruct (decide (_ ∈ Message.readBy m)); [by rewrite orb_false_r|].
      rewrite existsb_app. cbn [existsb Message.re_user].
      by rewrite orb_false_r. }
    split.
    - intros v Hv. rewrite Hrb, Hv. done.
    - intros v Hv. rewrite Hrb. destruct (decide _); [by rewrite orb_false_r|].
      rewrite bool_decide_eq_false_2 by done. by rewrite orb_false_r. }
  assert (forall i m, messages (db w) !! i = Some m ->
                      is_Some (messages (db w') !! i)) as Hfwd.
  { subst w'. unfold Socket.markMessagesRead.
    destruct (Socket.messageIds data) as [ids|]; [|by eauto].
    destruct (bool_decide _); [by eauto|].
    intros i m Hm. cbn [fst db set_db set_messages messages].
    rewrite mark_read_lookup, Hm. by eexists. }
  unfold Unread.unreadCount. split.
  - rewrite <- !size_dom. apply subseteq_size. intros i.
    rewrite !elem_of_dom. intros [m' Hm'].
    apply map_lookup_filter_Some in Hm' as [Hm' Hcnt]. cbn in Hcnt.
    destruct (Hback i m' Hm') as (m & Hm & Hch & Hse & Hde & Hmono & _).
    exists m. apply map_lookup_filter_Some. split; [done|]. cbn.
    unfold Unread.counted in *. rewrite Huc, Hch, Hse, Hde in Hcnt.
    apply andb_prop in Hcnt as [Hcnt Hd'].
    apply andb_prop in Hcnt as [Hcnt Hr'].
    apply andb_prop in Hcnt as [Hc' Hs'].
    rewrite Hc', Hs', Hd'. cbn [andb]. rewrite andb_true_r.
    destruct (Message.read_by (Socket.userId sock) m) eqn:Hr; [|done].
    rewrite (Hmono _ Hr) in Hr'. discriminate.
  - intros v Hv. rewrite <- !size_dom. f_equal. apply set_eq. intros i.
    rewrite !elem_of_dom. split.
    + intros [m' Hm']. apply map_lookup_filter_Some in Hm' as [Hm' Hcnt].
      cbn in Hcnt.
      destruct (Hback i m' Hm') as (m & Hm & Hch & Hse & Hde & _ & Hsame).
      exists m. apply map_lookup_filter_Some. split; [done|]. cbn.
      unfold Unread.counted in *.
      by rewrite Huc, Hch, Hse, Hde, (Hsame v Hv) in Hcnt.
    + intros [m Hm]. apply map_lookup_filter_Some in Hm as [Hm Hcnt].
      cbn in Hcnt. destruct (Hfwd i m Hm) as [m' Hm'].
      destruct (Hback i m' Hm') as (m0 & Hm0 & Hch & Hse & Hde & _ & Hsame).
      assert (m0 = m) as -> by congruence.
      exists m'. apply map_lookup_filter_Some. split; [done|]. cbn.
      unfold Unread.counted in *.
      by rewrite Huc, Hch, Hse, Hde, (Hsame v Hv).
Qed.

End Fetching.

(** ** What the guardian is sent *)

Section Alerts.
Variable sendMail : alert -> bool.
Implicit Types (d : store) (tk : task).

Lemma length_prefix (n : nat) (s : string) :
  (String.length (prefix n s) <= n)%nat.
Proof.
  unfold prefix. revert s. induction n as [|n IH]; intros [|a s]; cbn;
    try lia.
  specialize (IH s). lia.
Qed.

Lemma length_append (s1 s2 : string) :
  String.length (s1 +:+ s2) = (String.length s1 + String.length s2)%nat.
Proof.
  induction s1 as [|a s1 IH]; [done|].
  change (String a s1 +:+ s2) with (String a (s1 +:+ s2)).
  cbn [String.length]. by rewrite IH.
Qed.

Lemma preview_bounded contentType content n p :
  Monitoring.preview contentType content n = Ok p ->
  (String.length p <= Nat.max (n + 3) 13)%nat
  /\ (contentType = "text" ->
      exists s, content = JStr s /\ p = prefix n s +:+ "...")
  /\ (contentType <> "text" -> p = "Image content").
Proof.
  unfold Monitoring.preview.
  destruct (bool_decide (contentType = "text")) eqn:Ht.
  - apply bool_decide_eq_true in Ht.
    destruct content as [| | | |s]; try discriminate. intros [= <-].
    split; [|split; [by eauto|done]].
    rewrite length_append. pose proof (length_prefix n s). cbn. lia.
  - apply bool_decide_eq_false in Ht. intros [= <-].
    split; [cbn; lia|]. split; [done|done].
Qed.

Lemma send_alert_effects d sender parent tk chat e :
  e ∈ (Monitoring.send_alert sendMail d sender parent tk chat).2 ->
  (exists what, e = ConsoleError what)
  \/ exists a,
       e = Mail a (sendMail a)
       /\ a_to a = parent
       /\ a_contentType a = t_contentType tk
       /\ a_childEmail a = User.email sender
       /\ Monitoring.preview (t_contentType tk) (t_content tk) 50
          = Ok (a_contentPreview a).
Proof.
  unfold Monitoring.send_alert.
  destruct (match chat with
            | Some c => _ | None => _ end) as [names|?];
    [|intros Hin; by apply elem_of_nil in Hin].
  destruct (Monitoring.preview _ _ 50) as [p|?] eqn:Hp;
    [|intros Hin; by apply elem_of_nil in Hin].
  unfold Monitoring.sendParentContentAlert.
  match goal with |- context [sendMail ?x] => set (a := x) end.
  assert (e = Mail a (sendMail a) ->
          exists a0, e = Mail a0 (sendMail a0) /\ a_to a0 = parent
            /\ a_contentType a0 = t_contentType tk
            /\ a_childEmail a0 = User.email sender
            /\ Ok p = Ok (a_contentPreview a0)) as Hmail.
  { intros ->. by exists a. }
  destruct (sendMail a) eqn:Hs; cbn [snd].
  - intros Hin. apply list_elem_of_singleton in Hin. right. by apply Hmail.
  - rewrite !elem_of_cons, elem_of_nil. intros [Hin|[Hin|[]]].
    + right. by apply Hmail.
    + left. by eexists.
Qed.

Lemma notify_effects d tk e :
  e ∈ (Monitoring.notify sendMail d tk).2 ->
  (exists what, e = ConsoleError what)
  \/ (exists sender chat,
        users d !! t_senderId tk = Some sender
        /\ Monitoring.no_parentEmail sender = false
        /\ e ∈ (Monitoring.send_alert sendMail d sender
                  (default "" (User.parentEmail sender)) tk chat).2)
  \/ (exists c, e = Incident (t_contentType tk) (t_senderId tk)
                             (t_chatId tk) c
                /\ Monitoring.preview (t_contentType tk)
                     (t_content tk) 100 = Ok c).
Proof.
  unfold Monitoring.notify, Monitoring.notify_body.
  destruct (users d !! t_senderId tk) as [sender|] eqn:Hs.
  2:{ cbn [snd]. intros Hin. apply list_elem_of_singleton in Hin. eauto. }
  destruct (Monitoring.no_parentEmail sender) eqn:Hp.
  { cbn [snd]. intros Hin. by apply elem_of_nil in Hin. }
  destruct (ObjectId.findById (chats d) (t_chatId tk)) as [chat|?].
  2:{ cbn [snd]. intros Hin. apply list_elem_of_singleton in Hin. eauto. }
  destruct (Monitoring.send_alert sendMail d sender _ tk _) as [sent fx]
    eqn:Hsend.
  assert (forall x,
            x ∈ match sent with
                | Ok _ => fx
                | Throw _ =>
                    fx ++ [ConsoleError
                             "Failed to send parent notification (async)"]
                end ->
            (exists what, x = ConsoleError what) \/ x ∈ fx) as Hfx'.
  { intros x Hin. destruct sent; [by right|].
    apply elem_of_app in Hin as [?|Hin]; [by right|].
    apply list_elem_of_singleton in Hin. left. by eexists. }
  destruct (Monitoring.preview (t_contentType tk) (t_content tk) 100)
    as [c|?] eqn:Hprev; cbn [snd]; intros Hin;
    apply elem_of_app in Hin as [Hin|Hin].
  - destruct (Hfx' _ Hin) as [?|Hin']; [by left|]. right. left.
    exists sender, (snd <$> chat). by rewrite Hsend.
  - apply list_elem_of_singleton in Hin. right. right. by exists c.
  - destruct (Hfx' _ Hin) as [?|Hin']; [by left|]. right. left.
    exists sender, (snd <$> chat). by rewrite Hsend.
  - apply list_elem_of_singleton in Hin. left. by eexists.
Qed.


(** X24.  Once the sender has a guardian address on record and the chat id
    of the blocked message is an ObjectId, the incident is logged whatever
    became of the mail: whether the transport delivered it, refused it, or
    composing it failed on a dangling participant, the callback still ends
    with one incident entry for the sender and the chat, after any mail
    attempt.  The sender's age is not looked at.  When the chat id is no
    ObjectId, the lookup of the chat throws outside the inner [try]: no mail
    is attempted and no incident is logged. *)
Theorem incident_logged_whatever_the_mail d tk sender :
  users d !! t_senderId tk = Some sender ->
  Monitoring.no_parentEmail sender = false ->
  (t_contentType tk = "text" -> exists s, t_content tk = JStr s) ->
  (forall k,
     ObjectId.cast (chats d) (t_chatId tk) = Ok k ->
     exists fx c,
       (Monitoring.notify sendMail d tk).2
       = fx ++ [Incident (t_contentType tk) (t_senderId tk) (t_chatId tk) c]
       /\ Monitoring.preview (t_contentType tk) (t_content tk) 100 = Ok c
       /\ Forall (fun e => forall ct u ch x, e <> Incident ct u ch x) fx)
  /\ (forall m,
        ObjectId.cast (chats d) (t_chatId tk) = Throw m ->
        (Monitoring.notify sendMail d tk).2
        = [ConsoleError "Error in async parent notification"]).
Proof.
  intros Hs Hp Htext. split.
  - intros k Hk.
    assert (exists c,
              Monitoring.preview (t_contentType tk) (t_content tk) 100 = Ok c)
      as [c Hc].
    { unfold Monitoring.preview.
      destruct (bool_decide (t_contentType tk = "text")) eqn:Ht;
        [|by eexists].
      apply bool_decide_eq_true in Ht. destruct (Htext Ht) as [s ->].
      by eexists. }
    unfold Monitoring.notify, Monitoring.notify_body.
    rewrite Hs, Hp.
    destruct (findById_cast (chats d) (t_chatId tk))
      as [(m & Hm & _)|(k' & _ & ->)]; [congruence|].
    pose proof (send_alert_effects d sender
                  (default "" (User.parentEmail sender)) tk
                  (snd <$> (pair k' <$> chats d !! k'))) as Hfx.
    destruct (Monitoring.send_alert sendMail d sender _ tk _) as [sent fx].
    rewrite Hc. cbn [snd] in *.
    eexists _, c. split; [reflexivity|]. split; [done|].
    assert (Forall (fun e => forall ct u ch x, e <> Incident ct u ch x) fx)
      as Hno.
    { apply Forall_forall. intros e Hin ct u ch x ->.
      destruct (Hfx _ Hin) as [[what [=]]|(a & [=] & _)]. }
    destruct sent; [done|].
    apply Forall_app. split; [done|]. by repeat constructor.
  - intros m Hm.
    unfold Monitoring.notify, Monitoring.notify_body.
    rewrite Hs, Hp.
    destruct (findById_cast (chats d) (t_chatId tk))
      as [(m' & _ & ->)|(k & Hk & _)]; [done|congruence].
Qed.

Section Images.
Variable classifyImage : string -> ImageMonitoring.image_outcome.

(** X25.  An image is blocked exactly when the classifier answered and the
    [result] field of its answer is the boolean [true]; any other answer and
    any failure of the request approve it and leave the queue alone.  A
    blocked image queues one notification, and the mail that notification
    later sends describes the content as "Image content": the path of the
    uploaded file is never quoted. *)
Theorem image_blocked_only_on_true_and_path_not_quoted
    imagePath senderId chatId queue :
  let r := ImageMonitoring.monitorImageContent classifyImage imagePath
             senderId chatId queue in
  (ImageMonitoring.blocked r.1 = true <->
   exists confidence categories,
     classifyImage imagePath
     = ImageMonitoring.ImageResponse (JBool true) confidence categories)
  /\ (ImageMonitoring.blocked r.1 = false ->
      r.2 = queue /\ ImageMonitoring.approved r.1 = Some true)
  /\ (ImageMonitoring.blocked r.1 = true ->
      exists tk,
        r.2 = queue ++ [tk]
        /\ t_senderId tk = senderId /\ t_chatId tk = chatId
        /\ forall d a delivered,
             Mail a delivered ∈ (Monitoring.notify sendMail d tk).2 ->
             a_contentType a = "image"
             /\ a_contentPreview a = "Image content").
Proof.
  unfold ImageMonitoring.monitorImageContent.
  destruct (classifyImage imagePath) as [result confidence categories|msg]
    eqn:Hc; cbn zeta.
  2:{ cbn. split; [|split]; [|done|done].
      split; [done|]. by intros (? & ? & ?). }
  destruct (strict_true result) eqn:Hr; cbn [fst snd ImageMonitoring.blocked
    ImageMonitoring.approved].
  - assert (result = JBool true) as ->.
    { destruct result as [| |[]| |]; done. }
    split; [|split]; [|done|].
    + split; [by eauto|done].
    + intros _. eexists. split; [reflexivity|]. cbn [t_senderId t_chatId].
      split; [done|]. split; [done|].
      intros d a delivered Hin.
      destruct (notify_effects _ _ _ Hin)
        as [[what [=]]|[(sender & chat & Hs & Hp & Hm)|(c & [=] & _)]].
      apply send_alert_effects in Hm
        as [[what [=]]|(a' & He & Hto & Hct & Hce & Hprev)].
      injection He as <- _. cbn [t_contentType] in *.
      split; [done|].
      apply preview_bounded in Hprev as (_ & _ & Himg). by apply Himg.
  - split; [|split]; [|done|done].
    split; [done|]. intros (c & cats & [= -> _ _]). done.
Qed.

End Images.

End Alerts.

(** * The further properties in the sample deployment *)

(** X1 in the sample deployment: "bad words" is blocked because the
    classifier answers [true]; an answer that is the string ["true"] is
    not. *)
Lemma only_boolean_true_blocks_witness :
  Moderation.request_text (JStr "bad words") = Some "bad words"
  /\ Moderation.is_sexual
       (Moderation.serviceCheckSexualContent Sample.classifier
          (JStr "bad words")) = true
  /\ Moderation.is_sexual
       (Moderation.serviceCheckSexualContent
          (fun _ => Moderation.HttpResponse (JStr "true"))
          (JStr "bad words")) = false.
Proof.
  assert (Moderation.request_text (JStr "bad words") = Some "bad words")
    as Ht by reflexivity.
  split; [exact Ht|]. split.
  - apply (proj2 (proj2 (proj2 (only_boolean_true_blocks Sample.classifier
                                  (JStr "bad words"))))).
    exists "bad words". split; [exact Ht|reflexivity].
  - rewrite (proj1 (proj2 (only_boolean_true_blocks
                             (fun _ => Moderation.HttpResponse (JStr "true"))
                             (JStr "bad words")))
               "bad words" (JStr "true") Ht eq_refl ltac:(discriminate)).
    reflexivity.
Defined.

(** X2 in the sample deployment: Anna's "hello", padded with U+00A0 in
    front and a space behind, is stored trimmed and fanned out to the
    chat's room.  Sent as a reply to an ObjectId no message has, the
    reference is stored and goes out as null; sent as a reply to ["nope"],
    it is refused. *)
Lemma approved_text_is_persisted_then_broadcast_witness :
  let text := String "194" (String "160" "hello ") in
  let send r := {| Socket.chatId := "c1"; Socket.content := JStr text;
                   Socket.messageType := None; Socket.replyTo := Some r |} in
  let doc reply := Message.create "hello" "text" "anna" "c1" reply 1000 in
  let dangling := "507f1f77bcf86cd799439011" in
  let out := Socket.sendMessage Sample.classifier Sample.annaSocket
               (send dangling) 1000 "m3" Sample.w0 in
  blank text = false
  /\ Sample.classifier (trim text) = Moderation.HttpResponse (JBool false)
  /\ Chat.isParticipant Sample.c1 "anna" = true
  /\ Socket.castReply (messages (db Sample.w0)) (Some dangling)
     = Ok (Some dangling)
  /\ messages (db out.1)
     = <["m3" := doc (Some dangling)]> (messages (db Sample.w0))
  /\ out.2 = [ClassifierRequest "hello";
              Emit (ToRoom "chat_c1") "newMessage" (PMessage "m3" (doc None));
              Emit (ToSocket "s1") "messageSent" (PSent "m3")]
  /\ Socket.castReply (messages (db Sample.w0)) (Some "nope")
     = Throw "Cast to ObjectId failed"
  /\ Socket.sendMessage Sample.classifier Sample.annaSocket (send "nope")
       1000 "m3" Sample.w0
     = (Sample.w0,
        [ClassifierRequest "hello";
         Emit (ToSocket "s1") "error" (PError "Failed to send message")]).
Proof.
  intros text send doc dangling out.
  assert (blank text = false) as Hb by reflexivity.
  assert (Sample.classifier (trim text)
          = Moderation.HttpResponse (JBool false)) as Hc by reflexivity.
  assert (Chat.isParticipant Sample.c1 "anna" = true) as Hp by reflexivity.
  assert (utf16_length (trim text) <= 1000)%nat as Hlen
    by (vm_compute; lia).
  assert (is_Some (users (db Sample.w0) !! "anna")) as Hu
    by (exists Sample.anna; reflexivity).
  assert (Socket.castReply (messages (db Sample.w0)) (Some dangling)
          = Ok (Some dangling)) as Hok by reflexivity.
  assert (Socket.castReply (messages (db Sample.w0)) (Some "nope")
          = Throw "Cast to ObjectId failed") as Hbad by reflexivity.
  destruct (proj1 (approved_text_is_persisted_then_broadcast
                     Sample.classifier Sample.annaSocket (send dangling)
                     1000 "m3" Sample.w0 text Sample.c1 (JBool false)
                     ltac:(discriminate) eq_refl Hb (or_introl eq_refl) Hc
                     ltac:(discriminate) eq_refl eq_refl Hp Hlen
                     ltac:(discriminate) Hu)
              (Some dangling) Hok)
    as (Hm & _ & _ & _ & Hfx).
  pose proof (proj2 (approved_text_is_persisted_then_broadcast
                       Sample.classifier Sample.annaSocket (send "nope")
                       1000 "m3" Sample.w0 text Sample.c1 (JBool false)
                       ltac:(discriminate) eq_refl Hb (or_introl eq_refl) Hc
                       ltac:(discriminate) eq_refl eq_refl Hp Hlen
                       ltac:(discriminate) Hu)
                "Cast to ObjectId failed" Hbad) as Hrefused.
  split; [exact Hb|]. split; [exact Hc|]. split; [exact Hp|].
  split; [exact Hok|]. split; [exact Hm|]. split; [exact Hfx|].
  split; [exact Hbad|exact Hrefused].
Defined.

(** X3 in the sample deployment: the classifier cannot be reached and Anna's
    message goes through. *)
Lemma classifier_outage_lets_message_through_witness :
  let data := {| Socket.chatId := "c1"; Socket.content := JStr "bad words";
                 Socket.messageType := None; Socket.replyTo := None |} in
  let out := Socket.sendMessage Sample.unreachable Sample.annaSocket data
               1000 "m3" Sample.w0 in
  let newMessage := Message.create "bad words" "text" "anna" "c1" None 1000 in
  Sample.unreachable (trim "bad words")
  = Moderation.HttpError (Some "ECONNREFUSED") "connect ECONNREFUSED"
  /\ Socket.castReply (messages (db Sample.w0)) (Socket.replyTo data)
     = Ok None
  /\ messages (db out.1) !! "m3" = Some newMessage
  /\ out.2 = [ClassifierRequest "bad words";
              Emit (ToRoom "chat_c1") "newMessage" (PMessage "m3" newMessage);
              Emit (ToSocket "s1") "messageSent" (PSent "m3")].
Proof.
  intros data out newMessage.
  assert (Sample.unreachable (trim "bad words")
          = Moderation.HttpError (Some "ECONNREFUSED") "connect ECONNREFUSED")
    as Hc by reflexivity.
  assert (utf16_length (trim "bad words") <= 1000)%nat as Hlen
    by (vm_compute; lia).
  assert (is_Some (users (db Sample.w0) !! "anna")) as Hu
    by (exists Sample.anna; reflexivity).
  destruct (classifier_outage_lets_message_through Sample.unreachable
              Sample.annaSocket data 1000 "m3" Sample.w0 "bad words"
              Sample.c1 (Some "ECONNREFUSED") "connect ECONNREFUSED" None
              ltac:(discriminate) eq_refl eq_refl eq_refl Hc eq_refl eq_refl
              eq_refl eq_refl Hlen ltac:(discriminate) Hu)
    as (_ & Hm & Hfx).
  split; [exact Hc|]. split; [reflexivity|].
  split; [exact Hm|exact Hfx].
Defined.

(** X4 in the sample deployment: text the classifier would flag, sent with
    the type ['image'], is stored and fanned out unchecked. *)
Lemma non_text_type_skips_moderation_witness :
  let data := {| Socket.chatId := "c1"; Socket.content := JStr "bad words";
                 Socket.messageType := Some "image";
                 Socket.replyTo := None |} in
  let out := Socket.sendMessage Sample.classifier Sample.annaSocket data
               1000 "m3" Sample.w0 in
  let newMessage :=
    Message.create "bad words" "image" "anna" "c1" None 1000 in
  Sample.classifier "bad words" = Moderation.HttpResponse (JBool true)
  /\ "image" ∈ ["image"; "file"; "system"]
  /\ Socket.castReply (messages (db Sample.w0)) (Socket.replyTo data)
     = Ok None
  /\ messages (db out.1) !! "m3" = Some newMessage
  /\ out.2 = [Emit (ToRoom "chat_c1") "newMessage" (PMessage "m3" newMessage);
              Emit (ToSocket "s1") "messageSent" (PSent "m3")].
Proof.
  intros data out newMessage.
  assert ("image" ∈ ["image"; "file"; "system"]) as Hty
    by apply list_elem_of_here.
  assert (utf16_length (trim "bad words") <= 1000)%nat as Hlen
    by (vm_compute; lia).
  assert (is_Some (users (db Sample.w0) !! "anna")) as Hu
    by (exists Sample.anna; reflexivity).
  destruct (non_text_type_skips_moderation Sample.classifier
              Sample.annaSocket data 1000 "m3" Sample.w0 "bad words"
              Sample.c1 "image" None ltac:(discriminate) eq_refl eq_refl
              eq_refl Hty eq_refl eq_refl eq_refl eq_refl Hlen
              ltac:(discriminate) Hu)
    as (Hm & _ & Hfx).
  split; [reflexivity|]. split; [exact Hty|]. split; [reflexivity|].
  split; [exact Hm|exact Hfx].
Defined.

(** X5 in the sample deployment: Anna has a role in the chat and is a
    participant; Cara, removed, has none and is not. *)
Lemma role_implies_membership_witness :
  ChatMembership.getUserRole Sample.c1 "anna" = Ok (Some "member")
  /\ Chat.isParticipant Sample.c1 "anna" = true
  /\ ChatMembership.getUserRole Sample.c1 "cara" = Ok None
  /\ Chat.isParticipant Sample.c1 "cara" = false.
Proof.
  assert (ChatMembership.getUserRole Sample.c1 "anna" = Ok (Some "member"))
    as Ha by reflexivity.
  assert (ChatMembership.getUserRole Sample.c1 "cara" = Ok None)
    as Hc by reflexivity.
  split; [exact Ha|].
  split; [exact (proj1 (role_implies_membership Sample.c1 "anna") _ Ha)|].
  split; [exact Hc|].
  exact (proj1 (proj2 (role_implies_membership Sample.c1 "cara")) Hc).
Defined.

Lemma sample_chat_wellFormed : ChatShape.wellFormed Sample.c1.
Proof.
  split.
  - repeat (constructor;
            [split; [by eexists|apply (bool_decide_unpack _); by vm_compute]|]).
    constructor.
  - apply (bool_decide_unpack _). by vm_compute.
Defined.

(** X6 in the sample deployment: Ben is removed from the chat. *)
Lemma removeParticipant_deactivates_witness :
  ChatShape.wellFormed Sample.c1
  /\ Chat.isParticipant Sample.c1 "ben" = true
  /\ exists c',
       ChatMembership.removeParticipant Sample.c1 "ben" = Ok c'
       /\ Chat.isParticipant c' "ben" = false
       /\ Chat.isParticipant c' "anna" = true
       /\ Chat.user <$> Chat.participants c'
          = [Some "anna"; Some "ben"; Some "cara"].
Proof.
  split; [exact sample_chat_wellFormed|]. split; [reflexivity|].
  destruct (removeParticipant_deactivates Sample.c1 "ben"
              sample_chat_wellFormed) as (c' & Hr & Hb & Ho & Hu & _).
  exists c'. split; [exact Hr|]. split; [exact Hb|].
  split; [|exact Hu].
  rewrite (Ho "anna" ltac:(discriminate)). reflexivity.
Defined.

(** X7 in the sample deployment: Cara, removed earlier, is added again; her
    entry is switched back on and no second one is made. *)
Lemma addParticipant_activates_witness :
  ChatShape.wellFormed Sample.c1
  /\ "member" ∈ ChatMembership.roles
  /\ Chat.isParticipant Sample.c1 "cara" = false
  /\ exists c',
       ChatMembership.addParticipant Sample.c1 "cara" "member" = Ok c'
       /\ Chat.isParticipant c' "cara" = true
       /\ Chat.user <$> Chat.participants c'
          = [Some "anna"; Some "ben"; Some "cara"].
Proof.
  assert ("member" ∈ ChatMembership.roles) as Hrole
    by apply list_elem_of_here.
  assert (Some "cara" ∈ Chat.user <$> Chat.participants Sample.c1) as Hin
    by (apply (bool_decide_unpack _); by vm_compute).
  split; [exact sample_chat_wellFormed|]. split; [exact Hrole|].
  split; [reflexivity|].
  destruct (proj1 (addParticipant_activates Sample.c1 "cara" "member"
                     sample_chat_wellFormed) Hrole)
    as (c' & Ha & Hp & _ & _ & _ & Hsame & _).
  exists c'. split; [exact Ha|]. split; [exact Hp|]. exact (Hsame Hin).
Defined.

(** X9 in the sample deployment: Anna deletes her own message. *)
Lemma delete_needs_authority_witness :
  let req := Sample.request "anna" {[ "id" := "m1" ]} JUndefined "" in
  Message.sender Sample.m1 = Controller.user_id req
  /\ Message.valid Sample.m1 = true
  /\ Deletion.deleteMessage req "user" 1000 Sample.w0
     = (set_db (set_messages
                  (<["m1" := Deletion.set_deleted Sample.m1]>
                     (messages (db Sample.w0)))
                  (db Sample.w0)) Sample.w0,
        Controller.ok 200 "Message deleted successfully" Controller.DNone,
        Controller.emitToParticipants true Sample.c1 "messageDeleted"
          (Deletion.deleted_payload "m1" "c1")).
Proof.
  intros req.
  split; [reflexivity|]. split; [reflexivity|].
  exact (proj2 (delete_needs_authority req "user" 1000 Sample.w0)
           "m1" Sample.m1 Sample.c1 eq_refl eq_refl eq_refl eq_refl eq_refl
           eq_refl).
Defined.

(** X10 in the sample deployment: after Anna's delete, her edit of the
    message is refused and so is a second delete. *)
Lemma deleted_message_is_sealed_witness :
  let del := Sample.request "anna" {[ "id" := "m1" ]} JUndefined "" in
  let w := (Deletion.deleteMessage del "user" 1000 Sample.w0).1.1 in
  let edit := Sample.request "anna" {[ "id" := "m1" ]} (JStr "hello!") "" in
  messages (db w) !! "m1" = Some (Deletion.set_deleted Sample.m1)
  /\ Controller.editMessage edit 1001 w
     = (w, Controller.reply 400 "Cannot edit deleted message", [])
  /\ Deletion.deleteMessage del "user" 1002 w
     = (w, Controller.reply 400 "Message is already deleted", []).
Proof.
  intros del w edit.
  assert (messages (db w) !! "m1" = Some (Deletion.set_deleted Sample.m1))
    as Hm by (vm_compute; reflexivity).
  destruct (deleted_message_is_sealed w "m1" (Deletion.set_deleted Sample.m1)
              Hm eq_refl) as (Hedit & _ & Hdel & _).
  split; [exact Hm|]. split.
  - exact (Hedit edit 1001 "hello!" eq_refl eq_refl eq_refl).
  - exact (Hdel del "user" 1002 eq_refl).
Defined.

(** X11 in the sample deployment: on the edit route, text the classifier
    does not flag reaches the handler, after the one request. *)
Lemma moderated_route_passes_unless_flagged_witness :
  let req :=
    Sample.request "anna" {[ "id" := "m1" ]} (JStr "hello again") "" in
  let handled := Controller.editMessage req 1000 Sample.w0 in
  Sample.classifier "hello again" = Moderation.HttpResponse (JBool false)
  /\ Routes.moderated Sample.classifier Controller.editMessage req 1000
       Sample.w0
     = (handled.1.1, handled.1.2,
        ClassifierRequest "hello again" :: handled.2)
  /\ Controller.status handled.1.2 = 200.
Proof.
  intros req handled.
  assert (forall t,
            Moderation.request_text (Controller.body_content req) = Some t ->
            Sample.classifier t <> Moderation.HttpResponse (JBool true))
    as Hok.
  { intros t Ht.
    assert (t = "hello again") as -> by (vm_compute in Ht; congruence).
    discriminate. }
  split; [reflexivity|]. split; [|reflexivity].
  exact (moderated_route_passes_unless_flagged Sample.classifier
           Controller.editMessage req 1000 Sample.w0 Hok).
Defined.

(** X12 in the sample deployment: Ben opens a second connection, which is
    put in his personal room and in the room of the chat he is in. *)
Lemma connection_joins_member_chats_witness :
  let sock := {| Socket.id := "s4"; Socket.userId := "ben";
                 Socket.username := "ben" |} in
  let w' := (Socket.connection sock 1000 Sample.w0).1 in
  Socket.id sock <> ""
  /\ Chat.isParticipant Sample.c1 "ben" = true
  /\ connectedUsers w' !! "ben" = Some "s4"
  /\ "s4" ∈ members w' (Socket.user_room "ben")
  /\ "s4" ∈ members w' (Socket.chat_room "c1")
  /\ Socket.getUserStatus w' "ben" = true.
Proof.
  intros sock w'.
  assert (Socket.id sock <> "") as Hid by discriminate.
  destruct (connection_joins_member_chats sock 1000 Sample.w0 Hid)
    as (Hcu & _ & Hown & Hchats & _ & Hst & _).
  split; [exact Hid|]. split; [reflexivity|]. split; [exact Hcu|].
  split; [exact Hown|]. split; [|exact Hst].
  exact (Hchats "c1" Sample.c1 eq_refl eq_refl eq_refl).
Defined.

(** X13 in the sample deployment: Cara, whose entry in the chat is switched
    off, reconnects and is put in the chat's room again. *)
Lemma removed_member_rejoins_room_on_connect_witness :
  let sock := {| Socket.id := "s5"; Socket.userId := "cara";
                 Socket.username := "cara" |} in
  Chat.isParticipant Sample.c1 "cara" = false
  /\ Sample.member "cara" false ∈ Chat.participants Sample.c1
  /\ Sample.member "anna" true ∈ Chat.participants Sample.c1
  /\ "s5" ∈ members (Socket.connection sock 1000 Sample.w0).1
                    (Socket.chat_room "c1").
Proof.
  intros sock.
  assert (Sample.member "cara" false ∈ Chat.participants Sample.c1) as Hp
    by apply list_elem_of_further, list_elem_of_further, list_elem_of_here.
  assert (Sample.member "anna" true ∈ Chat.participants Sample.c1) as Hq
    by apply list_elem_of_here.
  split; [reflexivity|]. split; [exact Hp|]. split; [exact Hq|].
  exact (removed_member_rejoins_room_on_connect sock 1000 Sample.w0 "c1"
           Sample.c1 (Sample.member "cara" false) (Sample.member "anna" true)
           eq_refl eq_refl Hp eq_refl Hq eq_refl).
Defined.



(** X20 in the sample deployment: Anna fetches the chat and Cara's message,
    unread until then, is marked read by her. *)
Lemma fetch_marks_page_read_witness :
  let req := Sample.request "anna" {[ "chatId" := "c1" ]} JUndefined "" in
  let out := Controller.getChatMessages (fun l => l) req 1000 Sample.w0 in
  ("m2", Sample.m2) ∈ Controller.in_chat "c1" (messages (db Sample.w0))
  /\ Message.read_by "anna" Sample.m2 = false
  /\ exists m',
       messages (db out.1.1) !! "m2" = Some m'
       /\ Message.read_by "anna" m' = true
       /\ m' = Message.set_readBy (Message.readBy m') Sample.m2.
Proof.
  intros req out.
  assert (("m2", Sample.m2)
            ∈ Controller.in_chat "c1" (messages (db Sample.w0))) as Hin.
  { apply list_elem_of_filter. split; [by split|].
    apply elem_of_map_to_list. reflexivity. }
  split; [exact Hin|]. split; [reflexivity|].
  destruct (proj1 (fetch_marks_page_read (fun l => l) req 1000 Sample.w0
                     "c1" Sample.c1 (fun l x H => H) eq_refl eq_refl eq_refl
                     eq_refl) "m2" Sample.m2 Hin)
    as (_ & _ & _ & Hm').
  exact Hm'.
Defined.

(** X21 in the sample deployment: Anna replies to a message of the chat, to
    an ObjectId no message has, and to ["nope"]; and, with a message on file
    under an ObjectId, to that id written in upper case. *)
Lemma rest_reply_must_be_in_chat_witness :
  let reply r :=
    {| Controller.params := {[ "chatId" := "c1" ]};
       Controller.body_content := JStr "re: hello";
       Controller.body_emoji := ""; Controller.body_messageType := None;
       Controller.body_replyTo := Some r; Controller.user_id := "anna";
       Controller.io := true |} in
  let newMessage :=
    Message.create "re: hello" "text" "anna" "c1" (Some "m2") 1000 in
  let dangling := "507f1f77bcf86cd799439011" in
  messages (db Sample.w0) !! "m2" = Some Sample.m2
  /\ ObjectId.cast (messages (db Sample.w0)) "m2" = Ok "m2"
  /\ messages (db (Controller.sendMessage (reply "m2") 1000 "m3"
                     Sample.w0).1.1) !! "m3" = Some newMessage
  /\ ObjectId.cast (messages (db Sample.w0)) dangling = Ok dangling
  /\ messages (db Sample.w0) !! dangling = None
  /\ Controller.sendMessage (reply dangling) 1000 "m3" Sample.w0
     = (Sample.w0, Controller.reply 400 "Invalid reply message", [])
  /\ ObjectId.cast (messages (db Sample.w0)) "nope"
     = Throw "Cast to ObjectId failed"
  /\ Controller.sendMessage (reply "nope") 1000 "m3" Sample.w0
     = (Sample.w0, Controller.reply 500 "Failed to send message", [])
  /\ (let w1 :=
        set_db (set_messages
                  (<["507f1f77bcf86cd79943a0b1" := Sample.m1]>
                     (messages (db Sample.w0))) (db Sample.w0)) Sample.w0 in
      ObjectId.cast (messages (db w1)) "507F1F77BCF86CD79943A0B1"
      = Ok "507f1f77bcf86cd79943a0b1"
      /\ Message.replyTo
           <$> messages (db (Controller.sendMessage
                               (reply "507F1F77BCF86CD79943A0B1") 1000 "m3"
                               w1).1.1) !! "m3"
         = Some (Some "507f1f77bcf86cd79943a0b1")).
Proof.
  intros reply newMessage dangling.
  assert (messages (db Sample.w0) !! dangling = None) as Hnone
    by reflexivity.
  assert (ObjectId.cast (messages (db Sample.w0)) dangling = Ok dangling)
    as Hd by reflexivity.
  assert (ObjectId.cast (messages (db Sample.w0)) "nope"
          = Throw "Cast to ObjectId failed") as Hn by reflexivity.
  split; [reflexivity|]. split; [reflexivity|]. split.
  { exact (proj1 (proj2 (proj2 (rest_reply_must_be_in_chat (reply "m2") 1000
                           "m3" Sample.w0 "c1" Sample.c1 "re: hello" "m2"
                           eq_refl eq_refl eq_refl eq_refl eq_refl eq_refl
                           eq_refl ltac:(discriminate)))
                   "m2" Sample.m2 eq_refl eq_refl eq_refl eq_refl)). }
  split; [exact Hd|]. split; [exact Hnone|]. split.
  { apply (proj1 (proj2 (rest_reply_must_be_in_chat (reply dangling) 1000
                           "m3" Sample.w0 "c1" Sample.c1 "re: hello" dangling
                           eq_refl eq_refl eq_refl eq_refl eq_refl eq_refl
                           eq_refl ltac:(discriminate)))
             dangling Hd).
    intros target Ht. rewrite Hnone in Ht. discriminate. }
  split; [exact Hn|]. split.
  { exact (proj1 (rest_reply_must_be_in_chat (reply "nope") 1000 "m3"
                    Sample.w0 "c1" Sample.c1 "re: hello" "nope" eq_refl
                    eq_refl eq_refl eq_refl eq_refl eq_refl eq_refl
                    ltac:(discriminate))
             "Cast to ObjectId failed" Hn). }
  intros w1.
  assert (ObjectId.cast (messages (db w1)) "507F1F77BCF86CD79943A0B1"
          = Ok "507f1f77bcf86cd79943a0b1") as Hup by reflexivity.
  split; [exact Hup|].
  destruct (proj2 (proj2 (rest_reply_must_be_in_chat
                            (reply "507F1F77BCF86CD79943A0B1") 1000 "m3" w1
                            "c1" Sample.c1 "re: hello"
                            "507F1F77BCF86CD79943A0B1" eq_refl eq_refl
                            eq_refl eq_refl eq_refl eq_refl eq_refl
                            ltac:(discriminate)))
              "507f1f77bcf86cd79943a0b1" Sample.m1 Hup eq_refl eq_refl
              eq_refl) as (Hstored & _).
  by rewrite Hstored.
Defined.


(** X24 in the sample deployment: the mail transport refuses the alert and
    the incident is logged all the same; with the chat id ["lobby"] nothing
    is mailed or logged as an incident. *)
Lemma incident_logged_whatever_the_mail_witness :
  let tk := {| t_content := JStr "bad words"; t_senderId := "anna";
               t_chatId := "c1"; t_contentType := "text" |} in
  let lobby := {| t_content := JStr "bad words"; t_senderId := "anna";
                  t_chatId := "lobby"; t_contentType := "text" |} in
  Monitoring.no_parentEmail Sample.anna = false
  /\ ObjectId.cast (chats Sample.store0) "c1" = Ok "c1"
  /\ (exists fx c,
        (Monitoring.notify (fun _ => false) Sample.store0 tk).2
        = fx ++ [Incident "text" "anna" "c1" c]
        /\ Monitoring.preview "text" (JStr "bad words") 100 = Ok c
        /\ Forall (fun e => forall ct u ch x, e <> Incident ct u ch x) fx)
  /\ ObjectId.cast (chats Sample.store0) "lobby"
     = Throw "Cast to ObjectId failed"
  /\ (Monitoring.notify (fun _ => false) Sample.store0 lobby).2
     = [ConsoleError "Error in async parent notification"].
Proof.
  intros tk lobby.
  split; [reflexivity|]. split; [reflexivity|]. split.
  - exact (proj1 (incident_logged_whatever_the_mail (fun _ => false)
                    Sample.store0 tk Sample.anna eq_refl eq_refl
                    (fun _ => ex_intro _ "bad words" eq_refl))
             "c1" eq_refl).
  - split; [reflexivity|].
    exact (proj2 (incident_logged_whatever_the_mail (fun _ => false)
                    Sample.store0 lobby Sample.anna eq_refl eq_refl
                    (fun _ => ex_intro _ "bad words" eq_refl))
             "Cast to ObjectId failed" eq_refl).
Defined.

(** X25 in the sample deployment: an image the classifier flags. *)
Lemma image_blocked_only_on_true_and_path_not_quoted_witness :
  let classifyImage (_ : string) :=
    ImageMonitoring.ImageResponse (JBool true) (JNum 97) (Some ["nudity"]) in
  let r := ImageMonitoring.monitorImageContent classifyImage
             "uploads/a.png" "anna" "c1" [] in
  ImageMonitoring.blocked r.1 = true
  /\ exists tk,
       r.2 = [] ++ [tk]
       /\ t_senderId tk = "anna" /\ t_chatId tk = "c1"
       /\ forall d a delivered,
            Mail a delivered ∈ (Monitoring.notify (fun _ => true) d tk).2 ->
            a_contentType a = "image"
            /\ a_contentPreview a = "Image content".
Proof.
  intros classifyImage r.
  destruct (image_blocked_only_on_true_and_path_not_quoted (fun _ => true)
              classifyImage "uploads/a.png" "anna" "c1" [])
    as (Hiff & _ & Hblocked).
  assert (ImageMonitoring.blocked r.1 = true) as Hb.
  { apply Hiff. exists (JNum 97), (Some ["nudity"]). reflexivity. }
  split; [exact Hb|exact (Hblocked Hb)].
Defined.
